(** * kernel/power/suspend.c : suspend to RAM, standby and freeze

    A shallow embedding of the suspend sequence of [suspend.c].  The C
    functions become computations in a state monad over the file's global
    variables.  Functions that live outside the file (the device framework,
    the notifier chain, the CPU hotplug code, the platform driver's
    callbacks, ...) are parameters: each call is appended to a log kept in
    the state, and its return value is whatever an oracle says for the log
    seen so far.  Pure logging ([printk], [pr_info], trace points,
    [pm_suspend_marker], [suspend_test_start]/[suspend_test_finish]) is left
    out. *)

From Stdlib Require Import ZArith List Bool Lia.
Import ListNotations.
Local Open Scope Z_scope.

(** ** Constants of the headers *)

(** [suspend_state_t] is an [int]; the values are those of linux/suspend.h. *)
Definition suspend_state_t := Z.
Definition PM_SUSPEND_ON      : suspend_state_t := 0.
Definition PM_SUSPEND_FREEZE  : suspend_state_t := 1.
Definition PM_SUSPEND_STANDBY : suspend_state_t := 2.
Definition PM_SUSPEND_MEM     : suspend_state_t := 3.
Definition PM_SUSPEND_MAX     : suspend_state_t := 4.

Definition EPERM  := 1.
Definition EBUSY  := 16.
Definition ENODEV := 19.
Definition EINVAL := 22.
Definition ENOSYS := 38.

(** The suspend test levels of power.h, the values [pm_test_level] takes. *)
Inductive test_level :=
| TEST_NONE | TEST_CORE | TEST_CPUS | TEST_PLATFORM | TEST_DEVICES | TEST_FREEZER.

Definition test_level_eqb (a b : test_level) : bool :=
  match a, b with
  | TEST_NONE, TEST_NONE | TEST_CORE, TEST_CORE | TEST_CPUS, TEST_CPUS
  | TEST_PLATFORM, TEST_PLATFORM | TEST_DEVICES, TEST_DEVICES
  | TEST_FREEZER, TEST_FREEZER => true
  | _, _ => false
  end.

(** The two notifications this file broadcasts. *)
Inductive pm_event := PM_SUSPEND_PREPARE | PM_POST_SUSPEND.

(** ** The call log *)

(** Functions defined outside suspend.c. *)
Inductive call :=
| c_asus_otg_host_power_off
| c_mutex_trylock | c_mutex_unlock
| c_sys_sync
| c_pm_prepare_console | c_pm_restore_console
| c_pm_notifier_call_chain (val : pm_event)
| c_suspend_freeze_processes | c_suspend_thaw_processes
| c_dpm_save_failed_step | c_dpm_save_failed_errno (err : Z)
| c_mdelay (ms : Z)
| c_pm_restrict_gfp_mask | c_pm_restore_gfp_mask
| c_del_timer | c_mod_timer
| c_suspend_console | c_resume_console
| c_ftrace_stop | c_ftrace_start
| c_dpm_suspend_start | c_dpm_resume_end
| c_dpm_suspend_end | c_dpm_resume_start
| c_disable_nonboot_cpus | c_enable_nonboot_cpus
| c_arch_suspend_disable_irqs | c_arch_suspend_enable_irqs
| c_syscore_suspend | c_syscore_resume
| c_pm_wakeup_pending
| c_ops_valid (state : suspend_state_t)
| c_ops_begin (state : suspend_state_t)
| c_ops_prepare | c_ops_prepare_late
| c_ops_enter (state : suspend_state_t)
| c_ops_wake | c_ops_finish | c_ops_end | c_ops_recover
| c_ops_suspend_again.

(** Functions of suspend.c whose entry and return are logged. *)
Inductive fn :=
| f_freeze_begin | f_freeze_enter
| f_suspend_prepare | f_suspend_enter | f_suspend_devices_and_enter
| f_suspend_finish.

(** [Call c r]: the outside function [c] was called and returned [r] (0 for
    a [void] function, 0/1 for a [bool]).  [Enter f], [Leave f r]: a function
    of this file was entered, and returned [r]. *)
Inductive event :=
| Call (c : call) (r : Z)
| Enter (f : fn)
| Leave (f : fn) (r : Z).

(** A history, most recent event first. *)
Definition hist := list event.

Definition pm_event_eq_dec (a b : pm_event) : {a = b} + {a <> b}.
Proof. decide equality. Defined.

Definition call_eq_dec (a b : call) : {a = b} + {a <> b}.
Proof. decide equality; try apply Z.eq_dec; apply pm_event_eq_dec. Defined.

Definition fn_eq_dec (a b : fn) : {a = b} + {a <> b}.
Proof. decide equality. Defined.

Definition event_eq_dec (a b : event) : {a = b} + {a <> b}.
Proof.
  decide equality; try apply Z.eq_dec; try apply call_eq_dec; apply fn_eq_dec.
Defined.

(** ** The data *)

(** [struct platform_suspend_ops]: a table of optional callbacks.  A callback
    that returns a value is [Some] oracle, or [None] for a NULL pointer; a
    [void] callback is only present ([true]) or NULL. *)
Record platform_suspend_ops := mkOps {
  valid         : option (suspend_state_t -> hist -> Z);
  begin         : option (suspend_state_t -> hist -> Z);
  prepare       : option (hist -> Z);
  prepare_late  : option (hist -> Z);
  enter         : option (suspend_state_t -> hist -> Z);
  wake          : bool;
  finish        : bool;
  end_          : bool;
  recover       : bool;
  suspend_again : option (hist -> bool)
}.

(** Modelled from the spec: [struct suspend_stats] is declared in
    linux/suspend.h, outside this file; the spec describes its counters as
    monotonically updated counts, so they are unbounded integers here.  Only
    the three counters suspend.c itself increments are kept. *)
Record suspend_stats_t := mkStats {
  success       : Z;
  fail          : Z;
  failed_freeze : Z
}.

(** The global variables the file reads and writes, and the call log. *)
Record machine := mkMachine {
  suspend_ops               : option platform_suspend_ops;
  pm_mutex                  : bool;  (* true: held *)
  suspend_freeze_wake       : bool;
  pm_test_level             : test_level;
  suspend_stats             : suspend_stats_t;
  irqs_disabled             : bool;
  events_check_enabled      : bool;
  g_keycheck_abort          : Z;
  pm_stay_unattended_period : Z;
  g_resume_status           : bool;
  pm_pwrcs_ret              : Z;
  trace                     : hist
}.

Definition set_pm_mutex v s :=
  mkMachine (suspend_ops s) v (suspend_freeze_wake s) (pm_test_level s)
    (suspend_stats s) (irqs_disabled s) (events_check_enabled s)
    (g_keycheck_abort s) (pm_stay_unattended_period s) (g_resume_status s)
    (pm_pwrcs_ret s) (trace s).
Definition set_suspend_freeze_wake v s :=
  mkMachine (suspend_ops s) (pm_mutex s) v (pm_test_level s)
    (suspend_stats s) (irqs_disabled s) (events_check_enabled s)
    (g_keycheck_abort s) (pm_stay_unattended_period s) (g_resume_status s)
    (pm_pwrcs_ret s) (trace s).
Definition set_suspend_stats v s :=
  mkMachine (suspend_ops s) (pm_mutex s) (suspend_freeze_wake s)
    (pm_test_level s) v (irqs_disabled s) (events_check_enabled s)
    (g_keycheck_abort s) (pm_stay_unattended_period s) (g_resume_status s)
    (pm_pwrcs_ret s) (trace s).
Definition set_irqs_disabled v s :=
  mkMachine (suspend_ops s) (pm_mutex s) (suspend_freeze_wake s)
    (pm_test_level s) (suspend_stats s) v (events_check_enabled s)
    (g_keycheck_abort s) (pm_stay_unattended_period s) (g_resume_status s)
    (pm_pwrcs_ret s) (trace s).
Definition set_events_check_enabled v s :=
  mkMachine (suspend_ops s) (pm_mutex s) (suspend_freeze_wake s)
    (pm_test_level s) (suspend_stats s) (irqs_disabled s) v
    (g_keycheck_abort s) (pm_stay_unattended_period s) (g_resume_status s)
    (pm_pwrcs_ret s) (trace s).
Definition set_g_keycheck_abort v s :=
  mkMachine (suspend_ops s) (pm_mutex s) (suspend_freeze_wake s)
    (pm_test_level s) (suspend_stats s) (irqs_disabled s)
    (events_check_enabled s) v (pm_stay_unattended_period s)
    (g_resume_status s) (pm_pwrcs_ret s) (trace s).
Definition set_pm_stay_unattended_period v s :=
  mkMachine (suspend_ops s) (pm_mutex s) (suspend_freeze_wake s)
    (pm_test_level s) (suspend_stats s) (irqs_disabled s)
    (events_check_enabled s) (g_keycheck_abort s) v (g_resume_status s)
    (pm_pwrcs_ret s) (trace s).
Definition set_g_resume_status v s :=
  mkMachine (suspend_ops s) (pm_mutex s) (suspend_freeze_wake s)
    (pm_test_level s) (suspend_stats s) (irqs_disabled s)
    (events_check_enabled s) (g_keycheck_abort s)
    (pm_stay_unattended_period s) v (pm_pwrcs_ret s) (trace s).
Definition set_pm_pwrcs_ret v s :=
  mkMachine (suspend_ops s) (pm_mutex s) (suspend_freeze_wake s)
    (pm_test_level s) (suspend_stats s) (irqs_disabled s)
    (events_check_enabled s) (g_keycheck_abort s)
    (pm_stay_unattended_period s) (g_resume_status s) v (trace s).
Definition set_trace v s :=
  mkMachine (suspend_ops s) (pm_mutex s) (suspend_freeze_wake s)
    (pm_test_level s) (suspend_stats s) (irqs_disabled s)
    (events_check_enabled s) (g_keycheck_abort s)
    (pm_stay_unattended_period s) (g_resume_status s) (pm_pwrcs_ret s) v.

Definition incr_success (t : suspend_stats_t) :=
  mkStats (success t + 1) (fail t) (failed_freeze t).
Definition incr_fail (t : suspend_stats_t) :=
  mkStats (success t) (fail t + 1) (failed_freeze t).
Definition incr_failed_freeze (t : suspend_stats_t) :=
  mkStats (success t) (fail t) (failed_freeze t + 1).

(** The outside world: the build configuration, the return value of every
    outside function as a function of the history at the time of the call,
    and the moments at which an outside wake source calls [freeze_wake]. *)
Record env := mkEnv {
  CONFIG_PM_DEBUG          : bool;
  pm_notifier_call_chain   : pm_event -> hist -> Z;
  suspend_freeze_processes : hist -> Z;
  dpm_suspend_start        : hist -> Z;
  dpm_suspend_end          : hist -> Z;
  disable_nonboot_cpus     : hist -> Z;
  syscore_suspend          : hist -> Z;
  pm_wakeup_pending        : hist -> bool;
  freeze_wake_irq          : hist -> bool
}.

(** ** The monad: state, and the ways a call can fail to return *)

Inductive stop :=
| Blocked     (* asleep in [wait_event], and nobody calls [freeze_wake] *)
| OutOfFuel   (* the [suspend_again] loop ran longer than the fuel given *)
| NullDeref   (* a field of a NULL [suspend_ops] was read, or NULL called *)
| BugOn.      (* a [BUG_ON] fired *)

Inductive outcome (A : Type) :=
| Ret (a : A) (s : machine)
| Stop (why : stop) (s : machine).
Arguments Ret {A} a s.
Arguments Stop {A} why s.

Definition M (A : Type) := machine -> outcome A.

Definition final {A} (o : outcome A) : machine :=
  match o with Ret _ s => s | Stop _ s => s end.

Definition ret {A} (a : A) : M A := fun s => Ret a s.

Definition bind {A B} (m : M A) (k : A -> M B) : M B :=
  fun s => match m s with
           | Ret a s' => k a s'
           | Stop why s' => Stop why s'
           end.

Notation "x <- m ;; k" := (bind m (fun x => k))
  (at level 61, m at next level, right associativity).
Notation "m ;; k" := (bind m (fun _ => k))
  (at level 61, right associativity).

Definition get {X} (f : machine -> X) : M X := fun s => Ret (f s) s.
Definition modify (f : machine -> machine) : M unit := fun s => Ret tt (f s).
Definition halt {A} (why : stop) : M A := fun s => Stop why s.
Definition when (b : bool) (m : M unit) : M unit := if b then m else ret tt.

(** ** The functions of suspend.c *)

Section Suspend.

Variable E : env.

(** [freeze_wake]: sets the flag; [wake_up] releases the waiter of
    [freeze_enter], which is modelled there. *)
Definition freeze_wake : M unit := modify (set_suspend_freeze_wake true).

(** A point at which the outside world can run: when the oracle says so for
    the current history, a wake source calls [freeze_wake]. *)
Definition interrupt : M unit :=
  modify (fun s =>
    set_suspend_freeze_wake
      (suspend_freeze_wake s || freeze_wake_irq E (trace s)) s).

(** Log an event; every logged event is followed by an interrupt point. *)
Definition emit (e : event) : M unit :=
  modify (fun s => set_trace (e :: trace s) s);; interrupt.

Definition call_int (c : call) (f : hist -> Z) : M Z :=
  h <- get trace;;
  emit (Call c (f h));;
  ret (f h).

Definition call_bool (c : call) (f : hist -> bool) : M bool :=
  h <- get trace;;
  emit (Call c (Z.b2z (f h)));;
  ret (f h).

Definition call_void (c : call) : M unit := emit (Call c 0).

(** A logged function of this file returning an [int]. *)
Definition logged (f : fn) (body : M Z) : M Z :=
  emit (Enter f);;
  r <- body;;
  emit (Leave f r);;
  ret r.

Definition BUG_ON (cond : bool) : M unit :=
  if cond then halt BugOn else ret tt.

Definition need_suspend_ops (state : suspend_state_t) : bool :=
  PM_SUSPEND_FREEZE <? state.

(** Reading a field of [*suspend_ops]. *)
Definition ops_deref : M platform_suspend_ops :=
  o <- get suspend_ops;;
  match o with
  | Some ops => ret ops
  | None => halt NullDeref
  end.

(** [if (need_suspend_ops(state) && suspend_ops->cb) suspend_ops->cb();] for a
    [void] callback. *)
Definition ops_void (state : suspend_state_t)
    (cb : platform_suspend_ops -> bool) (c : call) : M unit :=
  if need_suspend_ops state then
    ops <- ops_deref;;
    when (cb ops) (call_void c)
  else ret tt.

(** [if (need_suspend_ops(state) && suspend_ops->cb) error = suspend_ops->cb();]
    The result is 0 when the callback is not called: at each use [error] is
    0 or not yet assigned, and is tested or overwritten next. *)
Definition ops_int (state : suspend_state_t)
    (cb : platform_suspend_ops -> option (hist -> Z)) (c : call) : M Z :=
  if need_suspend_ops state then
    ops <- ops_deref;;
    match cb ops with
    | Some f => call_int c f
    | None => ret 0
    end
  else ret 0.

Definition freeze_begin : M unit :=
  emit (Enter f_freeze_begin);;
  modify (set_suspend_freeze_wake false);;
  emit (Leave f_freeze_begin 0).

(** [wait_event(suspend_freeze_wait_head, suspend_freeze_wake)]: returns at
    once when the flag is set; otherwise sleeps until [freeze_wake] is called,
    which the interrupt point after [Enter f_freeze_enter] stands for; when
    no wake source calls it, the caller never returns. *)
Definition freeze_enter : M unit :=
  emit (Enter f_freeze_enter);;
  w <- get suspend_freeze_wake;;
  if w then emit (Leave f_freeze_enter 0) else halt Blocked.

Definition valid_state (state : suspend_state_t) : M bool :=
  if state =? PM_SUSPEND_FREEZE then
    l <- get pm_test_level;;
    if CONFIG_PM_DEBUG E
       && negb (test_level_eqb l TEST_NONE)
       && negb (test_level_eqb l TEST_FREEZER)
       && negb (test_level_eqb l TEST_DEVICES)
       && negb (test_level_eqb l TEST_PLATFORM)
    then ret false
    else ret true
  else
    o <- get suspend_ops;;
    match o with
    | None => ret false
    | Some ops =>
        match valid ops with
        | None => ret false
        | Some f =>
            r <- call_int (c_ops_valid state) (f state);;
            ret (negb (r =? 0))
        end
    end.

Definition suspend_valid_only_mem (state : suspend_state_t) : Z :=
  Z.b2z (state =? PM_SUSPEND_MEM).

Definition suspend_test (level : test_level) : M bool :=
  l <- get pm_test_level;;
  if CONFIG_PM_DEBUG E && test_level_eqb l level then
    call_void (c_mdelay 5000);;
    ret true
  else ret false.

Definition suspend_prepare_Finish (error : Z) : M Z :=
  _ <- call_int (c_pm_notifier_call_chain PM_POST_SUSPEND)
         (pm_notifier_call_chain E PM_POST_SUSPEND);;
  call_void c_pm_restore_console;;
  ret error.

Definition suspend_prepare (state : suspend_state_t) : M Z :=
  logged f_suspend_prepare (
    o <- get suspend_ops;;
    if need_suspend_ops state
       && match o with
          | None => true
          | Some ops => match enter ops with None => true | Some _ => false end
          end
    then ret (- EPERM)
    else
      call_void c_pm_prepare_console;;
      error <- call_int (c_pm_notifier_call_chain PM_SUSPEND_PREPARE)
                 (pm_notifier_call_chain E PM_SUSPEND_PREPARE);;
      if negb (error =? 0) then suspend_prepare_Finish error
      else
        modify (set_g_keycheck_abort 0);;
        error <- call_int c_suspend_freeze_processes
                   (suspend_freeze_processes E);;
        if error =? 0 then ret 0
        else
          modify (fun s =>
            set_suspend_stats (incr_failed_freeze (suspend_stats s)) s);;
          call_void c_dpm_save_failed_step;;
          suspend_prepare_Finish error).

(** The weak default implementations: [local_irq_disable()] and
    [local_irq_enable()]. *)
Definition arch_suspend_disable_irqs : M unit :=
  call_void c_arch_suspend_disable_irqs;;
  modify (set_irqs_disabled true).

Definition arch_suspend_enable_irqs : M unit :=
  call_void c_arch_suspend_enable_irqs;;
  modify (set_irqs_disabled false).

(** The labels of [suspend_enter], last first.  [wakeup] is the value left in
    [*wakeup]. *)
Definition Platform_finish (state : suspend_state_t) (error : Z)
    (wakeup : bool) : M (Z * bool) :=
  ops_void state finish c_ops_finish;;
  ret (error, wakeup).

Definition Platform_wake (state : suspend_state_t) (error : Z)
    (wakeup : bool) : M (Z * bool) :=
  ops_void state wake c_ops_wake;;
  call_void c_dpm_resume_start;;
  Platform_finish state error wakeup.

Definition Enable_cpus (state : suspend_state_t) (error : Z)
    (wakeup : bool) : M (Z * bool) :=
  call_void c_enable_nonboot_cpus;;
  Platform_wake state error wakeup.

(** [suspend_ops->enter(state)], called without a NULL test. *)
Definition ops_enter (state : suspend_state_t) : M Z :=
  ops <- ops_deref;;
  match enter ops with
  | Some f => call_int (c_ops_enter state) (f state)
  | None => halt NullDeref
  end.

Definition suspend_enter_body (state : suspend_state_t) (wakeup : bool)
    : M (Z * bool) :=
  error <- ops_int state prepare c_ops_prepare;;
  if negb (error =? 0) then Platform_finish state error wakeup
  else
    error <- call_int c_dpm_suspend_end (dpm_suspend_end E);;
    if negb (error =? 0) then Platform_finish state error wakeup
    else
      error <- ops_int state prepare_late c_ops_prepare_late;;
      if negb (error =? 0) then Platform_wake state error wakeup
      else
        t <- suspend_test TEST_PLATFORM;;
        if t then Platform_wake state error wakeup
        else if state =? PM_SUSPEND_FREEZE then
          freeze_enter;;
          Platform_wake state error wakeup
        else
          error <- call_int c_disable_nonboot_cpus (disable_nonboot_cpus E);;
          t <- (if negb (error =? 0) then ret true
                else suspend_test TEST_CPUS);;
          if t then Enable_cpus state error wakeup
          else
            arch_suspend_disable_irqs;;
            d <- get irqs_disabled;;
            BUG_ON (negb d);;
            error <- call_int c_syscore_suspend (syscore_suspend E);;
            r <- (if error =? 0 then
                    w <- call_bool c_pm_wakeup_pending (pm_wakeup_pending E);;
                    t <- suspend_test TEST_CORE;;
                    error <- (if negb (t || w) then
                                error <- ops_enter state;;
                                modify (set_events_check_enabled false);;
                                ret error
                              else ret error);;
                    call_void c_syscore_resume;;
                    ret (error, w)
                  else ret (error, wakeup));;
            arch_suspend_enable_irqs;;
            d <- get irqs_disabled;;
            BUG_ON d;;
            Enable_cpus state (fst r) (snd r).

Definition suspend_enter (state : suspend_state_t) (wakeup : bool)
    : M (Z * bool) :=
  emit (Enter f_suspend_enter);;
  r <- suspend_enter_body state wakeup;;
  emit (Leave f_suspend_enter (fst r));;
  ret r.

(** The condition of the [do ... while] loop of [suspend_devices_and_enter]. *)
Definition suspend_again_cond (state : suspend_state_t) (error : Z)
    (wakeup : bool) : M bool :=
  if (error =? 0) && negb wakeup && need_suspend_ops state then
    ops <- ops_deref;;
    match suspend_again ops with
    | Some f => call_bool c_ops_suspend_again f
    | None => ret false
    end
  else ret false.

(** The loop; [fuel] bounds the number of times the body is run again. *)
Fixpoint suspend_enter_loop (fuel : nat) (state : suspend_state_t)
    (wakeup : bool) : M (Z * bool) :=
  r <- suspend_enter state wakeup;;
  again <- suspend_again_cond state (fst r) (snd r);;
  if again then
    match fuel with
    | O => halt OutOfFuel
    | S fuel' => suspend_enter_loop fuel' state (snd r)
    end
  else ret r.

(** The labels of [suspend_devices_and_enter], last first. *)
Definition Close (state : suspend_state_t) (error : Z) : M Z :=
  ops_void state end_ c_ops_end;;
  ret error.

Definition Resume_devices (state : suspend_state_t) (error : Z) : M Z :=
  call_void c_dpm_resume_end;;
  call_void c_ftrace_start;;
  call_void c_resume_console;;
  call_void c_mod_timer;;
  modify (set_g_resume_status true);;
  Close state error.

Definition Recover_platform (state : suspend_state_t) (error : Z) : M Z :=
  ops_void state recover c_ops_recover;;
  Resume_devices state error.

Definition suspend_devices_and_enter (fuel : nat) (state : suspend_state_t)
    : M Z :=
  logged f_suspend_devices_and_enter (
    o <- get suspend_ops;;
    if need_suspend_ops state
       && match o with None => true | Some _ => false end
    then ret (- ENOSYS)
    else
      error <- ops_int state
                 (fun ops => option_map (fun f => f state) (begin ops))
                 (c_ops_begin state);;
      if negb (error =? 0) then Close state error
      else
        call_void c_del_timer;;
        modify (set_pm_stay_unattended_period 0);;
        call_void c_suspend_console;;
        call_void c_ftrace_stop;;
        error <- call_int c_dpm_suspend_start (dpm_suspend_start E);;
        if negb (error =? 0) then Recover_platform state error
        else
          t <- suspend_test TEST_DEVICES;;
          if t then Recover_platform state error
          else
            r <- suspend_enter_loop fuel state false;;
            modify (set_pm_pwrcs_ret 1);;
            Resume_devices state (fst r)).

Definition suspend_finish : M unit :=
  emit (Enter f_suspend_finish);;
  call_void c_suspend_thaw_processes;;
  _ <- call_int (c_pm_notifier_call_chain PM_POST_SUSPEND)
         (pm_notifier_call_chain E PM_POST_SUSPEND);;
  call_void c_pm_restore_console;;
  emit (Leave f_suspend_finish 0).

Definition mutex_trylock : M bool :=
  held <- get pm_mutex;;
  if held then
    emit (Call c_mutex_trylock 0);;
    ret false
  else
    modify (set_pm_mutex true);;
    emit (Call c_mutex_trylock 1);;
    ret true.

Definition mutex_unlock : M unit :=
  modify (set_pm_mutex false);;
  call_void c_mutex_unlock.

(** The labels of [enter_state], last first. *)
Definition enter_state_Unlock (error : Z) : M Z :=
  mutex_unlock;;
  ret error.

Definition enter_state_Finish (error : Z) : M Z :=
  suspend_finish;;
  enter_state_Unlock error.

Definition enter_state (fuel : nat) (state : suspend_state_t) : M Z :=
  v <- valid_state state;;
  if negb v then ret (- ENODEV)
  else
    locked <- mutex_trylock;;
    if negb locked then ret (- EBUSY)
    else
      when (state =? PM_SUSPEND_FREEZE) freeze_begin;;
      call_void c_sys_sync;;
      error <- suspend_prepare state;;
      if negb (error =? 0) then enter_state_Unlock error
      else
        t <- suspend_test TEST_FREEZER;;
        if t then enter_state_Finish error
        else
          call_void c_pm_restrict_gfp_mask;;
          error <- suspend_devices_and_enter fuel state;;
          call_void c_pm_restore_gfp_mask;;
          enter_state_Finish error.

Definition pm_suspend (fuel : nat) (state : suspend_state_t) : M Z :=
  if (state <=? PM_SUSPEND_ON) || (state >=? PM_SUSPEND_MAX) then
    ret (- EINVAL)
  else
    call_void c_asus_otg_host_power_off;;
    error <- enter_state fuel state;;
    (if negb (error =? 0) then
       modify (fun s => set_suspend_stats (incr_fail (suspend_stats s)) s);;
       call_void (c_dpm_save_failed_errno error)
     else
       modify (fun s => set_suspend_stats (incr_success (suspend_stats s)) s));;
    ret error.

End Suspend.

(** ** Registering the driver *)

Definition set_suspend_ops v s :=
  mkMachine v (pm_mutex s) (suspend_freeze_wake s) (pm_test_level s)
    (suspend_stats s) (irqs_disabled s) (events_check_enabled s)
    (g_keycheck_abort s) (pm_stay_unattended_period s) (g_resume_status s)
    (pm_pwrcs_ret s) (trace s).

(** Modelled from the spec: [lock_system_sleep] and [unlock_system_sleep]
    are defined outside this file; the spec says that registration is
    serialized against any suspend attempt in flight by the exclusive lock,
    so they take and release [pm_mutex].  A caller that finds the lock held
    sleeps until the owner releases it; no other thread runs here, so that
    caller does not return. *)
Definition lock_system_sleep : M unit :=
  held <- get pm_mutex;;
  if held then halt Blocked else modify (set_pm_mutex true).

Definition unlock_system_sleep : M unit := modify (set_pm_mutex false).

(** [suspend_set_ops]: [ops] is the new table, [None] for a NULL pointer. *)
Definition suspend_set_ops (ops : option platform_suspend_ops) : M unit :=
  lock_system_sleep;;
  modify (set_suspend_ops ops);;
  unlock_system_sleep.

(** * Definitions used to state the properties *)

(** [wp m Q s]: the outcome of running [m] from [s] satisfies [Q].  It is
    only a marker that keeps the program, the postcondition and the state
    apart while a run is followed one step at a time. *)
Definition wp {A} (m : M A) (Q : outcome A -> Prop) (s : machine) : Prop :=
  Q (m s).

Definition wp_k {A B} (k : A -> M B) (Q : outcome B -> Prop)
    (o : outcome A) : Prop :=
  match o with
  | Ret a s' => wp (k a) Q s'
  | Stop why s' => Q (Stop why s')
  end.

(** The state after [emit e]. *)
Definition log (E : env) (e : event) (s : machine) : machine :=
  set_suspend_freeze_wake
    (suspend_freeze_wake s || freeze_wake_irq E (e :: trace s))
    (set_trace (e :: trace s) s).

(** The error a step of the device phase reports: the return value of the
    calls whose result [suspend_devices_and_enter] and [suspend_enter] put in
    [error]; no other call can fail there. *)
Definition step_error (e : event) : Z :=
  match e with
  | Call (c_ops_begin _) r | Call c_dpm_suspend_start r
  | Call c_ops_prepare r | Call c_dpm_suspend_end r
  | Call c_ops_prepare_late r | Call c_disable_nonboot_cpus r
  | Call c_syscore_suspend r | Call (c_ops_enter _) r => r
  | _ => 0
  end.

(** The first error of a log in the order of time, 0 when there is none. *)
Fixpoint first_error_from (l : list event) : Z :=
  match l with
  | [] => 0
  | e :: l' => if step_error e =? 0 then first_error_from l' else step_error e
  end.

(** The same of a history (most recent event first). *)
Definition first_error (h : hist) : Z := first_error_from (rev h).

(** Events that occur inside one run of [suspend_enter]. *)
Definition enter_event (e : event) : bool :=
  match e with
  | Call c _ =>
      match c with
      | c_ops_prepare | c_dpm_suspend_end | c_ops_prepare_late | c_mdelay _
      | c_disable_nonboot_cpus | c_arch_suspend_disable_irqs
      | c_syscore_suspend | c_pm_wakeup_pending | c_ops_enter _
      | c_syscore_resume | c_arch_suspend_enable_irqs
      | c_enable_nonboot_cpus | c_ops_wake | c_dpm_resume_start
      | c_ops_finish => true
      | _ => false
      end
  | Enter f_freeze_enter | Leave f_freeze_enter _ => true
  | _ => false
  end.

Definition is_ops_enter (e : event) : bool :=
  match e with Call (c_ops_enter _) _ => true | _ => false end.

(** The globals the device phase leaves alone. *)
Definition same_globals (s s' : machine) : Prop :=
  suspend_ops s' = suspend_ops s /\ pm_mutex s' = pm_mutex s /\
  pm_test_level s' = pm_test_level s /\ suspend_stats s' = suspend_stats s /\
  g_keycheck_abort s' = g_keycheck_abort s.

(** [need_suspend_ops(state) && suspend_ops->cb] for a [void] callback. *)
Definition has_cb (state : suspend_state_t) (s : machine)
    (cb : platform_suspend_ops -> bool) : bool :=
  need_suspend_ops state
  && match suspend_ops s with Some ops => cb ops | None => false end.

(** [suspend_test(level)] would answer 1. *)
Definition test_active (E : env) (s : machine) (level : test_level) : bool :=
  CONFIG_PM_DEBUG E && test_level_eqb (pm_test_level s) level.

Definition opt (b : bool) (e : event) : hist := if b then [e] else [].

(** The way back of [suspend_enter] after [syscore_suspend] when
    [suspend_ops->enter] is not called, most recent first: the 5 second delay
    of an active [TEST_CORE], [syscore_resume], interrupts on, processors on,
    [wake] if there, [dpm_resume_start], [finish] if there. *)
Definition unwind_log (E : env) (state : suspend_state_t) (s : machine)
    : hist :=
  opt (has_cb state s finish) (Call c_ops_finish 0)
  ++ [Call c_dpm_resume_start 0]
  ++ opt (has_cb state s wake) (Call c_ops_wake 0)
  ++ [Call c_enable_nonboot_cpus 0; Call c_arch_suspend_enable_irqs 0;
      Call c_syscore_resume 0]
  ++ opt (test_active E s TEST_CORE) (Call (c_mdelay 5000) 0).

(** What one run of [suspend_enter] from [s] leaves behind. *)
Definition enter_post (E : env) (state : suspend_state_t) (s : machine)
    (o : outcome (Z * bool)) : Prop :=
  same_globals s (final o) /\
  match o with
  | Ret r s' =>
      exists body,
        trace s' =
          Leave f_suspend_enter (fst r) :: body
            ++ Enter f_suspend_enter :: trace s /\
        forallb enter_event body = true /\
        first_error body = fst r /\
        (In (Call c_pm_wakeup_pending 1) body ->
           r = (0, true) /\ existsb is_ops_enter body = false /\
           exists pre,
             body = unwind_log E state s ++ Call c_pm_wakeup_pending 1 :: pre)
  | Stop why s' =>
      exists body,
        trace s' = body ++ Enter f_suspend_enter :: trace s /\
        forallb enter_event body = true /\
        ~ In (Call c_pm_wakeup_pending 1) body /\
        why <> OutOfFuel
  end.

Definition count (e : event) (h : hist) : nat := count_occ event_eq_dec h e.

(** Events of the loop: those of [suspend_enter], its entry and return, and
    the calls of [suspend_again]. *)
Definition loop_event (e : event) : bool :=
  match e with
  | Enter f_suspend_enter | Leave f_suspend_enter _
  | Call c_ops_suspend_again _ => true
  | _ => enter_event e
  end.

(** The loop condition: what it answers and what it logs. *)
Definition cond_post (error : Z) (wakeup : bool) (state : suspend_state_t)
    (s : machine) (o : outcome bool) : Prop :=
  same_globals s (final o) /\
  match o with
  | Ret again s' =>
      if again then
        error = 0 /\ wakeup = false /\ need_suspend_ops state = true /\
        trace s' = Call c_ops_suspend_again 1 :: trace s
      else
        trace s' = trace s \/
        (error = 0 /\ wakeup = false /\
         trace s' = Call c_ops_suspend_again 0 :: trace s)
  | Stop why s' =>
      error = 0 /\ wakeup = false /\ trace s' = trace s /\ why = NullDeref
  end.

Definition loop_post (E : env) (state : suspend_state_t) (s : machine)
    (o : outcome (Z * bool)) : Prop :=
  same_globals s (final o) /\
  exists lnew,
    trace (final o) = lnew ++ trace s /\
    forallb loop_event lnew = true /\
    match o with
    | Ret r s' =>
        count (Enter f_suspend_enter) lnew
          = S (count (Call c_ops_suspend_again 1) lnew) /\
        first_error lnew = fst r /\
        (In (Call c_pm_wakeup_pending 1) lnew ->
           r = (0, true) /\
           exists pre,
             lnew = Leave f_suspend_enter 0 :: unwind_log E state s
                      ++ Call c_pm_wakeup_pending 1 :: pre)
    | Stop why s' => ~ In (Call c_pm_wakeup_pending 1) lnew
    end.

(** One turn of the loop seen from outside. *)
Definition turn (error : Z) (body : hist) : hist :=
  Leave f_suspend_enter error :: body ++ [Enter f_suspend_enter].

(** Events of [suspend_devices_and_enter]. *)
Definition device_event (e : event) : bool :=
  match e with
  | Call c _ =>
      match c with
      | c_ops_begin _ | c_del_timer | c_suspend_console | c_ftrace_stop
      | c_dpm_suspend_start | c_ops_recover | c_dpm_resume_end
      | c_ftrace_start | c_resume_console | c_mod_timer | c_ops_end => true
      | _ => loop_event e
      end
  | Enter f_suspend_devices_and_enter
  | Leave f_suspend_devices_and_enter _ => true
  | _ => loop_event e
  end.

Definition device_post (s : machine) (o : outcome Z) : Prop :=
  same_globals s (final o) /\
  exists dnew,
    trace (final o) = dnew ++ trace s /\
    forallb device_event dnew = true.

Definition is_call (c : call) (e : event) : bool :=
  match e with
  | Call c' _ => if call_eq_dec c c' then true else false
  | _ => false
  end.

(** How many times the outside function [c] was called. *)
Definition calls (c : call) (h : hist) : nat := length (filter (is_call c) h).

(** The answers of [suspend_again], most recent first. *)
Fixpoint answers (h : hist) : list Z :=
  match h with
  | [] => []
  | Call c_ops_suspend_again r :: h' => r :: answers h'
  | _ :: h' => answers h'
  end.

(** The steps of [suspend_enter] the freeze state must not reach. *)
Definition low_level_step (e : event) : bool :=
  match e with
  | Call c_disable_nonboot_cpus _ | Call c_arch_suspend_disable_irqs _
  | Call c_syscore_suspend _ | Call (c_ops_enter _) _ => true
  | _ => false
  end.

(** Whether an outside wake source has called [freeze_wake] since the last
    reset by [freeze_begin], for a history [h]: an interrupt point follows
    every logged event, and the reset is made between [Enter f_freeze_begin]
    and [Leave f_freeze_begin]. *)
Fixpoint signalled (E : env) (h : hist) : bool :=
  match h with
  | [] => false
  | e :: h' =>
      match e with
      | Enter f_freeze_begin => false
      | _ => signalled E h' || freeze_wake_irq E (e :: h')
      end
  end.

(** The error a step of a whole attempt reports: those of the device phase
    and, before it, the veto of an observer and the failure to freeze the
    processes. *)
Definition attempt_error (e : event) : Z :=
  match e with
  | Call (c_pm_notifier_call_chain PM_SUSPEND_PREPARE) r
  | Call c_suspend_freeze_processes r => r
  | _ => step_error e
  end.

(** No step of the attempt has reported an error. *)
Definition no_step_failed (h : hist) : bool :=
  forallb (fun e => attempt_error e =? 0) h.

Definition result {A} (o : outcome A) : option A :=
  match o with Ret a _ => Some a | Stop _ _ => None end.

(** A well-behaved world: every outside function succeeds, no wakeup is
    pending, no wake source fires; CONFIG_PM_DEBUG is on. *)
Definition env_ok : env :=
  mkEnv true (fun _ _ => 0) (fun _ => 0) (fun _ => 0) (fun _ => 0)
    (fun _ => 0) (fun _ => 0) (fun _ => false) (fun _ => false).

(** The same, but an observer vetoes PM_SUSPEND_PREPARE with -EBUSY. *)
Definition env_veto : env :=
  mkEnv true
    (fun v _ => match v with PM_SUSPEND_PREPARE => - EBUSY | _ => 0 end)
    (fun _ => 0) (fun _ => 0) (fun _ => 0)
    (fun _ => 0) (fun _ => 0) (fun _ => false) (fun _ => false).

(** The same as [env_ok], but [dpm_suspend_start] fails with -5. *)
Definition env_dpm_fails : env :=
  mkEnv true (fun _ _ => 0) (fun _ => 0) (fun _ => -5) (fun _ => 0)
    (fun _ => 0) (fun _ => 0) (fun _ => false) (fun _ => false).

(** The same as [env_ok], but a wakeup is pending. *)
Definition env_wakeup : env :=
  mkEnv true (fun _ _ => 0) (fun _ => 0) (fun _ => 0) (fun _ => 0)
    (fun _ => 0) (fun _ => 0) (fun _ => true) (fun _ => false).

(** The same as [env_ok], but a wake source calls [freeze_wake] while the
    file systems are synced, before the wait begins. *)
Definition env_signal : env :=
  mkEnv true (fun _ _ => 0) (fun _ => 0) (fun _ => 0) (fun _ => 0)
    (fun _ => 0) (fun _ => 0) (fun _ => false)
    (fun h => match h with Call c_sys_sync _ :: _ => true | _ => false end).

Definition is_true_answer (e : event) : bool :=
  match e with Call c_ops_suspend_again 1 => true | _ => false end.

(** A driver with every callback, that takes only PM_SUSPEND_MEM and whose
    [suspend_again] answers true twice, then false. *)
Definition ops_full : platform_suspend_ops :=
  mkOps (Some (fun state _ => suspend_valid_only_mem state))
        (Some (fun _ _ => 0)) (Some (fun _ => 0)) (Some (fun _ => 0))
        (Some (fun _ _ => 0)) true true true true
        (Some (fun h => (length (filter is_true_answer h) <? 2)%nat)).

(** The machine after boot with [ops_full] registered, the lock free, and
    the test level [l]. *)
Definition boot (l : test_level) : machine :=
  mkMachine (Some ops_full) false false l (mkStats 0 0 0)
            false false 0 0 false 0 [].

(** The same while somebody else holds the lock. *)
Definition busy : machine := set_pm_mutex true (boot TEST_NONE).

(** [enter_state] for PM_SUSPEND_MEM when an observer vetoes. *)
Definition veto_out : outcome Z :=
  Eval vm_compute in
    enter_state env_veto 0 PM_SUSPEND_MEM (boot TEST_NONE).

(** [enter_state] for PM_SUSPEND_MEM when all goes well. *)
Definition mem_out : outcome Z :=
  Eval vm_compute in enter_state env_ok 2 PM_SUSPEND_MEM (boot TEST_NONE).

(** [pm_suspend] for PM_SUSPEND_ON. *)
Definition on_out : outcome Z :=
  Eval vm_compute in pm_suspend env_ok 0 PM_SUSPEND_ON (boot TEST_NONE).

(** [pm_suspend] for PM_SUSPEND_MEM when all goes well. *)
Definition suspend_out : outcome Z :=
  Eval vm_compute in pm_suspend env_ok 2 PM_SUSPEND_MEM (boot TEST_NONE).

(** [pm_suspend] for PM_SUSPEND_MEM with the test level TEST_DEVICES. *)
Definition test_devices_out : outcome Z :=
  Eval vm_compute in pm_suspend env_ok 0 PM_SUSPEND_MEM (boot TEST_DEVICES).

(** [suspend_devices_and_enter] for PM_SUSPEND_MEM when all goes well. *)
Definition retry_out : outcome Z :=
  Eval vm_compute in
    suspend_devices_and_enter env_ok 2 PM_SUSPEND_MEM (boot TEST_NONE).

(** The same when [dpm_suspend_start] fails. *)
Definition dpm_fails_out : outcome Z :=
  Eval vm_compute in
    suspend_devices_and_enter env_dpm_fails 0 PM_SUSPEND_MEM (boot TEST_NONE).

(** [suspend_enter] and [suspend_devices_and_enter] with a wakeup pending. *)
Definition wakeup_enter_out : outcome (Z * bool) :=
  Eval vm_compute in
    suspend_enter env_wakeup PM_SUSPEND_MEM false (boot TEST_NONE).
Definition wakeup_out : outcome Z :=
  Eval vm_compute in
    suspend_devices_and_enter env_wakeup 0 PM_SUSPEND_MEM (boot TEST_NONE).

(** [pm_suspend] for PM_SUSPEND_FREEZE, with and without a wake signal. *)
Definition freeze_out : outcome Z :=
  Eval vm_compute in
    pm_suspend env_signal 0 PM_SUSPEND_FREEZE (boot TEST_NONE).
Definition asleep_out : outcome Z :=
  Eval vm_compute in pm_suspend env_ok 0 PM_SUSPEND_FREEZE (boot TEST_NONE).

(** [valid_state] and [enter_state] while the lock is held. *)
Definition busy_valid_out : outcome bool :=
  Eval vm_compute in valid_state env_ok PM_SUSPEND_MEM busy.
Definition busy_out : outcome Z :=
  Eval vm_compute in enter_state env_ok 0 PM_SUSPEND_MEM busy.

(** ** Definitions used to state the further properties *)

(** A callback pointer is not NULL. *)
Definition present {A} (o : option A) : bool :=
  match o with Some _ => true | None => false end.

(** [suspend_ops && suspend_ops->enter]. *)
Definition has_enter (s : machine) : bool :=
  match suspend_ops s with
  | Some ops => present (enter ops)
  | None => false
  end.

(** The test levels for which [valid_state] turns PM_SUSPEND_FREEZE down. *)
Definition freeze_unsupported (E : env) (s : machine) : bool :=
  CONFIG_PM_DEBUG E
  && (test_level_eqb (pm_test_level s) TEST_CORE
      || test_level_eqb (pm_test_level s) TEST_CPUS).

(** [suspend_freeze_processes] reported a failure. *)
Definition freeze_failed (e : event) : bool :=
  match e with
  | Call c_suspend_freeze_processes r => negb (r =? 0)
  | _ => false
  end.

(** [need_suspend_ops(state) && suspend_ops->prepare] and the same for
    [prepare_late]. *)
Definition has_prepare (state : suspend_state_t) (s : machine) : bool :=
  has_cb state s (fun ops => present (prepare ops)).

Definition has_prepare_late (state : suspend_state_t) (s : machine) : bool :=
  has_cb state s (fun ops => present (prepare_late ops)).

(** What [suspend_enter] has done when it reaches the point where the
    processors are put offline, most recent first: [prepare_late] (if
    there), [dpm_suspend_end], [prepare] (if there), all successful. *)
Definition platform_prepared (state : suspend_state_t) (s : machine) : hist :=
  opt (has_prepare_late state s) (Call c_ops_prepare_late 0)
  ++ [Call c_dpm_suspend_end 0]
  ++ opt (has_prepare state s) (Call c_ops_prepare 0)
  ++ [Enter f_suspend_enter].

(** The way back of [suspend_enter] from the label [Platform_wake], most
    recent first: [finish] (if there), [dpm_resume_start], [wake] (if
    there). *)
Definition platform_wake_log (state : suspend_state_t) (s : machine) : hist :=
  opt (has_cb state s finish) (Call c_ops_finish 0)
  ++ [Call c_dpm_resume_start 0]
  ++ opt (has_cb state s wake) (Call c_ops_wake 0).

(** The system sleeps: the hardware is entered, or the wait of the freeze
    state begins. *)
Definition sleep_event (e : event) : bool :=
  match e with
  | Call (c_ops_enter _) _ | Enter f_freeze_enter => true
  | _ => false
  end.

(** The ways through a run of [suspend_enter] that returns: the step that
    failed and its error, the test level that cut the run short, or how far
    it went. *)
Inductive way :=
| prepare_failed (e : Z)
| suspend_end_failed (e : Z)
| prepare_late_failed (e : Z)
| test_platform
| woken
| cpus_failed (e : Z)
| test_cpus
| syscore_failed (e : Z)
| not_entered (pending : bool)
| entered (r : Z).

(** What a run logs between its entry and its return, most recent first. *)
Definition way_log (E : env) (state : suspend_state_t) (s : machine)
    (y : way) : hist :=
  match y with
  | prepare_failed e =>
      opt (has_cb state s finish) (Call c_ops_finish 0)
      ++ [Call c_ops_prepare e; Enter f_suspend_enter]
  | suspend_end_failed e =>
      opt (has_cb state s finish) (Call c_ops_finish 0)
      ++ [Call c_dpm_suspend_end e]
      ++ opt (has_prepare state s) (Call c_ops_prepare 0)
      ++ [Enter f_suspend_enter]
  | prepare_late_failed e =>
      platform_wake_log state s
      ++ [Call c_ops_prepare_late e; Call c_dpm_suspend_end 0]
      ++ opt (has_prepare state s) (Call c_ops_prepare 0)
      ++ [Enter f_suspend_enter]
  | test_platform =>
      platform_wake_log state s
      ++ [Call (c_mdelay 5000) 0]
      ++ platform_prepared state s
  | woken =>
      platform_wake_log state s
      ++ [Leave f_freeze_enter 0; Enter f_freeze_enter]
      ++ platform_prepared state s
  | cpus_failed e =>
      platform_wake_log state s
      ++ [Call c_enable_nonboot_cpus 0; Call c_disable_nonboot_cpus e]
      ++ platform_prepared state s
  | test_cpus =>
      platform_wake_log state s
      ++ [Call c_enable_nonboot_cpus 0; Call (c_mdelay 5000) 0;
          Call c_disable_nonboot_cpus 0]
      ++ platform_prepared state s
  | syscore_failed e =>
      platform_wake_log state s
      ++ [Call c_enable_nonboot_cpus 0; Call c_arch_suspend_enable_irqs 0;
          Call c_syscore_suspend e; Call c_arch_suspend_disable_irqs 0;
          Call c_disable_nonboot_cpus 0]
      ++ platform_prepared state s
  | not_entered b =>
      unwind_log E state s
      ++ [Call c_pm_wakeup_pending (Z.b2z b); Call c_syscore_suspend 0;
          Call c_arch_suspend_disable_irqs 0; Call c_disable_nonboot_cpus 0]
      ++ platform_prepared state s
  | entered r =>
      platform_wake_log state s
      ++ [Call c_enable_nonboot_cpus 0; Call c_arch_suspend_enable_irqs 0;
          Call c_syscore_resume 0; Call (c_ops_enter state) r;
          Call c_pm_wakeup_pending 0; Call c_syscore_suspend 0;
          Call c_arch_suspend_disable_irqs 0; Call c_disable_nonboot_cpus 0]
      ++ platform_prepared state s
  end.

(** What a run returns, and what it leaves in [*wakeup], [w] being what was
    there. *)
Definition way_result (w : bool) (y : way) : Z * bool :=
  match y with
  | prepare_failed e | suspend_end_failed e | prepare_late_failed e
  | cpus_failed e | syscore_failed e => (e, w)
  | test_platform | woken | test_cpus => (0, w)
  | not_entered b => (0, b)
  | entered r => (r, false)
  end.

(** When a way is taken. *)
Definition way_taken (E : env) (state : suspend_state_t) (s : machine)
    (y : way) : Prop :=
  match y with
  | prepare_failed e => e <> 0 /\ has_prepare state s = true
  | suspend_end_failed e => e <> 0
  | prepare_late_failed e => e <> 0 /\ has_prepare_late state s = true
  | test_platform => test_active E s TEST_PLATFORM = true
  | woken =>
      state = PM_SUSPEND_FREEZE /\ test_active E s TEST_PLATFORM = false
  | cpus_failed e =>
      e <> 0 /\ state <> PM_SUSPEND_FREEZE /\
      test_active E s TEST_PLATFORM = false
  | test_cpus =>
      test_active E s TEST_CPUS = true /\ state <> PM_SUSPEND_FREEZE
  | syscore_failed e =>
      e <> 0 /\ state <> PM_SUSPEND_FREEZE /\
      test_active E s TEST_PLATFORM = false /\
      test_active E s TEST_CPUS = false
  | not_entered b =>
      test_active E s TEST_CORE || b = true /\
      state <> PM_SUSPEND_FREEZE /\
      test_active E s TEST_PLATFORM = false /\
      test_active E s TEST_CPUS = false
  | entered r =>
      state <> PM_SUSPEND_FREEZE /\ has_enter s = true /\
      test_active E s TEST_PLATFORM = false /\
      test_active E s TEST_CPUS = false /\
      test_active E s TEST_CORE = false
  end.

(** Interrupts have been disabled and enabled again on the way. *)
Definition way_irqs (y : way) : bool :=
  match y with
  | syscore_failed _ | not_entered _ | entered _ => true
  | _ => false
  end.

(** The globals [suspend_enter] and the loop around it leave alone: all but
    the log, the freeze flag, the interrupt flag and
    [events_check_enabled]. *)
Definition untouched (s s' : machine) : Prop :=
  same_globals s s' /\
  pm_stay_unattended_period s' = pm_stay_unattended_period s /\
  g_resume_status s' = g_resume_status s /\
  pm_pwrcs_ret s' = pm_pwrcs_ret s.

(** What a run of [suspend_enter] from [s] comes to. *)
Definition enter_ways (E : env) (state : suspend_state_t) (w : bool)
    (s : machine) (o : outcome (Z * bool)) : Prop :=
  untouched s (final o) /\
  match o with
  | Ret r s' =>
      exists y,
        way_taken E state s y /\
        r = way_result w y /\
        trace s' = Leave f_suspend_enter (fst r)
                     :: way_log E state s y ++ trace s /\
        irqs_disabled s' = (if way_irqs y then false else irqs_disabled s) /\
        events_check_enabled s' =
          match y with
          | entered _ => false
          | _ => events_check_enabled s
          end /\
        match y with
        | woken => suspend_freeze_wake s' = true
        | _ => True
        end
  | Stop why s' =>
      (why = Blocked /\ state = PM_SUSPEND_FREEZE /\
       test_active E s TEST_PLATFORM = false /\
       suspend_freeze_wake s' = false /\
       trace s' = Enter f_freeze_enter :: platform_prepared state s
                    ++ trace s)
      \/
      (why = NullDeref /\ need_suspend_ops state = true /\
       suspend_ops s = None /\
       trace s' = Enter f_suspend_enter :: trace s)
      \/
      (why = NullDeref /\ has_enter s = false /\
       state <> PM_SUSPEND_FREEZE /\
       trace s' = [Call c_pm_wakeup_pending 0; Call c_syscore_suspend 0;
                   Call c_arch_suspend_disable_irqs 0;
                   Call c_disable_nonboot_cpus 0]
                  ++ platform_prepared state s ++ trace s)
  end.

(** The 5 second delay of [suspend_test]. *)
Definition is_delay (e : event) : bool :=
  match e with Call (c_mdelay _) _ => true | _ => false end.

(** No test level is active: the kernel is built without CONFIG_PM_DEBUG, or
    [pm_test_level] is TEST_NONE. *)
Definition tests_off (E : env) (s : machine) : bool :=
  negb (CONFIG_PM_DEBUG E) || test_level_eqb (pm_test_level s) TEST_NONE.

(** A test level is active that cuts [suspend_enter] short before it sleeps:
    TEST_PLATFORM, or for a state other than PM_SUSPEND_FREEZE also TEST_CPUS
    and TEST_CORE. *)
Definition test_cuts_enter (E : env) (state : suspend_state_t) (s : machine)
    : bool :=
  test_active E s TEST_PLATFORM
  || negb (state =? PM_SUSPEND_FREEZE)
     && (test_active E s TEST_CPUS || test_active E s TEST_CORE).

(** The driver checks made before the device phase have passed: the state
    is one of those [pm_suspend] lets through, and if it needs a driver, one
    is registered that has [enter]. *)
Definition checked (state : suspend_state_t) (s : machine) : Prop :=
  PM_SUSPEND_ON < state /\
  (need_suspend_ops state = true -> has_enter s = true).

(** In a log of [suspend_enter] runs, every step that was done has been
    undone: [dpm_resume_start] for every [dpm_suspend_end] that succeeded,
    [enable_nonboot_cpus] for every [disable_nonboot_cpus] (even one that
    failed), interrupts enabled as often as disabled, [syscore_resume] for
    every [syscore_suspend] that succeeded; and the driver's [wake] has been
    called once for every [dpm_resume_start], its [finish] once for every
    run, when the state needs the driver and the driver has them. *)
Definition enter_balanced (state : suspend_state_t) (s : machine) (l : hist)
    : Prop :=
  count (Call c_dpm_suspend_end 0) l = calls c_dpm_resume_start l /\
  calls c_disable_nonboot_cpus l = calls c_enable_nonboot_cpus l /\
  calls c_arch_suspend_disable_irqs l = calls c_arch_suspend_enable_irqs l /\
  count (Call c_syscore_suspend 0) l = calls c_syscore_resume l /\
  calls c_ops_wake l
    = (if has_cb state s wake then calls c_dpm_resume_start l else 0)%nat /\
  calls c_ops_finish l
    = (if has_cb state s finish then count (Enter f_suspend_enter) l
       else 0)%nat.

(** A callback of the driver is called. *)
Definition is_ops_call (e : event) : bool :=
  match e with
  | Call c _ =>
      match c with
      | c_ops_valid _ | c_ops_begin _ | c_ops_prepare | c_ops_prepare_late
      | c_ops_enter _ | c_ops_wake | c_ops_finish | c_ops_end
      | c_ops_recover | c_ops_suspend_again => true
      | _ => false
      end
  | _ => false
  end.

(** What holds of a log [l] of the loop, run from [s], wherever it stops. *)
Definition loop_log (E : env) (state : suspend_state_t) (s : machine)
    (l : hist) : Prop :=
  forallb loop_event l = true /\
  (test_cuts_enter E state s = true -> existsb sleep_event l = false) /\
  (tests_off E s = true -> existsb is_delay l = false) /\
  (state = PM_SUSPEND_FREEZE -> existsb is_ops_call l = false).

(** The loop from [s] has come to [s'], all runs so far having returned. *)
Definition loop_ran (E : env) (state : suspend_state_t) (s s' : machine)
    : Prop :=
  untouched s s' /\
  (irqs_disabled s = false -> irqs_disabled s' = false) /\
  exists l,
    trace s' = l ++ trace s /\
    loop_log E state s l /\
    enter_balanced state s l /\
    events_check_enabled s'
      = events_check_enabled s && negb (existsb is_ops_enter l) /\
    In (Enter f_suspend_enter) l.

(** The loop from [s] has stopped in [s'] without returning. *)
Definition loop_stopped (E : env) (state : suspend_state_t) (why : stop)
    (s s' : machine) : Prop :=
  untouched s s' /\
  exists l,
    trace s' = l ++ trace s /\
    loop_log E state s l /\
    (checked state s ->
     (why = Blocked /\ state = PM_SUSPEND_FREEZE /\
      suspend_freeze_wake s' = false /\
      exists rest, l = Enter f_freeze_enter :: rest)
     \/
     (why = OutOfFuel /\ need_suspend_ops state = true /\
      exists rest, l = Call c_ops_suspend_again 1 :: rest)).

Definition loop_outcome {A} (E : env) (state : suspend_state_t) (s : machine)
    (o : outcome A) : Prop :=
  match o with
  | Ret _ s' => loop_ran E state s s'
  | Stop why s' => loop_stopped E state why s s'
  end.

(** [need_suspend_ops(state) && suspend_ops->begin]. *)
Definition has_begin (state : suspend_state_t) (s : machine) : bool :=
  has_cb state s (fun ops => present (begin ops)).

(** What [suspend_devices_and_enter] has done when it calls
    [dpm_suspend_start], most recent first. *)
Definition device_begun (state : suspend_state_t) (s : machine) : hist :=
  [Call c_ftrace_stop 0; Call c_suspend_console 0; Call c_del_timer 0]
  ++ opt (has_begin state s) (Call (c_ops_begin state) 0)
  ++ [Enter f_suspend_devices_and_enter].

(** Its way back from the label [Resume_devices], most recent first. *)
Definition device_resumed (state : suspend_state_t) (s : machine) : hist :=
  opt (has_cb state s end_) (Call c_ops_end 0)
  ++ [Call c_mod_timer 0; Call c_resume_console 0; Call c_ftrace_start 0;
      Call c_dpm_resume_end 0].

(** The ways through a call of [suspend_devices_and_enter] that returns. *)
Inductive device_way :=
| no_driver
| begin_failed (e : Z)
| start_failed (e : Z)
| test_devices
| looped (r : Z) (l : hist).

Definition device_way_log (state : suspend_state_t) (s : machine)
    (y : device_way) : hist :=
  match y with
  | no_driver => [Enter f_suspend_devices_and_enter]
  | begin_failed e =>
      opt (has_cb state s end_) (Call c_ops_end 0)
      ++ [Call (c_ops_begin state) e; Enter f_suspend_devices_and_enter]
  | start_failed e =>
      device_resumed state s
      ++ opt (has_cb state s recover) (Call c_ops_recover 0)
      ++ [Call c_dpm_suspend_start e]
      ++ device_begun state s
  | test_devices =>
      device_resumed state s
      ++ opt (has_cb state s recover) (Call c_ops_recover 0)
      ++ [Call (c_mdelay 5000) 0; Call c_dpm_suspend_start 0]
      ++ device_begun state s
  | looped r l =>
      device_resumed state s
      ++ l
      ++ [Call c_dpm_suspend_start 0]
      ++ device_begun state s
  end.

Definition device_way_result (y : device_way) : Z :=
  match y with
  | no_driver => - ENOSYS
  | begin_failed e | start_failed e => e
  | test_devices => 0
  | looped r _ => r
  end.

Definition device_way_taken (E : env) (state : suspend_state_t) (s : machine)
    (y : device_way) : Prop :=
  match y with
  | no_driver => need_suspend_ops state = true /\ suspend_ops s = None
  | begin_failed e => e <> 0 /\ has_begin state s = true
  | start_failed e => e <> 0
  | test_devices => test_active E s TEST_DEVICES = true
  | looped r l =>
      test_active E s TEST_DEVICES = false /\
      loop_log E state s l /\ enter_balanced state s l /\
      In (Enter f_suspend_enter) l
  end.

(** The devices have been suspended (or the attempt to suspend them has been
    made) and resumed. *)
Definition devices_touched (y : device_way) : bool :=
  match y with
  | no_driver | begin_failed _ => false
  | _ => true
  end.

(** What a call of [suspend_devices_and_enter] from [s] comes to. *)
Definition device_ways (E : env) (state : suspend_state_t) (s : machine)
    (o : outcome Z) : Prop :=
  same_globals s (final o) /\
  match o with
  | Ret r s' =>
      exists y,
        device_way_taken E state s y /\
        r = device_way_result y /\
        trace s' = Leave f_suspend_devices_and_enter r
                     :: device_way_log state s y ++ trace s /\
        pm_stay_unattended_period s'
          = (if devices_touched y then 0 else pm_stay_unattended_period s) /\
        g_resume_status s'
          = (if devices_touched y then true else g_resume_status s) /\
        pm_pwrcs_ret s'
          = match y with looped _ _ => 1 | _ => pm_pwrcs_ret s end /\
        events_check_enabled s'
          = match y with
            | looped _ l =>
                events_check_enabled s && negb (existsb is_ops_enter l)
            | _ => events_check_enabled s
            end /\
        match y with
        | looped _ _ => irqs_disabled s = false -> irqs_disabled s' = false
        | _ => irqs_disabled s' = irqs_disabled s
        end
  | Stop why s' =>
      exists l,
        trace s' = l ++ [Call c_dpm_suspend_start 0] ++ device_begun state s
                     ++ trace s /\
        test_active E s TEST_DEVICES = false /\
        loop_log E state s l /\
        (checked state s ->
         (why = Blocked /\ state = PM_SUSPEND_FREEZE /\
          suspend_freeze_wake s' = false /\
          exists rest, l = Enter f_freeze_enter :: rest)
         \/
         (why = OutOfFuel /\ need_suspend_ops state = true /\
          exists rest, l = Call c_ops_suspend_again 1 :: rest))
  end.

(** [suspend_ops && suspend_ops->valid]. *)
Definition has_valid (s : machine) : bool :=
  match suspend_ops s with
  | Some ops => present (valid ops)
  | None => false
  end.

(** [valid_state] calls the driver's [valid]. *)
Definition valid_asked (state : suspend_state_t) (s : machine) : bool :=
  negb (state =? PM_SUSPEND_FREEZE) && has_valid s.

(** What [valid_state] answers when the driver's [valid], if asked, returns
    [v]. *)
Definition supported (E : env) (state : suspend_state_t) (s : machine)
    (v : Z) : bool :=
  if state =? PM_SUSPEND_FREEZE then negb (freeze_unsupported E s)
  else has_valid s && negb (v =? 0).

(** The logs of the stages of [pm_suspend], most recent first: when the lock
    is tried; what [freeze_begin] adds; when [suspend_prepare] is called;
    what a successful
    [suspend_prepare] adds; what [suspend_finish] and the unlock add, [n]
    being the answer of the observers to PM_POST_SUSPEND. *)
Definition checked_log (state : suspend_state_t) (s : machine) (v : Z)
    : hist :=
  opt (valid_asked state s) (Call (c_ops_valid state) v)
  ++ [Call c_asus_otg_host_power_off 0].

Definition freeze_begun (state : suspend_state_t) : hist :=
  if state =? PM_SUSPEND_FREEZE
  then [Leave f_freeze_begin 0; Enter f_freeze_begin] else [].

Definition started_log (state : suspend_state_t) (s : machine) (v : Z)
    : hist :=
  [Call c_sys_sync 0]
  ++ freeze_begun state
  ++ [Call c_mutex_trylock 1]
  ++ checked_log state s v.

Definition prepared_log : hist :=
  [Leave f_suspend_prepare 0; Call c_suspend_freeze_processes 0;
   Call (c_pm_notifier_call_chain PM_SUSPEND_PREPARE) 0;
   Call c_pm_prepare_console 0; Enter f_suspend_prepare].

Definition finished_log (n : Z) : hist :=
  [Call c_mutex_unlock 0; Leave f_suspend_finish 0;
   Call c_pm_restore_console 0;
   Call (c_pm_notifier_call_chain PM_POST_SUSPEND) n;
   Call c_suspend_thaw_processes 0; Enter f_suspend_finish].

(** The ways through a call of [pm_suspend] that returns, for a state of
    the accepted range. *)
Inductive attempt_way :=
| unsupported
| lock_busy
| no_enter
| vetoed (e n : Z)
| not_frozen (e n : Z)
| test_freezer (n : Z)
| devices (y : device_way) (n : Z).

Definition attempt_result (y : attempt_way) : Z :=
  match y with
  | unsupported => - ENODEV
  | lock_busy => - EBUSY
  | no_enter => - EPERM
  | vetoed e _ | not_frozen e _ => e
  | test_freezer _ => 0
  | devices y _ => device_way_result y
  end.

(** What [enter_state] logs. *)
Definition attempt_log (state : suspend_state_t) (s : machine) (v : Z)
    (y : attempt_way) : hist :=
  match y with
  | unsupported => checked_log state s v
  | lock_busy => [Call c_mutex_trylock 0] ++ checked_log state s v
  | no_enter =>
      [Call c_mutex_unlock 0; Leave f_suspend_prepare (- EPERM);
       Enter f_suspend_prepare]
      ++ started_log state s v
  | vetoed e n =>
      [Call c_mutex_unlock 0; Leave f_suspend_prepare e;
       Call c_pm_restore_console 0;
       Call (c_pm_notifier_call_chain PM_POST_SUSPEND) n;
       Call (c_pm_notifier_call_chain PM_SUSPEND_PREPARE) e;
       Call c_pm_prepare_console 0; Enter f_suspend_prepare]
      ++ started_log state s v
  | not_frozen e n =>
      [Call c_mutex_unlock 0; Leave f_suspend_prepare e;
       Call c_pm_restore_console 0;
       Call (c_pm_notifier_call_chain PM_POST_SUSPEND) n;
       Call c_dpm_save_failed_step 0; Call c_suspend_freeze_processes e;
       Call (c_pm_notifier_call_chain PM_SUSPEND_PREPARE) 0;
       Call c_pm_prepare_console 0; Enter f_suspend_prepare]
      ++ started_log state s v
  | test_freezer n =>
      finished_log n
      ++ [Call (c_mdelay 5000) 0]
      ++ prepared_log
      ++ started_log state s v
  | devices y n =>
      finished_log n
      ++ [Call c_pm_restore_gfp_mask 0;
          Leave f_suspend_devices_and_enter (device_way_result y)]
      ++ device_way_log state s y
      ++ [Call c_pm_restrict_gfp_mask 0]
      ++ prepared_log
      ++ started_log state s v
  end.

(** [dpm_save_failed_errno], called by [pm_suspend] for a result other than
    0. *)
Definition recorded (r : Z) : hist :=
  if r =? 0 then [] else [Call (c_dpm_save_failed_errno r) 0].

Definition attempt_taken (E : env) (state : suspend_state_t) (s : machine)
    (v : Z) (y : attempt_way) : Prop :=
  match y with
  | unsupported => supported E state s v = false
  | lock_busy => supported E state s v = true /\ pm_mutex s = true
  | _ =>
      supported E state s v = true /\ pm_mutex s = false /\
      match y with
      | no_enter => need_suspend_ops state = true /\ has_enter s = false
      | _ =>
          (need_suspend_ops state = true -> has_enter s = true) /\
          match y with
          | vetoed e _ | not_frozen e _ => e <> 0
          | test_freezer _ => test_active E s TEST_FREEZER = true
          | devices y _ =>
              test_active E s TEST_FREEZER = false /\
              device_way_taken E state s y
          | _ => True
          end
      end
  end.

(** [suspend_prepare] has got past the observers. *)
Definition observers_agreed (y : attempt_way) : bool :=
  match y with
  | not_frozen _ _ | test_freezer _ | devices _ _ => true
  | _ => false
  end.

(** What a call of [pm_suspend] from [s] comes to, for a state of the
    accepted range. *)
Definition attempt_ways (E : env) (state : suspend_state_t) (s : machine)
    (o : outcome Z) : Prop :=
  suspend_ops (final o) = suspend_ops s /\
  pm_test_level (final o) = pm_test_level s /\
  match o with
  | Ret r s' =>
      exists v y,
        attempt_taken E state s v y /\
        r = attempt_result y /\
        trace s' = recorded r ++ attempt_log state s v y ++ trace s /\
        pm_mutex s' = pm_mutex s /\
        suspend_stats s' =
          (if r =? 0 then incr_success else incr_fail)
            (match y with
             | not_frozen _ _ => incr_failed_freeze (suspend_stats s)
             | _ => suspend_stats s
             end) /\
        g_keycheck_abort s'
          = (if observers_agreed y then 0 else g_keycheck_abort s) /\
        match y with
        | devices y _ =>
            pm_stay_unattended_period s'
              = (if devices_touched y then 0
                 else pm_stay_unattended_period s) /\
            g_resume_status s'
              = (if devices_touched y then true else g_resume_status s) /\
            pm_pwrcs_ret s'
              = match y with looped _ _ => 1 | _ => pm_pwrcs_ret s end /\
            events_check_enabled s'
              = match y with
                | looped _ l =>
                    events_check_enabled s && negb (existsb is_ops_enter l)
                | _ => events_check_enabled s
                end /\
            match y with
            | looped _ _ =>
                irqs_disabled s = false -> irqs_disabled s' = false
            | _ => irqs_disabled s' = irqs_disabled s
            end
        | _ =>
            pm_stay_unattended_period s' = pm_stay_unattended_period s /\
            g_resume_status s' = g_resume_status s /\
            pm_pwrcs_ret s' = pm_pwrcs_ret s /\
            events_check_enabled s' = events_check_enabled s /\
            irqs_disabled s' = irqs_disabled s
        end
  | Stop why s' =>
      exists v l,
        supported E state s v = true /\ pm_mutex s = false /\
        (need_suspend_ops state = true -> has_enter s = true) /\
        test_active E s TEST_FREEZER = false /\
        test_active E s TEST_DEVICES = false /\
        loop_log E state s l /\
        trace s' = l ++ [Call c_dpm_suspend_start 0] ++ device_begun state s
                     ++ [Call c_pm_restrict_gfp_mask 0] ++ prepared_log
                     ++ started_log state s v ++ trace s /\
        pm_mutex s' = true /\
        ((why = Blocked /\ state = PM_SUSPEND_FREEZE /\
          suspend_freeze_wake s' = false /\
          exists rest, l = Enter f_freeze_enter :: rest)
         \/
         (why = OutOfFuel /\ need_suspend_ops state = true /\
          exists rest, l = Call c_ops_suspend_again 1 :: rest))
  end.

(** In a log of the device phase, what was stopped has been started again:
    the unattended timer, the console, the function tracer, and the devices
    ([dpm_resume_end] for every [dpm_suspend_start], even one that failed);
    and the driver's [end] has been called once for every call of
    [suspend_devices_and_enter], when the state needs the driver and the
    driver has it. *)
Definition device_balanced (state : suspend_state_t) (s : machine) (l : hist)
    : Prop :=
  calls c_del_timer l = calls c_mod_timer l /\
  calls c_suspend_console l = calls c_resume_console l /\
  calls c_ftrace_stop l = calls c_ftrace_start l /\
  calls c_dpm_suspend_start l = calls c_dpm_resume_end l /\
  calls c_ops_end l
    = (if has_cb state s end_
       then count (Enter f_suspend_devices_and_enter) l else 0)%nat.

(** In a log of a whole attempt: the lock has been released as often as
    taken, the console restored as often as prepared, PM_POST_SUSPEND sent
    as often as PM_SUSPEND_PREPARE, the processes thawed as often as frozen
    with success, and the allocation mask restored as often as
    restricted. *)
Definition attempt_balanced (l : hist) : Prop :=
  count (Call c_mutex_trylock 1) l = calls c_mutex_unlock l /\
  calls c_pm_prepare_console l = calls c_pm_restore_console l /\
  calls (c_pm_notifier_call_chain PM_SUSPEND_PREPARE) l
    = calls (c_pm_notifier_call_chain PM_POST_SUSPEND) l /\
  count (Call c_suspend_freeze_processes 0) l
    = calls c_suspend_thaw_processes l /\
  calls c_pm_restrict_gfp_mask l = calls c_pm_restore_gfp_mask l.

(** A test level is active that cuts the device phase short before the
    system sleeps. *)
Definition test_cuts_devices (E : env) (state : suspend_state_t) (s : machine)
    : bool :=
  test_active E s TEST_DEVICES || test_cuts_enter E state s.

(** The log of a call that returned by the way [y]. *)
Definition device_log_of (state : suspend_state_t) (s : machine)
    (y : device_way) : hist :=
  Leave f_suspend_devices_and_enter (device_way_result y)
    :: device_way_log state s y.


(** Events of [freeze_begin], and the record of a failed attempt. *)
Definition is_freeze_begin (e : event) : bool :=
  match e with
  | Enter f_freeze_begin | Leave f_freeze_begin _ => true
  | _ => false
  end.

Definition is_record (e : event) : bool :=
  match e with
  | Call (c_dpm_save_failed_errno _) _ => true
  | _ => false
  end.

(** The machine after boot before any driver is registered. *)
Definition unregistered : machine := set_suspend_ops None (boot TEST_NONE).

(** A driver that takes only PM_SUSPEND_MEM and has no other callback, not
    even [enter]; and the machine after boot with it. *)
Definition ops_no_enter : platform_suspend_ops :=
  mkOps (Some (fun state _ => suspend_valid_only_mem state))
        None None None None false false false false None.

Definition boot_no_enter : machine :=
  set_suspend_ops (Some ops_no_enter) (boot TEST_NONE).

(** The same as [env_ok], but [dpm_suspend_end] fails with -EBUSY. *)
Definition env_end_fails : env :=
  mkEnv true (fun _ _ => 0) (fun _ => 0) (fun _ => 0) (fun _ => - EBUSY)
    (fun _ => 0) (fun _ => 0) (fun _ => false) (fun _ => false).

(** The same as [env_ok], but the processes cannot be frozen. *)
Definition env_freeze_fails : env :=
  mkEnv true (fun _ _ => 0) (fun _ => - EBUSY) (fun _ => 0) (fun _ => 0)
    (fun _ => 0) (fun _ => 0) (fun _ => false) (fun _ => false).

(** [valid_state] for PM_SUSPEND_STANDBY, as [pm_suspend] calls it. *)
Definition standby_valid_out : outcome bool :=
  Eval vm_compute in
    valid_state env_ok PM_SUSPEND_STANDBY
      (log env_ok (Call c_asus_otg_host_power_off 0) (boot TEST_NONE)).

(** [suspend_enter] for PM_SUSPEND_MEM: when all goes well, when
    [dpm_suspend_end] fails, and with the test level TEST_CORE; and for
    PM_SUSPEND_FREEZE when nobody calls [freeze_wake]. *)
Definition enter_out : outcome (Z * bool) :=
  Eval vm_compute in
    suspend_enter env_ok PM_SUSPEND_MEM false (boot TEST_NONE).
Definition end_fails_out : outcome (Z * bool) :=
  Eval vm_compute in
    suspend_enter env_end_fails PM_SUSPEND_MEM false (boot TEST_NONE).
Definition test_core_out : outcome (Z * bool) :=
  Eval vm_compute in
    suspend_enter env_ok PM_SUSPEND_MEM false (boot TEST_CORE).
Definition freeze_enter_out : outcome (Z * bool) :=
  Eval vm_compute in
    suspend_enter env_ok PM_SUSPEND_FREEZE false (boot TEST_NONE).

(** [pm_suspend] for PM_SUSPEND_MEM: when the processes cannot be frozen,
    with the test level TEST_FREEZER, and with a driver without [enter]. *)
Definition not_frozen_out : outcome Z :=
  Eval vm_compute in
    pm_suspend env_freeze_fails 0 PM_SUSPEND_MEM (boot TEST_NONE).
Definition test_freezer_out : outcome Z :=
  Eval vm_compute in pm_suspend env_ok 0 PM_SUSPEND_MEM (boot TEST_FREEZER).
Definition no_enter_out : outcome Z :=
  Eval vm_compute in pm_suspend env_ok 0 PM_SUSPEND_MEM boot_no_enter.

(** * Proofs *)

Section WP.

Variable E : env.

Lemma wp_bind A B (m : M A) (k : A -> M B) Q s :
  wp m (wp_k k Q) s -> wp (bind m k) Q s.
Proof. unfold wp, wp_k, bind. destruct (m s); auto. Qed.

Lemma wp_ret A (a : A) Q s : Q (Ret a s) -> wp (ret a) Q s.
Proof. auto. Qed.

Lemma wp_get X (f : machine -> X) Q s : Q (Ret (f s) s) -> wp (get f) Q s.
Proof. auto. Qed.

Lemma wp_modify f Q s : Q (Ret tt (f s)) -> wp (modify f) Q s.
Proof. auto. Qed.

Lemma wp_halt A why Q s : Q (Stop why s) -> wp (@halt A why) Q s.
Proof. auto. Qed.

(** An interrupt point is a call of [freeze_wake] by the outside world, or
    nothing. *)
Lemma interrupt_is_freeze_wake s :
  interrupt E s
  = if freeze_wake_irq E (trace s) then freeze_wake s else Ret tt s.
Proof.
  unfold interrupt, freeze_wake, modify.
  destruct s as [ops mtx fw lvl st irq ece kca sup grs ppr t0].
  cbn [trace suspend_freeze_wake].
  destruct (freeze_wake_irq E t0); destruct fw; reflexivity.
Qed.

Lemma wp_emit e Q s : Q (Ret tt (log E e s)) -> wp (emit E e) Q s.
Proof. destruct s; auto. Qed.

Lemma wp_call_void c Q s :
  Q (Ret tt (log E (Call c 0) s)) -> wp (call_void E c) Q s.
Proof. destruct s; auto. Qed.

Lemma wp_call_int c f Q s :
  (forall r, r = f (trace s) -> Q (Ret r (log E (Call c r) s))) ->
  wp (call_int E c f) Q s.
Proof. intros H. destruct s. apply (H _ eq_refl). Qed.

Lemma wp_call_bool c f Q s :
  (forall r, r = f (trace s) -> Q (Ret r (log E (Call c (Z.b2z r)) s))) ->
  wp (call_bool E c f) Q s.
Proof. intros H. destruct s. apply (H _ eq_refl). Qed.

Lemma wp_conseq A (m : M A) (Q1 Q2 : outcome A -> Prop) s :
  wp m Q1 s -> (forall o, Q1 o -> Q2 o) -> wp m Q2 s.
Proof. unfold wp. auto. Qed.

End WP.

(** Bring the state of the goal back to an explicit record. *)
Ltac norm :=
  cbv beta iota delta
    [wp_k log final trace pm_mutex suspend_ops suspend_freeze_wake
     pm_test_level suspend_stats irqs_disabled events_check_enabled
     g_keycheck_abort pm_stay_unattended_period g_resume_status pm_pwrcs_ret
     set_trace set_pm_mutex set_suspend_freeze_wake
     set_suspend_stats set_irqs_disabled set_events_check_enabled
     set_g_keycheck_abort set_pm_stay_unattended_period set_g_resume_status
     set_pm_pwrcs_ret incr_success incr_fail incr_failed_freeze
     success fail failed_freeze];
  cbn [fst snd negb andb orb option_map Z.b2z].

Ltac head t := lazymatch t with ?f _ => head f | _ => t end.

(** Decide a condition: by computation, from what is known, or by cases;
    conjunctions and negations are taken apart first, and an integer test
    that holds replaces the integer. *)
Ltac known_false :=
  match goal with
  | H : ?x = true |- _ =>
      let v := eval cbv in x in
      lazymatch v with false => discriminate H end
  | H : ?x = false |- _ =>
      let v := eval cbv in x in
      lazymatch v with true => discriminate H end
  end.

Ltac wp_atom b :=
  first
    [ change b with true
    | change b with false
    | match goal with
      | H : b = _ |- _ => rewrite H
      end
    | let H := fresh "Hc" in
      destruct b eqn:H;
      try (apply Z.eqb_eq in H; subst; try known_false) ].

Ltac wp_cond b :=
  lazymatch b with
  | negb ?c => wp_cond c
  | ?x && _ => wp_cond x
  | match ?x with Some _ => _ | None => _ end => wp_atom x
  | _ => wp_atom b
  end.

Ltac wp_case b := wp_cond b; cbn [negb andb orb]; cbv iota.

Ltac wp_step :=
  lazymatch goal with
  | |- wp ?m _ _ =>
      lazymatch m with
      | bind _ _ => apply wp_bind
      | ret _ => apply wp_ret; norm
      | get _ => apply wp_get; norm
      | modify _ => apply wp_modify; norm
      | halt _ => apply wp_halt; norm
      | emit _ _ => apply wp_emit; norm
      | call_void _ _ => apply wp_call_void; norm
      | call_int _ _ _ => apply wp_call_int; norm; intros ? _
      | call_bool _ _ _ => apply wp_call_bool; norm; intros ? _
      | (if ?b then _ else _) => wp_case b
      | match ?x with Some _ => _ | None => _ end => wp_case x
      | suspend_enter_loop _ _ _ _ => fail
      | _ => let h := head m in unfold h
      end
  end.

Ltac wp_run := repeat wp_step.

(** ** What the log of a run says *)

Lemma same_globals_refl s : same_globals s s.
Proof. repeat split. Qed.

Lemma same_globals_trans a b c :
  same_globals a b -> same_globals b c -> same_globals a c.
Proof.
  unfold same_globals. intros (?&?&?&?&?) (?&?&?&?&?).
  repeat split; congruence.
Qed.

(** The part of the list [l] in front of its tail [t]. *)
Ltac prefix_of l t :=
  lazymatch l with
  | t => constr:(@nil event)
  | ?x :: ?l' => let p := prefix_of l' t in constr:(x :: p)
  | ?a ++ ?l' => let p := prefix_of l' t in constr:(a ++ p)
  end.

Ltac in_cases H :=
  cbn [In] in H;
  repeat match type of H with
         | _ \/ _ => destruct H as [H | H]
         end;
  try discriminate H; try contradiction.

Lemma b2z_one b : Z.b2z b = 1 -> b = true.
Proof. destruct b; [reflexivity | discriminate]. Qed.

Ltac first_error_tac :=
  cbv [first_error rev app]; cbn [first_error_from step_error Z.eqb];
  repeat match goal with
         | H : (?r =? 0) = false |- _ => rewrite H
         end;
  repeat match goal with
         | |- context [?r =? 0] => destruct (Z.eqb_spec r 0); subst
         end;
  try reflexivity.

Ltac wakeup_tac :=
  let Hin := fresh "Hin" in
  intros Hin; in_cases Hin;
  try (injection Hin as Hin; apply b2z_one in Hin; subst).

(** Rewrite with every condition decided on the way. *)
Ltac use_conds :=
  repeat match goal with
         | H : ?x = true |- context [?x] => rewrite H
         | H : ?x = false |- context [?x] => rewrite H
         end.

Ltac unwind_tac :=
  cbv beta iota delta [unwind_log has_cb test_active opt suspend_ops
                       pm_test_level];
  use_conds; cbn [andb app]; use_conds; cbn [andb app];
  eexists; reflexivity.

Lemma suspend_enter_post E state w s :
  wp (suspend_enter E state w) (enter_post E state s) s.
Proof.
  destruct s as [ops mtx fw lvl st irq ece kca sup grs ppr t0].
  wp_run.
  all: split; [ repeat split | ].
  all: lazymatch goal with
       | |- exists body, {| trace := Leave _ _ :: ?l |}.(trace) = _ /\ _ =>
           let p := prefix_of l (Enter f_suspend_enter :: t0) in
           exists p; cbn [trace fst app]
       | |- exists body, {| trace := ?l |}.(trace) = _ /\ _ =>
           let p := prefix_of l (Enter f_suspend_enter :: t0) in
           exists p; cbn [trace fst app]
       end.
  all: (split; [reflexivity | split; [reflexivity | ] ]).
  all: lazymatch goal with
       | |- first_error _ = _ /\ _ =>
           split;
           [ first_error_tac
           | wakeup_tac;
             (split; [reflexivity | split; [reflexivity | unwind_tac ] ]) ]
       | |- _ => split; [ wakeup_tac | discriminate ]
       end.
Qed.

(** ** Lists of events *)

Lemma count_app e h1 h2 : count e (h1 ++ h2) = (count e h1 + count e h2)%nat.
Proof. apply count_occ_app. Qed.

Lemma count_none (P : event -> bool) e h :
  forallb P h = true -> P e = false -> count e h = 0%nat.
Proof.
  intros Hall He. unfold count. apply count_occ_not_In. intros Hin.
  rewrite forallb_forall in Hall. rewrite (Hall _ Hin) in He. discriminate.
Qed.

Lemma forallb_weaken (P Q : event -> bool) h :
  (forall e, P e = true -> Q e = true) ->
  forallb P h = true -> forallb Q h = true.
Proof.
  intros HPQ. rewrite !forallb_forall. auto.
Qed.

Lemma not_in_forallb (P : event -> bool) e h :
  forallb P h = true -> P e = false -> In e h -> False.
Proof.
  intros Hall He Hin. rewrite forallb_forall in Hall.
  rewrite (Hall _ Hin) in He. discriminate.
Qed.

Lemma first_error_from_app l1 l2 :
  first_error_from (l1 ++ l2) =
  if first_error_from l1 =? 0 then first_error_from l2 else first_error_from l1.
Proof.
  induction l1 as [|e l1 IH]; cbn [app first_error_from].
  - reflexivity.
  - destruct (step_error e =? 0) eqn:He; [exact IH | now rewrite He].
Qed.

(** [h2] is the older part. *)
Lemma first_error_app h1 h2 :
  first_error (h1 ++ h2) =
  if first_error h2 =? 0 then first_error h1 else first_error h2.
Proof. unfold first_error. rewrite rev_app_distr. apply first_error_from_app. Qed.

Lemma first_error_cons e h :
  first_error (e :: h) =
  if first_error h =? 0 then step_error e else first_error h.
Proof.
  change (e :: h) with ([e] ++ h). rewrite first_error_app.
  destruct (first_error h =? 0); [ | reflexivity].
  unfold first_error. cbn. destruct (step_error e =? 0) eqn:He; [ | reflexivity].
  apply Z.eqb_eq in He. auto.
Qed.

Lemma first_error_quiet (P : event -> bool) h :
  (forall e, P e = true -> step_error e = 0) ->
  forallb P h = true -> first_error h = 0.
Proof.
  intros HP. induction h as [|e h IH]; [reflexivity | ].
  cbn [forallb]. rewrite andb_true_iff. intros [He Hh].
  rewrite first_error_cons, (IH Hh). cbn. auto.
Qed.

(** ** The retry loop *)

Lemma enter_event_loop e : enter_event e = true -> loop_event e = true.
Proof. destruct e as [c r|f|f r]; [destruct c | destruct f | destruct f]; cbn; auto. Qed.

Lemma suspend_again_cond_post E state error wakeup s :
  wp (suspend_again_cond E state error wakeup)
     (cond_post error wakeup state s) s.
Proof.
  destruct s as [ops mtx fw lvl st irq ece kca sup grs ppr t0].
  wp_run.
  all: split; [ repeat split | ]; cbn [trace].
  all: try (lazymatch goal with
            | r : bool |- _ => destruct r
            end); cbn [Z.b2z].
  all: auto 10.
Qed.

Lemma turn_trace error body (t : hist) :
  Leave f_suspend_enter error :: body ++ Enter f_suspend_enter :: t
  = turn error body ++ t.
Proof. unfold turn. cbn [app]. now rewrite <- app_assoc. Qed.

Lemma turn_facts error body :
  forallb enter_event body = true ->
  forallb loop_event (turn error body) = true /\
  count (Enter f_suspend_enter) (turn error body) = 1%nat /\
  count (Call c_ops_suspend_again 1) (turn error body) = 0%nat /\
  first_error (turn error body) = first_error body /\
  (forall e, enter_event e = true -> In e (turn error body) -> In e body).
Proof.
  intros Hb. unfold turn. repeat split.
  - cbn [forallb loop_event]. rewrite forallb_app. cbn.
    rewrite (forallb_weaken _ _ _ enter_event_loop Hb). reflexivity.
  - change (Leave f_suspend_enter error :: body ++ [Enter f_suspend_enter])
      with ([Leave f_suspend_enter error] ++ body ++ [Enter f_suspend_enter]).
    rewrite !count_app,
      (count_none enter_event (Enter f_suspend_enter) body Hb eq_refl).
    reflexivity.
  - change (Leave f_suspend_enter error :: body ++ [Enter f_suspend_enter])
      with ([Leave f_suspend_enter error] ++ body ++ [Enter f_suspend_enter]).
    rewrite !count_app,
      (count_none enter_event (Call c_ops_suspend_again 1) body Hb eq_refl).
    reflexivity.
  - rewrite first_error_cons, first_error_app. cbn.
    destruct (first_error body =? 0) eqn:H0; [ | reflexivity].
    apply Z.eqb_eq in H0. auto.
  - intros e He [Hin | Hin]; [subst e; discriminate | ].
    apply in_app_or in Hin. destruct Hin as [Hin | [Hin | []]]; [exact Hin | ].
    subst e; discriminate.
Qed.

Lemma unwind_log_same E state s s' :
  same_globals s s' -> unwind_log E state s' = unwind_log E state s.
Proof.
  intros (Ho & _ & Hl & _). unfold unwind_log, has_cb, test_active.
  now rewrite Ho, Hl.
Qed.

Lemma count_cons_ne e x h : x <> e -> count e (x :: h) = count e h.
Proof. intros. unfold count. now apply count_occ_cons_neq. Qed.

Lemma count_cons_eq e h : count e (e :: h) = S (count e h).
Proof. unfold count. now apply count_occ_cons_eq. Qed.

Lemma suspend_enter_loop_post E state fuel : forall w s,
  wp (suspend_enter_loop E fuel state w) (loop_post E state s) s.
Proof.
  induction fuel as [|fuel IH]; intros w s; unfold wp;
    cbn [suspend_enter_loop]; unfold bind.
  all: pose proof (suspend_enter_post E state w s) as He; unfold wp in He.
  all: destruct (suspend_enter E state w s) as [r s1 | why s1];
    destruct He as (Hg1 & body & Ht1 & Hb & He); cbn [final] in *.
  (* [suspend_enter] did not return *)
  all: try (split; [exact Hg1 | ];
            exists (body ++ [Enter f_suspend_enter]); cbn [final];
            split; [ rewrite Ht1, <- app_assoc; reflexivity | ];
            split; [ rewrite forallb_app,
                       (forallb_weaken _ _ _ enter_event_loop Hb);
                     reflexivity | ];
            intros Hin; apply in_app_or in Hin;
            destruct Hin as [Hin | [Hin | []]];
            [ exact (proj1 He Hin) | discriminate ]).
  all: rewrite turn_trace in Ht1;
    destruct (turn_facts (fst r) body Hb) as (Tl & Tc & Ta & Te & Tin);
    assert (Hwk : In (Call c_pm_wakeup_pending 1) (turn (fst r) body) ->
                  r = (0, true) /\
                  exists pre,
                    body = unwind_log E state s
                             ++ Call c_pm_wakeup_pending 1 :: pre)
      by (intros Hin; apply Tin in Hin; [ | reflexivity];
          destruct (proj2 He Hin) as (? & _ & ?); auto);
    destruct He as (Hfe & _);
    pose proof (suspend_again_cond_post E state (fst r) (snd r) s1) as Hc;
    unfold wp in Hc;
    destruct (suspend_again_cond E state (fst r) (snd r) s1)
      as [again s2 | why2 s2];
    destruct Hc as (Hg2 & Hc); cbn [final] in *;
    pose proof (same_globals_trans _ _ _ Hg1 Hg2) as Hg12.
  (* the condition did not return *)
  all: try (destruct Hc as (e0 & w0 & Ht2 & _);
            split; [exact Hg12 | ];
            exists (turn (fst r) body); cbn [final];
            split; [ rewrite Ht2; exact Ht1 | ];
            split; [ exact Tl | ];
            intros Hin; destruct (Hwk Hin) as (Hr & _);
            rewrite Hr in w0; discriminate).
  all: destruct again.
  (* the condition says no: the loop ends *)
  all: try (unfold ret; destruct Hc as [Ht2 | (e0 & w0 & Ht2)];
            (split; [exact Hg12 | ]); cbn [final];
            [ exists (turn (fst r) body);
              split; [ rewrite Ht2; exact Ht1 | ];
              split; [ exact Tl | ];
              split; [ rewrite Tc, Ta; reflexivity | ];
              split; [ rewrite Te; exact Hfe | ];
              intros Hin; destruct (Hwk Hin) as (Hr & pre & Hsplit);
              split; [exact Hr | ];
              exists (pre ++ [Enter f_suspend_enter]);
              unfold turn; rewrite Hsplit, Hr; cbn [app fst];
              rewrite <- app_assoc; reflexivity
            | exists (Call c_ops_suspend_again 0 :: turn (fst r) body);
              split; [ rewrite Ht2, Ht1; reflexivity | ];
              split; [ cbn [forallb loop_event]; exact Tl | ];
              split; [ rewrite !count_cons_ne, Tc, Ta by discriminate;
                       reflexivity | ];
              split; [ rewrite first_error_cons, Te, Hfe, e0; reflexivity | ];
              intros [Hin | Hin]; [discriminate | ];
              destruct (Hwk Hin) as (Hr & _); rewrite Hr in w0;
              discriminate ]).
  (* the condition says yes *)
  all: destruct Hc as (e0 & w0 & _ & Ht2).
  - (* no fuel left *)
    unfold halt. split; [exact Hg12 | ].
    exists (Call c_ops_suspend_again 1 :: turn (fst r) body). cbn [final].
    split; [ rewrite Ht2, Ht1; reflexivity | ].
    split; [ cbn [forallb loop_event]; exact Tl | ].
    intros [Hin | Hin]; [discriminate | ].
    destruct (Hwk Hin) as (Hr & _). rewrite Hr in w0. discriminate.
  - (* once more *)
    specialize (IH (snd r) s2). unfold wp in IH.
    destruct (suspend_enter_loop E fuel state (snd r) s2) as [r3 s3 | why3 s3];
      destruct IH as (Hg3 & l3 & Ht3 & Hl3 & Hm); cbn [final] in *.
    all: split; [ exact (same_globals_trans _ _ _ Hg12 Hg3) | ].
    all: exists (l3 ++ Call c_ops_suspend_again 1 :: turn (fst r) body);
      cbn [final].
    all: split; [ rewrite Ht3, Ht2, Ht1, <- app_assoc; reflexivity | ].
    all: split; [ rewrite forallb_app, Hl3; cbn [forallb loop_event andb];
                  exact Tl | ].
    + destruct Hm as (Hcnt & Hfe3 & Hwake).
      split; [ rewrite !count_app, count_cons_ne, count_cons_eq, Tc, Ta, Hcnt
                 by discriminate; lia | ].
      split; [ rewrite first_error_app, first_error_cons, Te, Hfe, e0;
               exact Hfe3 | ].
      intros Hin. apply in_app_or in Hin.
      destruct Hin as [Hin | [Hin | Hin]]; [ | discriminate | ].
      * destruct (Hwake Hin) as (Hr & pre & Hl).
        split; [exact Hr | ].
        exists (pre ++ Call c_ops_suspend_again 1 :: turn (fst r) body).
        rewrite Hl, (unwind_log_same E state s s2 Hg12). cbn [app].
        rewrite <- app_assoc. reflexivity.
      * destruct (Hwk Hin) as (Hr & _). rewrite Hr in w0. discriminate.
    + intros Hin. apply in_app_or in Hin.
      destruct Hin as [Hin | [Hin | Hin]]; [ exact (Hm Hin) | discriminate | ].
      destruct (Hwk Hin) as (Hr & _). rewrite Hr in w0. discriminate.
Qed.

(** ** The device phase *)

Lemma loop_event_device e : loop_event e = true -> device_event e = true.
Proof.
  destruct e as [c r|f|f r]; [destruct c | destruct f | destruct f];
    cbn; auto.
Qed.

Ltac unfold_post H :=
  cbv beta iota delta
    [loop_post device_post same_globals final trace pm_mutex suspend_ops
     suspend_freeze_wake pm_test_level suspend_stats irqs_disabled
     events_check_enabled g_keycheck_abort pm_stay_unattended_period
     g_resume_status pm_pwrcs_ret] in H.

(** Use what is known of the loop instead of running it. *)
Ltac wp_loop :=
  lazymatch goal with
  | |- wp (suspend_enter_loop _ _ _ _) _ _ =>
      eapply wp_conseq; [ apply suspend_enter_loop_post | ];
      let o := fresh "o" in
      let Hp := fresh "Hp" in
      let lnew := fresh "lnew" in
      let Hl := fresh "Hloop" in
      let Hm := fresh "Hm" in
      intros o Hp;
      destruct o as [? [? ? ? ? ? ? ? ? ? ? ? ?] | ? [? ? ? ? ? ? ? ? ? ? ? ?]];
      unfold_post Hp;
      destruct Hp as ((? & ? & ? & ? & ?) & lnew & ? & Hl & Hm);
      subst; norm
  end.

Ltac prefix_tac t0 :=
  lazymatch goal with
  | |- exists l, ?h = _ /\ _ =>
      let p := prefix_of h t0 in
      exists p; split; [ cbn [app]; rewrite <- ?app_assoc; reflexivity | ]
  end.

Lemma suspend_devices_and_enter_post E fuel state s :
  wp (suspend_devices_and_enter E fuel state) (device_post s) s.
Proof.
  destruct s as [ops mtx fw lvl st irq ece kca sup grs ppr t0].
  repeat (wp_loop || wp_step).
  all: split; [ repeat split | ]; cbn [final trace].
  all: prefix_tac t0.
  all: cbn [forallb device_event loop_event enter_event andb app];
    rewrite ?forallb_app, ?(forallb_weaken _ _ _ loop_event_device Hloop);
    reflexivity.
Qed.

(** ** Tactics for the leaves of a run *)

Lemma new_is (l t new : hist) : l ++ t = new ++ t -> new = l.
Proof. intros H. apply app_inv_tail in H. auto. Qed.

(** From [Ht : l = new ++ t0] with [l] explicit, replace [new]. *)
Ltac get_new Ht t0 :=
  lazymatch type of Ht with
  | ?l = ?new ++ t0 =>
      let p := prefix_of l t0 in
      let H := fresh in
      assert (H : new = p)
        by (apply (new_is p t0); rewrite <- Ht;
            repeat (progress cbn [app] || rewrite <- app_assoc);
            reflexivity);
      clear Ht; subst new
  end.

Ltac in_cases' H :=
  repeat first
    [ progress cbn [In] in H
    | lazymatch type of H with
      | _ \/ _ => destruct H as [H | H]
      | In _ (_ ++ _) => apply in_app_or in H
      end ];
  try discriminate H; try contradiction;
  try (exfalso; eapply not_in_forallb; [ | | exact H ];
       [ eassumption | reflexivity ]).

Lemma first_error_quiet_cons e h :
  step_error e = 0 -> first_error (e :: h) = first_error h.
Proof.
  intros He. rewrite first_error_cons, He.
  destruct (first_error h =? 0) eqn:H0; [ | reflexivity].
  apply Z.eqb_eq in H0. auto.
Qed.

Lemma first_error_zero_tail h1 h2 :
  first_error h2 = 0 -> first_error (h1 ++ h2) = first_error h1.
Proof. intros H. rewrite first_error_app, H. reflexivity. Qed.

(** The leaf of a run that returned: name the result and the new events. *)
Ltac leaf_ret t0 :=
  let Heq := fresh "Heq" in
  let Ht := fresh "Ht" in
  intros Heq Ht;
  first [ discriminate Heq
        | injection Heq as ? ?; subst; cbn [trace] in Ht; get_new Ht t0 ].

(** Turn a goal [m s = o -> C] into [wp m (fun x => x = o -> C) s]. *)
Ltac wp_begin :=
  lazymatch goal with
  | |- ?ms = _ -> _ =>
      pattern ms;
      lazymatch goal with
      | |- ?Q (?m ?s) => change (wp m Q s)
      end
  end.

Ltac has_cb_tac :=
  cbv beta iota delta [has_cb test_active opt suspend_ops pm_test_level];
  use_conds; cbn [andb app]; use_conds; cbn [andb app].

(** ** The device phase: what is undone, and what is returned *)

(** C6. In [suspend_devices_and_enter], for a call that returns: either no
    driver is registered for a state that needs one and the result is
    -ENOSYS, nothing having been done; or
    - the value returned is the first error a step reported, 0 when none did;
    - the last thing done before returning is [suspend_ops->end], exactly
      when the state needs the driver and the driver has it, also when
      [begin] failed, and [end] is called at no other place;
    - if [dpm_suspend_start] failed with [e], what follows it is [recover]
      (when the state needs the driver and the driver has it), then
      [dpm_resume_end], [ftrace_start], [resume_console], the timer, [end]
      and the return of [e]. *)
Theorem suspend_devices_and_enter_unwinds E fuel state s r s' new :
  suspend_devices_and_enter E fuel state s = Ret r s' ->
  trace s' = new ++ trace s ->
  (need_suspend_ops state = true /\ suspend_ops s = None /\ r = - ENOSYS /\
   new = [Leave f_suspend_devices_and_enter (- ENOSYS);
          Enter f_suspend_devices_and_enter])
  \/
  (r = first_error new /\
   (exists rest,
      new = Leave f_suspend_devices_and_enter r
              :: opt (has_cb state s end_) (Call c_ops_end 0) ++ rest /\
      ~ In (Call c_ops_end 0) rest) /\
   (forall e, e <> 0 -> In (Call c_dpm_suspend_start e) new ->
      exists pre,
        new = Leave f_suspend_devices_and_enter e
                :: opt (has_cb state s end_) (Call c_ops_end 0)
                ++ [Call c_mod_timer 0; Call c_resume_console 0;
                    Call c_ftrace_start 0; Call c_dpm_resume_end 0]
                ++ opt (has_cb state s recover) (Call c_ops_recover 0)
                ++ Call c_dpm_suspend_start e :: pre)).
Proof.
  destruct s as [ops mtx fw lvl st irq ece kca sup grs ppr t0].
  wp_begin.
  repeat (wp_loop || wp_step).
  all: leaf_ret t0.
  all: try (left; repeat split; reflexivity).
  all: right; split; [ | split ].
  (* the first error *)
  all: try (first
         [ solve [first_error_tac]
         | rewrite !first_error_quiet_cons by reflexivity;
           rewrite first_error_zero_tail by first_error_tac;
           symmetry; apply Hm ]).
  (* [end] comes last, and only there *)
  all: try (has_cb_tac; eexists; split; [ reflexivity | ];
            let Hin := fresh "Hin" in intros Hin; in_cases' Hin).
  (* after a failed [dpm_suspend_start] *)
  all: let Hin := fresh "Hin" in
       intros e He Hin; in_cases' Hin;
       injection Hin as Hin; subst; try congruence;
       has_cb_tac; eexists; reflexivity.
Qed.

(** ** The retry loop: when [suspend_enter] runs again *)

Lemma calls_app c h1 h2 : calls c (h1 ++ h2) = (calls c h1 + calls c h2)%nat.
Proof. unfold calls. now rewrite filter_app, length_app. Qed.

Lemma calls_none (P : event -> bool) c h :
  forallb P h = true -> (forall r, P (Call c r) = false) -> calls c h = 0%nat.
Proof.
  intros Hall Hc. unfold calls. induction h as [|e h IH]; [reflexivity | ].
  cbn [forallb] in Hall. apply andb_true_iff in Hall. destruct Hall as [He Hh].
  cbn [filter]. destruct (is_call c e) eqn:Hi; [ | auto].
  destruct e as [c' r| |]; cbn in Hi; try discriminate.
  destruct (call_eq_dec c c'); [subst c' | discriminate].
  rewrite Hc in He. discriminate.
Qed.

Lemma calls_cons_same c r h : calls c (Call c r :: h) = S (calls c h).
Proof.
  unfold calls. cbn [filter is_call].
  destruct (call_eq_dec c c); [reflexivity | congruence].
Qed.

Lemma calls_cons_other c e h : is_call c e = false -> calls c (e :: h) = calls c h.
Proof. intros H. unfold calls. cbn [filter]. now rewrite H. Qed.

Ltac count_tac :=
  repeat first [ rewrite count_cons_ne by discriminate
               | rewrite count_cons_eq
               | rewrite count_app ];
  change (count _ []) with 0%nat.

Ltac calls_tac :=
  repeat first [ rewrite calls_cons_same
               | rewrite calls_cons_other by reflexivity
               | rewrite calls_app ];
  change (calls _ []) with 0%nat.

Lemma count_true_answers h :
  count (Call c_ops_suspend_again 1) h = count_occ Z.eq_dec (answers h) 1.
Proof.
  induction h as [|e h IH]; [reflexivity | ].
  destruct (event_eq_dec e (Call c_ops_suspend_again 1)) as [-> | Hne].
  - rewrite count_cons_eq. cbn [answers count_occ].
    destruct (Z.eq_dec 1 1); congruence.
  - rewrite count_cons_ne by exact Hne.
    destruct e as [c r|f|f r]; try exact IH.
    destruct c; try exact IH.
    cbn [answers count_occ]. destruct (Z.eq_dec r 1); [congruence | exact IH].
Qed.

(** The loop condition holds exactly when the last run of [suspend_enter]
    returned 0 without a pending wakeup, the state needs the driver, and the
    driver has a [suspend_again] that answers true. *)
Lemma suspend_again_cond_true E state error wakeup s :
  (exists s', suspend_again_cond E state error wakeup s = Ret true s') <->
  error = 0 /\ wakeup = false /\ need_suspend_ops state = true /\
  exists ops f, suspend_ops s = Some ops /\ suspend_again ops = Some f /\
                f (trace s) = true.
Proof.
  unfold suspend_again_cond, ops_deref, call_bool, bind, get, ret, halt.
  destruct (Z.eqb_spec error 0) as [-> | Hne]; cbn [andb].
  2: { split; [intros (s' & H); discriminate | intros (H & _); contradiction]. }
  destruct wakeup; cbn [negb andb].
  1: { split; [intros (s' & H); discriminate | intros (_ & H & _); discriminate]. }
  destruct (need_suspend_ops state); cbn [andb].
  2: { split; [intros (s' & H); discriminate | intros (_ & _ & H & _); discriminate]. }
  destruct (suspend_ops s) as [ops|] eqn:Ho.
  2: { split; [intros (s' & H); discriminate
              | intros (_ & _ & _ & ops & f & H & _); discriminate]. }
  destruct (suspend_again ops) as [f|] eqn:Hf.
  2: { split; [intros (s' & H); discriminate
              | intros (_ & _ & _ & ops' & f & H1 & H2 & _); congruence]. }
  destruct (emit E (Call c_ops_suspend_again (Z.b2z (f (trace s)))) s)
    as [u s1 | why s1] eqn:Hemit.
  2: { unfold emit, bind, modify, interrupt in Hemit. discriminate. }
  split.
  - intros (s' & H). injection H as Hv _.
    repeat split; auto. exists ops, f. auto.
  - intros (_ & _ & _ & ops' & f' & H1 & H2 & H3).
    assert (ops' = ops) by congruence. subst ops'.
    assert (f' = f) by congruence. subst f'.
    rewrite H3. eauto.
Qed.

(** C5. In the loop of [suspend_devices_and_enter], [suspend_enter] runs
    again exactly when the loop condition holds, and the loop condition holds
    exactly when the previous run returned 0, no wakeup was pending, and the
    driver (consulted only for a state that needs it) has a [suspend_again]
    that answers true.  So in a call that reaches the loop and returns,
    [suspend_enter] has run once more than [suspend_again] has answered true,
    while [begin], [suspend_console], [ftrace_stop] and [dpm_suspend_start]
    have each run once ([begin] only if there); with the answers true, true,
    false, [suspend_enter] runs three times and [dpm_suspend_start] once. *)
Theorem suspend_again_retries E state :
  (forall error wakeup s,
     (exists s', suspend_again_cond E state error wakeup s = Ret true s') <->
     error = 0 /\ wakeup = false /\ need_suspend_ops state = true /\
     exists ops f, suspend_ops s = Some ops /\ suspend_again ops = Some f /\
                   f (trace s) = true) /\
  (forall fuel w s r s1 again s2,
     suspend_enter E state w s = Ret r s1 ->
     suspend_again_cond E state (fst r) (snd r) s1 = Ret again s2 ->
     suspend_enter_loop E (S fuel) state w s =
     if again then suspend_enter_loop E fuel state (snd r) s2
     else Ret r s2) /\
  (forall fuel s r s' new,
     suspend_devices_and_enter E fuel state s = Ret r s' ->
     trace s' = new ++ trace s ->
     In (Enter f_suspend_enter) new ->
     count (Enter f_suspend_enter) new
       = S (count (Call c_ops_suspend_again 1) new) /\
     calls c_dpm_suspend_start new = 1%nat /\
     calls c_suspend_console new = 1%nat /\
     calls c_ftrace_stop new = 1%nat /\
     (calls (c_ops_begin state) new <= 1)%nat /\
     (answers new = [0; 1; 1] ->
        count (Enter f_suspend_enter) new = 3%nat /\
        calls c_dpm_suspend_start new = 1%nat)).
Proof.
  split; [ intros; apply suspend_again_cond_true | ].
  split.
  { intros fuel w s r s1 again s2 H1 H2.
    cbn [suspend_enter_loop]. unfold bind. rewrite H1, H2.
    destruct again; reflexivity. }
  intros fuel s r s' new.
  destruct s as [ops mtx fw lvl st irq ece kca sup grs ppr t0].
  wp_begin.
  repeat (wp_loop || wp_step).
  all: leaf_ret t0.
  all: intros Hin.
  all: try (in_cases' Hin; fail).
  all: clear Hin.
  all: assert (Hcount :
         count (Enter f_suspend_enter) lnew
         = S (count (Call c_ops_suspend_again 1) lnew)) by apply Hm.
  all: match goal with
       | |- ?A /\ ?B /\ _ =>
           assert (HA : A) by (count_tac; rewrite Hcount; lia);
           assert (HB : B)
             by (calls_tac;
                 rewrite (calls_none loop_event _ lnew Hloop)
                   by (intro; reflexivity);
                 reflexivity);
           split; [exact HA | split; [exact HB | ] ]
       end.
  all: split; [ calls_tac;
                rewrite (calls_none loop_event _ lnew Hloop)
                  by (intro; reflexivity);
                reflexivity | ].
  all: split; [ calls_tac;
                rewrite (calls_none loop_event _ lnew Hloop)
                  by (intro; reflexivity);
                reflexivity | ].
  all: split; [ calls_tac;
                rewrite (calls_none loop_event _ lnew Hloop)
                  by (intro; reflexivity);
                cbn; lia | ].
  all: intros Hans; split; [ | exact HB ].
  all: rewrite HA, count_true_answers, Hans; reflexivity.
Qed.

(** ** A wakeup pending just before the hardware is entered *)

(** C8. If, in [suspend_enter], [pm_wakeup_pending] answers true, then
    [suspend_ops->enter] is not called in that run, [*wakeup] is left true
    and the result is 0; the run goes back through [syscore_resume],
    interrupts on, processors on, [wake], [dpm_resume_start] and [finish].
    In [suspend_devices_and_enter] the loop then ends without asking
    [suspend_again]: what follows the return of [suspend_enter] is the
    resume of the devices and [end], and the result is 0. *)
Theorem pending_wakeup_is_success E state :
  (forall w s o new,
     suspend_enter E state w s = o ->
     trace (final o) = new ++ trace s ->
     In (Call c_pm_wakeup_pending 1) new ->
     exists s' pre,
       o = Ret (0, true) s' /\
       existsb is_ops_enter new = false /\
       new = Leave f_suspend_enter 0
               :: unwind_log E state s
               ++ Call c_pm_wakeup_pending 1 :: pre) /\
  (forall fuel s o new,
     suspend_devices_and_enter E fuel state s = o ->
     trace (final o) = new ++ trace s ->
     In (Call c_pm_wakeup_pending 1) new ->
     exists s' pre,
       o = Ret 0 s' /\
       new = Leave f_suspend_devices_and_enter 0
               :: opt (has_cb state s end_) (Call c_ops_end 0)
               ++ [Call c_mod_timer 0; Call c_resume_console 0;
                   Call c_ftrace_start 0; Call c_dpm_resume_end 0;
                   Leave f_suspend_enter 0]
               ++ unwind_log E state s
               ++ Call c_pm_wakeup_pending 1 :: pre).
Proof.
  split.
  - intros w s o new Ho Ht Hin. subst o.
    pose proof (suspend_enter_post E state w s) as Hp. unfold wp in Hp.
    destruct (suspend_enter E state w s) as [r s' | why s'];
      destruct Hp as (_ & body & Hb & Hall & Hp); cbn [final] in Ht;
      rewrite Hb in Ht.
    + rewrite turn_trace in Ht. apply new_is in Ht. subst new.
      destruct (turn_facts (fst r) body Hall) as (_ & _ & _ & _ & Tin).
      apply Tin in Hin; [ | reflexivity].
      destruct Hp as (_ & Hw). destruct (Hw Hin) as (Hr & Hno & pre & Hbody).
      exists s', (pre ++ [Enter f_suspend_enter]).
      split; [now rewrite Hr | ].
      split.
      * unfold turn. cbn [existsb is_ops_enter orb].
        rewrite existsb_app, Hno. reflexivity.
      * unfold turn. rewrite Hbody, Hr. cbn [fst app].
        rewrite <- app_assoc. reflexivity.
    + exfalso.
      change (body ++ Enter f_suspend_enter :: trace s)
        with (body ++ [Enter f_suspend_enter] ++ trace s) in Ht.
      rewrite app_assoc in Ht. apply new_is in Ht. subst new.
      apply in_app_or in Hin. destruct Hin as [Hin | [Hin | []]];
        [ exact (proj1 Hp Hin) | discriminate ].
  - intros fuel s o new Ho. subst o. revert new.
    destruct s as [ops mtx fw lvl st irq ece kca sup grs ppr t0].
    match goal with
    | |- forall new, trace (final (?m ?s)) = _ -> _ =>
        change (wp m (fun o => forall new,
                        trace (final o) = new ++ trace s ->
                        In (Call c_pm_wakeup_pending 1) new ->
                        exists s' pre, o = Ret 0 s' /\
                          new = Leave f_suspend_devices_and_enter 0
                            :: opt (has_cb state s end_) (Call c_ops_end 0)
                            ++ [Call c_mod_timer 0; Call c_resume_console 0;
                                Call c_ftrace_start 0; Call c_dpm_resume_end 0;
                                Leave f_suspend_enter 0]
                            ++ unwind_log E state s
                            ++ Call c_pm_wakeup_pending 1 :: pre) s)
    end.
    repeat (wp_loop || wp_step).
    all: intros new Ht Hin; cbn [final trace] in Ht; get_new Ht t0.
    all: in_cases' Hin.
    all: try (exfalso; exact (Hm Hin)).
    all: destruct Hm as (_ & _ & Hw); destruct (Hw Hin) as (Hr & pre & Hl).
    all: subst; cbn [fst].
    all: eexists; eexists; split; [ reflexivity | ].
    all: cbv beta iota delta [unwind_log has_cb test_active suspend_ops
                              pm_test_level];
      use_conds; cbn [andb opt];
      repeat (progress cbn [app] || rewrite <- app_assoc);
      reflexivity.
Qed.

(** ** The top level: [enter_state] and [pm_suspend] *)

(** Use what is known of the device phase instead of running it. *)
Ltac wp_device :=
  lazymatch goal with
  | |- wp (suspend_devices_and_enter _ _ _) _ _ =>
      eapply wp_conseq; [ apply suspend_devices_and_enter_post | ];
      let o := fresh "o" in
      let Hp := fresh "Hp" in
      let dnew := fresh "dnew" in
      let Hd := fresh "Hdev" in
      intros o Hp;
      destruct o as [? [? ? ? ? ? ? ? ? ? ? ? ?] | ? [? ? ? ? ? ? ? ? ? ? ? ?]];
      unfold_post Hp;
      destruct Hp as ((? & ? & ? & ? & ?) & dnew & ? & Hd);
      subst; norm
  end.

Ltac in_solve :=
  solve [ repeat first [ left; reflexivity | right | apply in_or_app; right ] ].

(** C10. For a state outside the open range (PM_SUSPEND_ON, PM_SUSPEND_MAX)
    [pm_suspend] returns -EINVAL and nothing has happened: the lock, the
    statistics, the freeze flag, every other global and the log of calls
    (no console call, no sync, no notifier) are as before. *)
Theorem pm_suspend_rejects_out_of_range E fuel state s :
  state <= PM_SUSPEND_ON \/ PM_SUSPEND_MAX <= state ->
  pm_suspend E fuel state s = Ret (- EINVAL) s.
Proof.
  intros H. unfold pm_suspend.
  replace ((state <=? PM_SUSPEND_ON) || (state >=? PM_SUSPEND_MAX)) with true;
    [ reflexivity | ].
  symmetry. apply orb_true_iff. rewrite Z.geb_leb, !Z.leb_le. exact H.
Qed.

(** C2, amended. For a state inside the open range
    (PM_SUSPEND_ON, PM_SUSPEND_MAX), a call of [pm_suspend] that returns has
    incremented exactly one of [suspend_stats.success] and
    [suspend_stats.fail], by one: [success] when it returns 0, [fail]
    otherwise. *)
Theorem pm_suspend_counts_once E fuel state s r s' :
  PM_SUSPEND_ON < state < PM_SUSPEND_MAX ->
  pm_suspend E fuel state s = Ret r s' ->
  (r = 0 /\
   success (suspend_stats s') = success (suspend_stats s) + 1 /\
   fail (suspend_stats s') = fail (suspend_stats s))
  \/
  (r <> 0 /\
   success (suspend_stats s') = success (suspend_stats s) /\
   fail (suspend_stats s') = fail (suspend_stats s) + 1).
Proof.
  intros Hrange. unfold pm_suspend.
  replace ((state <=? PM_SUSPEND_ON) || (state >=? PM_SUSPEND_MAX)) with false
    by (symmetry; apply orb_false_iff; rewrite Z.geb_leb, !Z.leb_gt; lia).
  clear Hrange.
  destruct s as [ops mtx fw lvl [ok ko ff] irq ece kca sup grs ppr t0].
  wp_begin.
  repeat (wp_device || wp_step).
  all: intros Heq; first [ discriminate Heq | injection Heq as ? ?; subst ].
  all: cbn [suspend_stats success fail].
  all: first [ left; repeat split; reflexivity
             | right; repeat split; try reflexivity;
               first [ discriminate
                     | apply Z.eqb_neq; assumption ] ].
Qed.

(** C1, amended. A call of [enter_state] that takes the lock and returns has
    released the lock, as the last thing it did.  [suspend_finish] has run
    exactly when [suspend_prepare] returned 0, and then just before the
    unlock; when [suspend_prepare] failed with [e], [suspend_finish] has not
    run (no process is thawed) and the call returns [e] right after
    [suspend_prepare], which has itself sent PM_POST_SUSPEND and restored
    the console, unless it failed with -EPERM before doing anything. *)
Theorem enter_state_finish_after_prepare E fuel state s r s' new :
  enter_state E fuel state s = Ret r s' ->
  trace s' = new ++ trace s ->
  In (Call c_mutex_trylock 1) new ->
  pm_mutex s' = false /\
  exists e,
    In (Leave f_suspend_prepare e) new /\
    (e = 0 ->
       exists n pre,
         new = Call c_mutex_unlock 0 :: Leave f_suspend_finish 0
                 :: Call c_pm_restore_console 0
                 :: Call (c_pm_notifier_call_chain PM_POST_SUSPEND) n
                 :: Call c_suspend_thaw_processes 0
                 :: Enter f_suspend_finish :: pre /\
         ~ In (Enter f_suspend_finish) pre) /\
    (e <> 0 ->
       r = e /\
       ~ In (Enter f_suspend_finish) new /\
       ~ In (Call c_suspend_thaw_processes 0) new /\
       exists pre,
         new = Call c_mutex_unlock 0 :: Leave f_suspend_prepare e :: pre /\
         ((e = - EPERM /\ exists pre', pre = Enter f_suspend_prepare :: pre')
          \/
          exists n pre',
            pre = Call c_pm_restore_console 0
                    :: Call (c_pm_notifier_call_chain PM_POST_SUSPEND) n
                    :: pre')).
Proof.
  destruct s as [ops mtx fw lvl st irq ece kca sup grs ppr t0].
  wp_begin.
  repeat (wp_device || wp_step).
  all: leaf_ret t0.
  all: intros Hin.
  all: try (in_cases' Hin; fail).
  all: clear Hin.
  all: split; [ reflexivity | ].
  all: lazymatch goal with
       | |- context [Leave f_suspend_prepare ?e :: _] => exists e
       end.
  all: split; [ in_solve | ].
  all: split.
  all: try (intros He0; exfalso;
            first [ discriminate He0
                  | apply Z.eqb_neq in He0; [exact He0 | assumption]
                  | subst; discriminate ]).
  all: try (intros _; eexists; eexists; split; [ reflexivity | ];
            let Hin := fresh "Hin" in intros Hin; in_cases' Hin).
  all: try (intros Hne; exfalso; apply Hne; reflexivity).
  all: try (intros _; split; [ reflexivity | ];
            split; [ let Hin := fresh "Hin" in intros Hin; in_cases' Hin | ];
            split; [ let Hin := fresh "Hin" in intros Hin; in_cases' Hin | ];
            eexists; split; [ reflexivity | ];
            first [ left; split; [ reflexivity | eexists; reflexivity ]
                  | right; eexists; eexists; reflexivity ]).
Qed.

Lemma valid_state_frame E state s v s1 :
  valid_state E state s = Ret v s1 ->
  same_globals s s1 /\
  (trace s1 = trace s \/
   exists r, trace s1 = Call (c_ops_valid state) r :: trace s).
Proof.
  revert v s1.
  destruct s as [ops mtx fw lvl st irq ece kca sup grs ppr t0].
  intros v s1. wp_begin.
  wp_run.
  all: intros Heq; injection Heq as ? ?; subst.
  all: split; [ repeat split | ]; cbn [trace]; eauto.
Qed.

(** C7. When the lock is held, a call of [enter_state] for a state that
    passes [valid_state] (the check made before the lock is tried) returns
    -EBUSY at once: it does not block, and all it has done is the validity
    check (at most the driver's [valid] callback) and the failed
    [mutex_trylock]; the lock stays held by its owner and the statistics are
    untouched. *)
Theorem enter_state_busy E fuel state s s1 :
  pm_mutex s = true ->
  valid_state E state s = Ret true s1 ->
  enter_state E fuel state s
    = Ret (- EBUSY) (log E (Call c_mutex_trylock 0) s1) /\
  pm_mutex (log E (Call c_mutex_trylock 0) s1) = true /\
  suspend_stats (log E (Call c_mutex_trylock 0) s1) = suspend_stats s /\
  (trace s1 = trace s \/
   exists r, trace s1 = Call (c_ops_valid state) r :: trace s).
Proof.
  intros Hm Hv.
  destruct (valid_state_frame E state s true s1 Hv)
    as ((_ & Hmtx & _ & Hst & _) & Ht).
  rewrite Hm in Hmtx.
  split; [ | split; [ | split; [ | exact Ht ] ] ].
  - unfold enter_state, bind. rewrite Hv. cbn [negb].
    unfold mutex_trylock, bind, get. rewrite Hmtx.
    destruct s1; reflexivity.
  - destruct s1; exact Hmtx.
  - destruct s1; exact Hst.
Qed.

(** ** The freeze state *)

Lemma loop_freeze E fuel w s :
  suspend_enter_loop E fuel PM_SUSPEND_FREEZE w s
  = suspend_enter E PM_SUSPEND_FREEZE w s.
Proof.
  destruct fuel; cbn [suspend_enter_loop]; unfold bind;
    destruct (suspend_enter E PM_SUSPEND_FREEZE w s) as [r s1 | why s1];
    try reflexivity.
  all: unfold suspend_again_cond;
    change (need_suspend_ops PM_SUSPEND_FREEZE) with false;
    rewrite andb_false_r; reflexivity.
Qed.

Lemma wp_loop_freeze E fuel w Q s :
  wp (suspend_enter E PM_SUSPEND_FREEZE w) Q s ->
  wp (suspend_enter_loop E fuel PM_SUSPEND_FREEZE w) Q s.
Proof. unfold wp. now rewrite loop_freeze. Qed.

Ltac wp_freeze :=
  lazymatch goal with
  | |- wp (suspend_enter_loop _ _ PM_SUSPEND_FREEZE _) _ _ =>
      apply wp_loop_freeze
  end.

(** C4. In an attempt to enter PM_SUSPEND_FREEZE, whatever the outside
    functions answer, [disable_nonboot_cpus], [arch_suspend_disable_irqs],
    [syscore_suspend] and [suspend_ops->enter] are never called, neither by
    [suspend_enter] run for that state from any machine state, nor in a whole
    [pm_suspend]; and a call of [pm_suspend] that does not return is asleep
    in [freeze_enter]. *)
Theorem freeze_skips_low_level E :
  (forall w s,
     exists new,
       trace (final (suspend_enter E PM_SUSPEND_FREEZE w s)) = new ++ trace s /\
       existsb low_level_step new = false) /\
  (forall fuel s,
     exists new,
       trace (final (pm_suspend E fuel PM_SUSPEND_FREEZE s)) = new ++ trace s /\
       existsb low_level_step new = false /\
       forall why s',
         pm_suspend E fuel PM_SUSPEND_FREEZE s = Stop why s' ->
         why = Blocked /\ exists rest, new = Enter f_freeze_enter :: rest).
Proof.
  split.
  - intros w s.
    destruct s as [ops mtx fw lvl st irq ece kca sup grs ppr t0].
    match goal with
    | |- exists new, trace (final (?m ?s)) = _ /\ _ =>
        change (wp m (fun o => exists new,
                        trace (final o) = new ++ t0 /\
                        existsb low_level_step new = false) s)
    end.
    wp_run.
    all: cbn [final trace]; prefix_tac t0.
    all: reflexivity.
  - intros fuel s.
    destruct s as [ops mtx fw lvl st irq ece kca sup grs ppr t0].
    match goal with
    | |- exists new, trace (final (?m ?s)) = _ /\ _ =>
        change (wp m (fun o => exists new,
                        trace (final o) = new ++ t0 /\
                        existsb low_level_step new = false /\
                        forall why s', o = Stop why s' ->
                          why = Blocked /\
                          exists rest, new = Enter f_freeze_enter :: rest) s)
    end.
    repeat (wp_freeze || wp_step).
    all: cbn [final trace]; prefix_tac t0.
    all: split; [ reflexivity | ].
    all: intros why s' Heq; first [ discriminate Heq | injection Heq as ? ? ].
    all: subst; split; [ reflexivity | eexists; reflexivity ].
Qed.

Ltac use_conds_in H :=
  repeat match goal with
         | H' : ?x = true |- _ =>
             tryif constr_eq H' H then fail else
             lazymatch type of H with context [x] => rewrite H' in H end
         | H' : ?x = false |- _ =>
             tryif constr_eq H' H then fail else
             lazymatch type of H with context [x] => rewrite H' in H end
         end.

(** C9. In an attempt to enter PM_SUSPEND_FREEZE that takes the lock,
    [freeze_begin] runs right after [mutex_trylock], before the sync and
    before any phase, and from then on [suspend_freeze_wake] is set exactly
    when [freeze_wake] has been called since.  So if the attempt reaches
    [freeze_enter] and [freeze_wake] has been called at any moment after the
    reset, before or during the wait, the wait returns and the attempt
    returns 0 with [suspend_stats.success] incremented; with no such call the
    attempt stays asleep in [freeze_enter].  And whether the wait is reached
    or a test level cuts the attempt short, an attempt in which no step
    reports an error and [freeze_wake] has been called after the reset
    returns 0 and counts a success. *)
Theorem freeze_wake_after_reset E fuel s o new :
  pm_suspend E fuel PM_SUSPEND_FREEZE s = o ->
  trace (final o) = new ++ trace s ->
  In (Call c_mutex_trylock 1) new ->
  (exists rest,
     new = rest ++ [Leave f_freeze_begin 0; Enter f_freeze_begin;
                    Call c_mutex_trylock 1;
                    Call c_asus_otg_host_power_off 0]) /\
  suspend_freeze_wake (final o) = signalled E (trace (final o)) /\
  (In (Enter f_freeze_enter) new ->
   if signalled E (trace (final o)) then
     exists s',
       o = Ret 0 s' /\
       In (Leave f_freeze_enter 0) new /\
       success (suspend_stats s') = success (suspend_stats s) + 1 /\
       fail (suspend_stats s') = fail (suspend_stats s)
   else o = Stop Blocked (final o)) /\
  (signalled E (trace (final o)) = true ->
   no_step_failed new = true ->
   exists s',
     o = Ret 0 s' /\
     success (suspend_stats s') = success (suspend_stats s) + 1 /\
     fail (suspend_stats s') = fail (suspend_stats s)).
Proof.
  intros Ho. subst o. revert new.
  destruct s as [ops mtx fw lvl [ok ko ff] irq ece kca sup grs ppr t0].
  match goal with
  | |- forall new, trace (final (?m ?s)) = _ -> ?C =>
      change (wp m (fun o => forall new,
                      trace (final o) = new ++ t0 ->
                      In (Call c_mutex_trylock 1) new ->
  (exists rest,
     new = rest ++ [Leave f_freeze_begin 0; Enter f_freeze_begin;
                    Call c_mutex_trylock 1;
                    Call c_asus_otg_host_power_off 0]) /\
  suspend_freeze_wake (final o) = signalled E (trace (final o)) /\
  (In (Enter f_freeze_enter) new ->
   if signalled E (trace (final o)) then
     exists s',
       o = Ret 0 s' /\
       In (Leave f_freeze_enter 0) new /\
       success (suspend_stats s') = success (suspend_stats s) + 1 /\
       fail (suspend_stats s') = fail (suspend_stats s)
   else o = Stop Blocked (final o)) /\
  (signalled E (trace (final o)) = true ->
   no_step_failed new = true ->
   exists s',
     o = Ret 0 s' /\
     success (suspend_stats s') = success (suspend_stats s) + 1 /\
     fail (suspend_stats s') = fail (suspend_stats s))) s)
  end.
  repeat (wp_freeze || wp_step).
  all: intros new Ht Hin; cbn [final trace] in Ht; get_new Ht t0.
  all: try (in_cases' Hin; fail).
  all: clear Hin.
  all: cbn [final trace suspend_freeze_wake suspend_stats success fail
            signalled orb].
  all: use_conds; cbn [orb].
  all: split;
    [ lazymatch goal with
      | |- exists rest, ?l = _ ++ ?t =>
          let p := prefix_of l t in exists p; reflexivity
      end | ].
  all: split; [ reflexivity | ].
  all: split;
    [ let Hin := fresh "Hin" in
      intros Hin;
      first [ solve [in_cases' Hin]
            | clear Hin;
              first [ reflexivity
                    | eexists; split; [ reflexivity | ];
                      split; [ in_solve | ]; split; reflexivity ] ]
    | let Hsig := fresh "Hsig" in
      let Hq := fresh "Hq" in
      intros Hsig Hq;
      first [ discriminate Hsig
            | exfalso;
              cbn [no_step_failed forallb attempt_error step_error] in Hq;
              use_conds_in Hq; cbn [andb Z.eqb] in Hq; discriminate Hq
            | eexists; split; [ reflexivity | ]; split; reflexivity ] ].
Qed.

(** ** The TEST_DEVICES checkpoint *)

(** C3, amended. With the test level TEST_DEVICES (and CONFIG_PM_DEBUG), an
    attempt to enter PM_SUSPEND_MEM in which [dpm_suspend_start] has
    succeeded stops there: after the 5 second delay it calls [recover] (if
    the driver has it), resumes the devices, calls [end] (if there), runs
    [suspend_finish] and unlocks; [suspend_enter] is never run.  No error is
    made up for the checkpoint: [pm_suspend] returns 0 and counts a
    success. *)
Theorem test_devices_returns_success E fuel s o new :
  CONFIG_PM_DEBUG E = true ->
  pm_test_level s = TEST_DEVICES ->
  pm_suspend E fuel PM_SUSPEND_MEM s = o ->
  trace (final o) = new ++ trace s ->
  In (Call c_dpm_suspend_start 0) new ->
  exists s' n pre,
    o = Ret 0 s' /\
    success (suspend_stats s') = success (suspend_stats s) + 1 /\
    fail (suspend_stats s') = fail (suspend_stats s) /\
    ~ In (Enter f_suspend_enter) new /\
    new = [Call c_mutex_unlock 0; Leave f_suspend_finish 0;
           Call c_pm_restore_console 0;
           Call (c_pm_notifier_call_chain PM_POST_SUSPEND) n;
           Call c_suspend_thaw_processes 0; Enter f_suspend_finish;
           Call c_pm_restore_gfp_mask 0;
           Leave f_suspend_devices_and_enter 0]
          ++ opt (has_cb PM_SUSPEND_MEM s end_) (Call c_ops_end 0)
          ++ [Call c_mod_timer 0; Call c_resume_console 0;
              Call c_ftrace_start 0; Call c_dpm_resume_end 0]
          ++ opt (has_cb PM_SUSPEND_MEM s recover) (Call c_ops_recover 0)
          ++ [Call (c_mdelay 5000) 0; Call c_dpm_suspend_start 0]
          ++ pre.
Proof.
  intros HC Hl Ho. subst o. revert new.
  destruct s as [ops mtx fw lvl [ok ko ff] irq ece kca sup grs ppr t0].
  cbn [pm_test_level] in Hl. subst lvl.
  match goal with
  | |- forall new, trace (final (?m ?s)) = _ -> _ =>
      change (wp m (fun o => forall new,
                      trace (final o) = new ++ t0 ->
                      In (Call c_dpm_suspend_start 0) new ->
  exists s' n pre,
    o = Ret 0 s' /\
    success (suspend_stats s') = success (suspend_stats s) + 1 /\
    fail (suspend_stats s') = fail (suspend_stats s) /\
    ~ In (Enter f_suspend_enter) new /\
    new = [Call c_mutex_unlock 0; Leave f_suspend_finish 0;
           Call c_pm_restore_console 0;
           Call (c_pm_notifier_call_chain PM_POST_SUSPEND) n;
           Call c_suspend_thaw_processes 0; Enter f_suspend_finish;
           Call c_pm_restore_gfp_mask 0;
           Leave f_suspend_devices_and_enter 0]
          ++ opt (has_cb PM_SUSPEND_MEM s end_) (Call c_ops_end 0)
          ++ [Call c_mod_timer 0; Call c_resume_console 0;
              Call c_ftrace_start 0; Call c_dpm_resume_end 0]
          ++ opt (has_cb PM_SUSPEND_MEM s recover) (Call c_ops_recover 0)
          ++ [Call (c_mdelay 5000) 0; Call c_dpm_suspend_start 0]
          ++ pre) s)
  end.
  wp_run.
  all: intros new Ht Hin; cbn [final trace] in Ht; get_new Ht t0.
  all: in_cases' Hin.
  all: try (injection Hin as Hin; subst; discriminate).
  all: clear Hin.
  all: eexists; eexists; eexists.
  all: split; [ reflexivity | ].
  all: split; [ reflexivity | ].
  all: split; [ reflexivity | ].
  all: split; [ let Hin := fresh "Hin" in intros Hin; in_cases' Hin | ].
  all: cbv beta iota delta [has_cb opt suspend_ops];
    change (need_suspend_ops PM_SUSPEND_MEM) with true;
    use_conds; cbn [andb app]; reflexivity.
Qed.

(** ** The claims on concrete machines *)

Lemma absent e (h : hist) : count e h = 0%nat -> ~ In e h.
Proof. intros H. now apply count_occ_not_In in H. Qed.

Lemma trace_from_boot {A} (o : outcome A) l :
  trace (final o) = trace (final o) ++ trace (boot l).
Proof. symmetry. apply app_nil_r. Qed.

(** C1 as stated fails: an observer vetoes PM_SUSPEND_PREPARE; [enter_state]
    has taken the lock, returns the veto and has released the lock, but
    [suspend_finish] has not run (no thaw either). *)
Lemma prepare_veto_skips_finish :
  enter_state env_veto 0 PM_SUSPEND_MEM (boot TEST_NONE)
    = Ret (- EBUSY) (final veto_out) /\
  In (Call c_mutex_trylock 1) (trace (final veto_out)) /\
  ~ In (Enter f_suspend_finish) (trace (final veto_out)) /\
  ~ In (Call c_suspend_thaw_processes 0) (trace (final veto_out)) /\
  pm_mutex (final veto_out) = false.
Proof.
  split; [ vm_compute; reflexivity | ].
  split; [ vm_compute; tauto | ].
  split; [ apply absent; vm_compute; reflexivity | ].
  split; [ apply absent; vm_compute; reflexivity | reflexivity ].
Qed.

Lemma enter_state_finish_witness :
  enter_state env_ok 2 PM_SUSPEND_MEM (boot TEST_NONE)
    = Ret 0 (final mem_out) /\
  In (Call c_mutex_trylock 1) (trace (final mem_out)) /\
  pm_mutex (final mem_out) = false /\
  exists e, In (Leave f_suspend_prepare e) (trace (final mem_out)).
Proof.
  assert (H1 : enter_state env_ok 2 PM_SUSPEND_MEM (boot TEST_NONE)
               = Ret 0 (final mem_out)) by (vm_compute; reflexivity).
  assert (H3 : In (Call c_mutex_trylock 1) (trace (final mem_out)))
    by (vm_compute; tauto).
  destruct (enter_state_finish_after_prepare env_ok 2 PM_SUSPEND_MEM
              (boot TEST_NONE) 0 (final mem_out) (trace (final mem_out))
              H1 (trace_from_boot mem_out TEST_NONE) H3) as (Hm & e & He & _).
  split; [ exact H1 | ].
  split; [ exact H3 | ].
  split; [ exact Hm | ].
  exists e. exact He.
Defined.

(** C2 as stated fails: for PM_SUSPEND_ON, [pm_suspend] returns -EINVAL and
    neither counter has moved. *)
Lemma out_of_range_counts_nothing :
  pm_suspend env_ok 0 PM_SUSPEND_ON (boot TEST_NONE)
    = Ret (- EINVAL) (final on_out) /\
  success (suspend_stats (final on_out))
    = success (suspend_stats (boot TEST_NONE)) /\
  fail (suspend_stats (final on_out))
    = fail (suspend_stats (boot TEST_NONE)).
Proof. repeat split. Qed.

Lemma pm_suspend_counts_once_witness :
  PM_SUSPEND_ON < PM_SUSPEND_MEM < PM_SUSPEND_MAX /\
  pm_suspend env_ok 2 PM_SUSPEND_MEM (boot TEST_NONE)
    = Ret 0 (final suspend_out) /\
  success (suspend_stats (final suspend_out))
    = success (suspend_stats (boot TEST_NONE)) + 1 /\
  fail (suspend_stats (final suspend_out))
    = fail (suspend_stats (boot TEST_NONE)).
Proof.
  assert (H0 : PM_SUSPEND_ON < PM_SUSPEND_MEM < PM_SUSPEND_MAX)
    by (unfold PM_SUSPEND_ON, PM_SUSPEND_MEM, PM_SUSPEND_MAX; lia).
  assert (H1 : pm_suspend env_ok 2 PM_SUSPEND_MEM (boot TEST_NONE)
               = Ret 0 (final suspend_out)) by (vm_compute; reflexivity).
  destruct (pm_suspend_counts_once env_ok 2 PM_SUSPEND_MEM (boot TEST_NONE)
              0 (final suspend_out) H0 H1) as [(_ & Hs & Hf) | (Hne & _)];
    [ | contradiction Hne; reflexivity ].
  split; [ exact H0 | ].
  split; [ exact H1 | ].
  split; [ exact Hs | exact Hf ].
Defined.

(** C3 as stated fails: with TEST_DEVICES set and a compliant driver, the
    attempt to enter PM_SUSPEND_MEM stops after the device suspend, calls
    [recover] and resumes the devices, but [pm_suspend] returns 0, not an
    error, and counts a success. *)
Lemma test_devices_run_returns_zero :
  CONFIG_PM_DEBUG env_ok = true /\
  pm_test_level (boot TEST_DEVICES) = TEST_DEVICES /\
  pm_suspend env_ok 0 PM_SUSPEND_MEM (boot TEST_DEVICES)
    = Ret 0 (final test_devices_out) /\
  In (Call c_dpm_suspend_start 0) (trace (final test_devices_out)) /\
  In (Call c_ops_recover 0) (trace (final test_devices_out)) /\
  In (Call c_dpm_resume_end 0) (trace (final test_devices_out)) /\
  suspend_stats (final test_devices_out) = mkStats 1 0 0.
Proof.
  split; [ reflexivity | ].
  split; [ reflexivity | ].
  split; [ vm_compute; reflexivity | ].
  split; [ vm_compute; tauto | ].
  split; [ vm_compute; tauto | ].
  split; [ vm_compute; tauto | ].
  reflexivity.
Qed.

Lemma test_devices_returns_success_witness :
  CONFIG_PM_DEBUG env_ok = true /\
  pm_test_level (boot TEST_DEVICES) = TEST_DEVICES /\
  In (Call c_dpm_suspend_start 0) (trace (final test_devices_out)) /\
  exists s',
    pm_suspend env_ok 0 PM_SUSPEND_MEM (boot TEST_DEVICES) = Ret 0 s' /\
    success (suspend_stats s')
      = success (suspend_stats (boot TEST_DEVICES)) + 1.
Proof.
  assert (H0 : pm_suspend env_ok 0 PM_SUSPEND_MEM (boot TEST_DEVICES)
               = test_devices_out) by (vm_compute; reflexivity).
  assert (H3 : In (Call c_dpm_suspend_start 0)
                 (trace (final test_devices_out)))
    by (vm_compute; tauto).
  destruct (test_devices_returns_success env_ok 0 (boot TEST_DEVICES)
              test_devices_out (trace (final test_devices_out))
              eq_refl eq_refl H0
              (trace_from_boot test_devices_out TEST_DEVICES) H3)
    as (s' & n & pre & Ho & Hs & _).
  split; [ reflexivity | ].
  split; [ reflexivity | ].
  split; [ exact H3 | ].
  exists s'. rewrite H0. split; [ exact Ho | exact Hs ].
Defined.

Lemma freeze_skips_low_level_witness :
  pm_suspend env_ok 0 PM_SUSPEND_FREEZE (boot TEST_NONE)
    = Stop Blocked (final asleep_out) /\
  existsb low_level_step (trace (final asleep_out)) = false.
Proof.
  assert (H0 : pm_suspend env_ok 0 PM_SUSPEND_FREEZE (boot TEST_NONE)
               = Stop Blocked (final asleep_out))
    by (vm_compute; reflexivity).
  destruct (proj2 (freeze_skips_low_level env_ok) 0%nat (boot TEST_NONE))
    as (new & Ht & Hl & _).
  rewrite H0 in Ht. cbn [final] in Ht.
  change (trace (boot TEST_NONE)) with (@nil event) in Ht.
  rewrite app_nil_r in Ht.
  split; [ exact H0 | ].
  rewrite Ht. exact Hl.
Defined.

Lemma suspend_again_retries_witness :
  suspend_devices_and_enter env_ok 2 PM_SUSPEND_MEM (boot TEST_NONE)
    = Ret 0 (final retry_out) /\
  In (Enter f_suspend_enter) (trace (final retry_out)) /\
  answers (trace (final retry_out)) = [0; 1; 1] /\
  count (Enter f_suspend_enter) (trace (final retry_out)) = 3%nat /\
  calls c_dpm_suspend_start (trace (final retry_out)) = 1%nat.
Proof.
  assert (H1 : suspend_devices_and_enter env_ok 2 PM_SUSPEND_MEM
                 (boot TEST_NONE) = Ret 0 (final retry_out))
    by (vm_compute; reflexivity).
  assert (H3 : In (Enter f_suspend_enter) (trace (final retry_out)))
    by (vm_compute; tauto).
  assert (H4 : answers (trace (final retry_out)) = [0; 1; 1])
    by (vm_compute; reflexivity).
  destruct (suspend_again_retries env_ok PM_SUSPEND_MEM) as (_ & _ & H).
  destruct (H 2%nat (boot TEST_NONE) 0 (final retry_out)
              (trace (final retry_out)) H1
              (trace_from_boot retry_out TEST_NONE) H3)
    as (_ & _ & _ & _ & _ & Hans).
  destruct (Hans H4) as (Hc & Hd).
  split; [ exact H1 | ].
  split; [ exact H3 | ].
  split; [ exact H4 | ].
  split; [ exact Hc | exact Hd ].
Defined.

Lemma suspend_devices_and_enter_unwinds_witness :
  suspend_devices_and_enter env_dpm_fails 0 PM_SUSPEND_MEM (boot TEST_NONE)
    = Ret (-5) (final dpm_fails_out) /\
  In (Call c_dpm_suspend_start (-5)) (trace (final dpm_fails_out)) /\
  exists pre,
    trace (final dpm_fails_out)
    = Leave f_suspend_devices_and_enter (-5)
        :: opt (has_cb PM_SUSPEND_MEM (boot TEST_NONE) end_)
             (Call c_ops_end 0)
        ++ [Call c_mod_timer 0; Call c_resume_console 0;
            Call c_ftrace_start 0; Call c_dpm_resume_end 0]
        ++ opt (has_cb PM_SUSPEND_MEM (boot TEST_NONE) recover)
             (Call c_ops_recover 0)
        ++ Call c_dpm_suspend_start (-5) :: pre.
Proof.
  assert (H1 : suspend_devices_and_enter env_dpm_fails 0 PM_SUSPEND_MEM
                 (boot TEST_NONE) = Ret (-5) (final dpm_fails_out))
    by (vm_compute; reflexivity).
  assert (H3 : In (Call c_dpm_suspend_start (-5))
                 (trace (final dpm_fails_out)))
    by (vm_compute; tauto).
  assert (H5 : -5 <> 0) by discriminate.
  destruct (suspend_devices_and_enter_unwinds env_dpm_fails 0 PM_SUSPEND_MEM
              (boot TEST_NONE) (-5) (final dpm_fails_out)
              (trace (final dpm_fails_out)) H1
              (trace_from_boot dpm_fails_out TEST_NONE))
    as [(_ & Hn & _) | (_ & _ & Hd)]; [ discriminate Hn | ].
  destruct (Hd (-5) H5 H3) as (pre & Hpre).
  split; [ exact H1 | ].
  split; [ exact H3 | ].
  exists pre. exact Hpre.
Defined.

Lemma enter_state_busy_witness :
  pm_mutex busy = true /\
  valid_state env_ok PM_SUSPEND_MEM busy = Ret true (final busy_valid_out) /\
  enter_state env_ok 0 PM_SUSPEND_MEM busy
    = Ret (- EBUSY)
        (log env_ok (Call c_mutex_trylock 0) (final busy_valid_out)) /\
  pm_mutex (log env_ok (Call c_mutex_trylock 0) (final busy_valid_out))
    = true.
Proof.
  assert (H1 : valid_state env_ok PM_SUSPEND_MEM busy
               = Ret true (final busy_valid_out))
    by (vm_compute; reflexivity).
  destruct (enter_state_busy env_ok 0 PM_SUSPEND_MEM busy
              (final busy_valid_out) eq_refl H1) as (Hr & Hm & _).
  split; [ reflexivity | ].
  split; [ exact H1 | ].
  split; [ exact Hr | exact Hm ].
Defined.

Lemma pending_wakeup_is_success_witness :
  In (Call c_pm_wakeup_pending 1) (trace (final wakeup_enter_out)) /\
  In (Call c_pm_wakeup_pending 1) (trace (final wakeup_out)) /\
  (exists s', wakeup_enter_out = Ret (0, true) s') /\
  (exists s', wakeup_out = Ret 0 s') /\
  existsb is_ops_enter (trace (final wakeup_enter_out)) = false.
Proof.
  assert (E1 : suspend_enter env_wakeup PM_SUSPEND_MEM false (boot TEST_NONE)
               = wakeup_enter_out) by (vm_compute; reflexivity).
  assert (E2 : suspend_devices_and_enter env_wakeup 0 PM_SUSPEND_MEM
                 (boot TEST_NONE) = wakeup_out) by (vm_compute; reflexivity).
  assert (H1 : In (Call c_pm_wakeup_pending 1)
                 (trace (final wakeup_enter_out)))
    by (vm_compute; tauto).
  assert (H2 : In (Call c_pm_wakeup_pending 1) (trace (final wakeup_out)))
    by (vm_compute; tauto).
  destruct (pending_wakeup_is_success env_wakeup PM_SUSPEND_MEM) as (Ha & Hb).
  destruct (Ha false (boot TEST_NONE) wakeup_enter_out
              (trace (final wakeup_enter_out)) E1
              (trace_from_boot wakeup_enter_out TEST_NONE) H1)
    as (s1 & pre1 & Ho1 & Hn1 & _).
  destruct (Hb 0%nat (boot TEST_NONE) wakeup_out
              (trace (final wakeup_out)) E2
              (trace_from_boot wakeup_out TEST_NONE) H2)
    as (s2 & pre2 & Ho2 & _).
  split; [ exact H1 | ].
  split; [ exact H2 | ].
  split; [ exists s1; exact Ho1 | ].
  split; [ exists s2; exact Ho2 | exact Hn1 ].
Defined.

Lemma freeze_wake_after_reset_witness :
  In (Call c_mutex_trylock 1) (trace (final freeze_out)) /\
  In (Enter f_freeze_enter) (trace (final freeze_out)) /\
  signalled env_signal (trace (final freeze_out)) = true /\
  exists s',
    freeze_out = Ret 0 s' /\
    success (suspend_stats s') = success (suspend_stats (boot TEST_NONE)) + 1.
Proof.
  assert (E1 : pm_suspend env_signal 0 PM_SUSPEND_FREEZE (boot TEST_NONE)
               = freeze_out) by (vm_compute; reflexivity).
  assert (H1 : In (Call c_mutex_trylock 1) (trace (final freeze_out)))
    by (vm_compute; tauto).
  assert (H2 : In (Enter f_freeze_enter) (trace (final freeze_out)))
    by (vm_compute; tauto).
  assert (H3 : signalled env_signal (trace (final freeze_out)) = true)
    by (vm_compute; reflexivity).
  destruct (freeze_wake_after_reset env_signal 0 (boot TEST_NONE) freeze_out
              (trace (final freeze_out)) E1
              (trace_from_boot freeze_out TEST_NONE) H1) as (_ & _ & Hw & _).
  specialize (Hw H2). rewrite H3 in Hw.
  destruct Hw as (s' & Ho & _ & Hs & _).
  split; [ exact H1 | ].
  split; [ exact H2 | ].
  split; [ exact H3 | ].
  exists s'. split; [ exact Ho | exact Hs ].
Defined.

Lemma pm_suspend_rejects_out_of_range_witness :
  PM_SUSPEND_MAX <= 7 /\
  pm_suspend env_ok 0 7 (boot TEST_NONE) = Ret (- EINVAL) (boot TEST_NONE).
Proof.
  assert (H : 7 <= PM_SUSPEND_ON \/ PM_SUSPEND_MAX <= 7)
    by (right; unfold PM_SUSPEND_MAX; lia).
  split; [ unfold PM_SUSPEND_MAX; lia | ].
  exact (pm_suspend_rejects_out_of_range env_ok 0 7 (boot TEST_NONE) H).
Defined.

(** * Further properties of the code

    The runs of [suspend_enter], of [suspend_devices_and_enter] and of
    [pm_suspend] are first summed up as the ways through them: for each way,
    when it is taken, what it logs, what it returns and what it leaves in
    the globals.  The loop around [suspend_enter] has a rule of its own.  The
    properties are then read off the ways. *)

(** ** [valid_state] *)

(** What [valid_state] does, case by case. *)
Lemma valid_state_runs E state s :
  exists v s',
    valid_state E state s = Ret v s' /\
    if state =? PM_SUSPEND_FREEZE then
      v = negb (freeze_unsupported E s) /\ s' = s
    else
      match suspend_ops s with
      | None => v = false /\ s' = s
      | Some ops =>
          match valid ops with
          | None => v = false /\ s' = s
          | Some f =>
              v = negb (f state (trace s) =? 0) /\
              s' = log E (Call (c_ops_valid state) (f state (trace s))) s
          end
      end.
Proof.
  destruct s as [ops mtx fw lvl st irq ece kca sup grs ppr t0].
  unfold valid_state, freeze_unsupported.
  destruct (state =? PM_SUSPEND_FREEZE).
  - unfold bind, get, ret. cbn [pm_test_level].
    destruct (CONFIG_PM_DEBUG E), lvl; cbn;
      (eexists; eexists; split; [reflexivity | ]);
      split; reflexivity.
  - unfold bind, get, ret. cbn [suspend_ops].
    destruct ops as [ops|]; [destruct (valid ops) as [f|] | ];
      (eexists; eexists; split; [reflexivity | ]);
      split; reflexivity.
Qed.

(** ** Registering a driver *)

Lemma suspend_set_ops_returns ops s s1 :
  suspend_set_ops ops s = Ret tt s1 ->
  pm_mutex s = false /\ s1 = set_suspend_ops ops s.
Proof.
  destruct s as [o mtx fw lvl st irq ece kca sup grs ppr t0].
  unfold suspend_set_ops, lock_system_sleep, unlock_system_sleep,
    bind, get, modify, halt. cbn [pm_mutex].
  destruct mtx; [discriminate | ].
  intros H. injection H as <-. split; reflexivity.
Qed.

(** X1. A driver registered with [suspend_set_ops] whose [valid] is
    [suspend_valid_only_mem]: the registration returns only when no suspend
    attempt holds the lock, it replaces the table and leaves the lock free
    and everything else as it was; and from then on [valid_state] accepts,
    among the states other than PM_SUSPEND_FREEZE, exactly PM_SUSPEND_MEM. *)
Theorem suspend_set_ops_valid_only_mem E ops s s1 state :
  suspend_set_ops (Some ops) s = Ret tt s1 ->
  valid ops = Some (fun st _ => suspend_valid_only_mem st) ->
  state <> PM_SUSPEND_FREEZE ->
  pm_mutex s = false /\
  s1 = set_suspend_ops (Some ops) s /\
  exists s2,
    valid_state E state s1 = Ret (state =? PM_SUSPEND_MEM) s2 /\
    suspend_ops s2 = Some ops /\ pm_mutex s2 = false.
Proof.
  intros Hreg Hvalid Hstate.
  destruct (suspend_set_ops_returns _ _ _ Hreg) as (Hm & ->).
  split; [exact Hm | split; [reflexivity | ] ].
  destruct (valid_state_runs E state (set_suspend_ops (Some ops) s))
    as (v & s2 & Hv & Hcase).
  apply Z.eqb_neq in Hstate. rewrite Hstate in Hcase.
  destruct s as [o mtx fw lvl st irq ece kca sup grs ppr t0].
  cbn [set_suspend_ops suspend_ops] in Hcase. rewrite Hvalid in Hcase.
  destruct Hcase as (-> & ->).
  cbn [pm_mutex] in Hm. subst mtx.
  replace (negb (suspend_valid_only_mem state =? 0))
    with (state =? PM_SUSPEND_MEM) in Hv
    by (unfold suspend_valid_only_mem;
        destruct (state =? PM_SUSPEND_MEM); reflexivity).
  eexists. split; [ exact Hv | split; reflexivity ].
Qed.

(** ** A state that is not supported *)

Lemma call_void_eq E c s : call_void E c s = Ret tt (log E (Call c 0) s).
Proof. destruct s; reflexivity. Qed.

Lemma in_range state :
  PM_SUSPEND_ON < state < PM_SUSPEND_MAX ->
  (state <=? PM_SUSPEND_ON) || (state >=? PM_SUSPEND_MAX) = false.
Proof.
  intros H. apply orb_false_iff. rewrite Z.geb_leb, !Z.leb_gt. lia.
Qed.

(** X2. When [valid_state] turns a state of the accepted range down,
    [pm_suspend] returns -ENODEV: the lock is not even tried, nothing is
    synced, prepared or notified; the failure is counted in
    [suspend_stats.fail] and its code recorded.  All that was called is
    [asus_otg_host_power_off], the driver's [valid] when there is one, and
    [dpm_save_failed_errno].  This is so, with no callback called, for
    PM_SUSPEND_STANDBY and PM_SUSPEND_MEM while no driver is registered. *)
Theorem pm_suspend_unsupported_state E fuel state s :
  PM_SUSPEND_ON < state < PM_SUSPEND_MAX ->
  (forall s1,
     valid_state E state (log E (Call c_asus_otg_host_power_off 0) s)
       = Ret false s1 ->
     exists s',
       pm_suspend E fuel state s = Ret (- ENODEV) s' /\
       s' = log E (Call (c_dpm_save_failed_errno (- ENODEV)) 0)
              (set_suspend_stats (incr_fail (suspend_stats s1)) s1) /\
       pm_mutex s' = pm_mutex s /\
       fail (suspend_stats s') = fail (suspend_stats s) + 1 /\
       success (suspend_stats s') = success (suspend_stats s) /\
       (trace s' = [Call (c_dpm_save_failed_errno (- ENODEV)) 0;
                    Call c_asus_otg_host_power_off 0] ++ trace s
        \/
        trace s' = [Call (c_dpm_save_failed_errno (- ENODEV)) 0;
                    Call (c_ops_valid state) 0;
                    Call c_asus_otg_host_power_off 0] ++ trace s)) /\
  (suspend_ops s = None -> need_suspend_ops state = true ->
   pm_suspend E fuel state s =
   Ret (- ENODEV)
     (log E (Call (c_dpm_save_failed_errno (- ENODEV)) 0)
        (set_suspend_stats (incr_fail (suspend_stats s))
           (log E (Call c_asus_otg_host_power_off 0) s)))).
Proof.
  intros Hrange.
  assert (Hrun : forall s1,
    valid_state E state (log E (Call c_asus_otg_host_power_off 0) s)
      = Ret false s1 ->
    pm_suspend E fuel state s =
    Ret (- ENODEV)
      (log E (Call (c_dpm_save_failed_errno (- ENODEV)) 0)
         (set_suspend_stats (incr_fail (suspend_stats s1)) s1))).
  { intros s1 Hv. unfold pm_suspend. rewrite (in_range state Hrange).
    unfold bind at 1. rewrite call_void_eq.
    unfold bind at 1. unfold enter_state. unfold bind at 1. rewrite Hv.
    cbn [negb]. unfold ret at 1. cbn [Z.eqb negb ENODEV Z.opp].
    unfold bind, modify, ret. rewrite call_void_eq. reflexivity. }
  split.
  - intros s1 Hv. eexists. split; [ exact (Hrun s1 Hv) | ].
    split; [ reflexivity | ].
    destruct (valid_state_runs E state
                (log E (Call c_asus_otg_host_power_off 0) s))
      as (v & s2 & Hv2 & Hcase).
    rewrite Hv in Hv2. injection Hv2 as <- <-.
    destruct s as [ops mtx fw lvl [ok ko ff] irq ece kca sup grs ppr t0].
    destruct (state =? PM_SUSPEND_FREEZE).
    + destruct Hcase as (_ & ->). repeat split; left; reflexivity.
    + cbn [log suspend_ops set_trace set_suspend_freeze_wake] in Hcase.
      destruct ops as [ops|]; [destruct (valid ops) as [f|] | ].
      * destruct Hcase as (Hf & ->).
        symmetry in Hf. apply negb_false_iff, Z.eqb_eq in Hf.
        cbn [trace log set_trace set_suspend_freeze_wake] in Hf |- *.
        rewrite Hf. repeat split. right. reflexivity.
      * destruct Hcase as (_ & ->). repeat split; left; reflexivity.
      * destruct Hcase as (_ & ->). repeat split; left; reflexivity.
  - intros Hops Hneed.
    destruct (valid_state_runs E state
                (log E (Call c_asus_otg_host_power_off 0) s))
      as (v & s2 & Hv2 & Hcase).
    replace (state =? PM_SUSPEND_FREEZE) with false in Hcase
      by (symmetry; apply Z.eqb_neq; unfold need_suspend_ops in Hneed;
          apply Z.ltb_lt in Hneed; lia).
    destruct s as [ops mtx fw lvl [ok ko ff] irq ece kca sup grs ppr t0].
    cbn [suspend_ops] in Hops. subst ops.
    cbn [log suspend_ops set_trace set_suspend_freeze_wake] in Hcase.
    destruct Hcase as (-> & ->). rewrite (Hrun _ Hv2). reflexivity.
Qed.

(** ** [suspend_prepare] *)

(** Rewrite with what is known of the callbacks. *)
Ltac use_opts :=
  repeat match goal with
         | H : ?x = Some _ |- context [?x] => rewrite H
         | H : ?x = None |- context [?x] => rewrite H
         end.

(** Solve [l = ?new ++ t0] for an explicit [l]. *)
Ltac prefix_inst t0 :=
  lazymatch goal with
  | |- ?l = ?e ++ t0 =>
      let p := prefix_of l t0 in
      unify e p; cbn [app]; rewrite <- ?app_assoc; reflexivity
  end.

(** X3. [suspend_prepare] always returns, and in one of four ways.
    - The state needs a driver and none is registered, or the driver has no
      [enter]: -EPERM, nothing has been called or changed.
    - An observer vetoes PM_SUSPEND_PREPARE with [e]: [e] is returned after
      PM_POST_SUSPEND has been sent and the console restored; the processes
      were not touched.
    - [suspend_freeze_processes] fails with [e]: [e] is returned after
      [suspend_stats.failed_freeze] has been incremented, the failed step
      recorded, PM_POST_SUSPEND sent and the console restored.
    - Otherwise 0 is returned with the console prepared, PM_SUSPEND_PREPARE
      accepted and the processes frozen, and nothing undone.
    [g_keycheck_abort] is reset to 0 exactly when the observers accepted. *)
Theorem suspend_prepare_outcomes E state s :
  exists r s' new,
    suspend_prepare E state s = Ret r s' /\
    trace s' = new ++ trace s /\
    suspend_ops s' = suspend_ops s /\ pm_mutex s' = pm_mutex s /\
    ((need_suspend_ops state = true /\ has_enter s = false /\
      r = - EPERM /\
      new = [Leave f_suspend_prepare (- EPERM); Enter f_suspend_prepare] /\
      g_keycheck_abort s' = g_keycheck_abort s /\
      suspend_stats s' = suspend_stats s)
     \/
     ((need_suspend_ops state = false \/ has_enter s = true) /\
      ((exists n,
          r <> 0 /\
          new = [Leave f_suspend_prepare r; Call c_pm_restore_console 0;
                 Call (c_pm_notifier_call_chain PM_POST_SUSPEND) n;
                 Call (c_pm_notifier_call_chain PM_SUSPEND_PREPARE) r;
                 Call c_pm_prepare_console 0; Enter f_suspend_prepare] /\
          g_keycheck_abort s' = g_keycheck_abort s /\
          suspend_stats s' = suspend_stats s)
       \/
       (exists n,
          r <> 0 /\
          new = [Leave f_suspend_prepare r; Call c_pm_restore_console 0;
                 Call (c_pm_notifier_call_chain PM_POST_SUSPEND) n;
                 Call c_dpm_save_failed_step 0;
                 Call c_suspend_freeze_processes r;
                 Call (c_pm_notifier_call_chain PM_SUSPEND_PREPARE) 0;
                 Call c_pm_prepare_console 0; Enter f_suspend_prepare] /\
          g_keycheck_abort s' = 0 /\
          suspend_stats s' = incr_failed_freeze (suspend_stats s))
       \/
       (r = 0 /\
        new = [Leave f_suspend_prepare 0;
               Call c_suspend_freeze_processes 0;
               Call (c_pm_notifier_call_chain PM_SUSPEND_PREPARE) 0;
               Call c_pm_prepare_console 0; Enter f_suspend_prepare] /\
        g_keycheck_abort s' = 0 /\
        suspend_stats s' = suspend_stats s)))).
Proof.
  destruct s as [ops mtx fw lvl [ok ko ff] irq ece kca sup grs ppr t0].
  match goal with
  | |- exists r s' new, ?m ?s = _ /\ @?Q r s' new =>
      change (wp m (fun o => exists r s' new, o = Ret r s' /\ Q r s' new) s)
  end.
  wp_run.
  all: cbv beta.
  all: eexists; eexists; eexists; (split; [ reflexivity | ]).
  all: cbn [trace suspend_ops pm_mutex g_keycheck_abort suspend_stats].
  all: (split; [ prefix_inst t0 | ]).
  all: (split; [ reflexivity | split; [ reflexivity | ] ]).
  all: unfold has_enter, present; cbn [suspend_ops]; use_conds; use_opts.
  all: try (left; repeat split; reflexivity).
  all: right; (split; [ first [ left; assumption | left; reflexivity
                              | right; reflexivity ] | ]).
  all: try (right; right; repeat split; reflexivity).
  all: first
    [ left; eexists; split; [ apply Z.eqb_neq; assumption | ];
      repeat split; reflexivity
    | right; left; eexists; split; [ apply Z.eqb_neq; assumption | ];
      repeat split; reflexivity ].
Qed.

(** ** One run of [suspend_enter] *)

Ltac cb_tac :=
  cbv beta iota delta
    [platform_prepared platform_wake_log unwind_log has_prepare
     has_prepare_late has_cb has_enter present test_active opt suspend_ops
     pm_test_level];
  use_conds; use_opts; cbn [andb orb app]; use_conds; use_opts;
  cbn [andb orb app].

(** The way a log tells, from the deepest step it shows. *)
Ltac find_way l :=
  match l with
  | context [Call (c_ops_enter _) ?r] => constr:(entered r)
  | context [Call c_pm_wakeup_pending (Z.b2z ?b)] => constr:(not_entered b)
  | context [Call c_pm_wakeup_pending 1] => constr:(not_entered true)
  | context [Call c_pm_wakeup_pending 0] => constr:(not_entered false)
  | context [Call c_syscore_suspend ?e] => constr:(syscore_failed e)
  | context [Call c_disable_nonboot_cpus 0] => constr:(test_cpus)
  | context [Call c_disable_nonboot_cpus ?e] => constr:(cpus_failed e)
  | context [Leave f_freeze_enter _] => constr:(woken)
  | context [Call (c_mdelay _) _] => constr:(test_platform)
  | context [Call c_ops_prepare_late ?e] => constr:(prepare_late_failed e)
  | context [Call c_dpm_suspend_end ?e] => constr:(suspend_end_failed e)
  | context [Call c_ops_prepare ?e] => constr:(prepare_failed e)
  end.

Ltac neq_tac :=
  first [ apply Z.eqb_neq; assumption
        | intros ->; discriminate
        | intros ?; subst; discriminate
        | let H := fresh in intros H; apply Z.eqb_eq in H; congruence ].

Ltac cond_tac :=
  cb_tac;
  first [ reflexivity | assumption | neq_tac | apply orb_true_r | exact I ].

Lemma suspend_enter_ways E state w s :
  wp (suspend_enter E state w) (enter_ways E state w s) s.
Proof.
  destruct s as [ops mtx fw lvl stt irq ece kca sup grs ppr t0].
  wp_run.
  all: split; [ repeat split | ].
  all: cbn [trace irqs_disabled events_check_enabled suspend_freeze_wake].
  all: lazymatch goal with
       | |- exists y, _ /\ _ /\ (?l = _) /\ _ =>
           let y := find_way l in
           exists y; cbn [way_taken way_result way_log way_irqs fst];
           repeat split; cond_tac
       | |- _ =>
           first [ left; repeat split; cond_tac
                 | right; left; repeat split; cond_tac
                 | right; right; repeat split; cond_tac ]
       end.
Qed.

Lemma in_opt (x e : event) b : In x (opt b e) -> b = true /\ e = x.
Proof. destruct b; cbn; [intros [H | []]; auto | intros []]. Qed.

Lemma existsb_opt (f : event -> bool) b e :
  f e = false -> existsb f (opt b e) = false.
Proof. intros H. destruct b; cbn; [now rewrite H | reflexivity]. Qed.

(** Take [H : In x l] apart, for a log [l] built from the pieces above. *)
Ltac in_log H :=
  repeat first
    [ progress cbn [In] in H
    | lazymatch type of H with
      | _ \/ _ => destruct H as [H | H]
      | In _ (_ ++ _) => apply in_app_or in H
      | In _ (opt _ _) =>
          let Hb := fresh "Hb" in apply in_opt in H; destruct H as [Hb H]
      | In _ (platform_wake_log _ _) => unfold platform_wake_log in H
      | In _ (platform_prepared _ _) => unfold platform_prepared in H
      | In _ (unwind_log _ _ _) => unfold unwind_log in H
      end ];
  try discriminate H; try contradiction.

(** Find an event in a log built from the pieces above. *)
Ltac in_search :=
  lazymatch goal with
  | |- In _ (_ :: _) => first [ left; reflexivity | right; in_search ]
  | |- In _ (_ ++ _) =>
      first [ apply in_or_app; left; in_search
            | apply in_or_app; right; in_search ]
  | |- In _ (unwind_log _ _ _) => unfold unwind_log; in_search
  | |- In _ (platform_wake_log _ _) => unfold platform_wake_log; in_search
  | |- In _ (platform_prepared _ _) => unfold platform_prepared; in_search
  end.

Ltac no_event_tac :=
  cbv beta iota delta [platform_wake_log platform_prepared unwind_log];
  cbn [existsb orb];
  repeat first [ rewrite existsb_app | rewrite existsb_opt by reflexivity ];
  cbn [existsb orb]; reflexivity.

(** The log of a run that returned, as a prefix of the final log. *)
Lemma new_of_way (l t new : hist) (e : event) :
  e :: l ++ t = new ++ t -> new = e :: l.
Proof. intros H. apply (new_is (e :: l) t). exact H. Qed.

(** Case analysis on a run of [suspend_enter] whose new events are [new]. *)
Ltac enter_cases E state w s new Ht :=
  let Hw := fresh "Hw" in
  pose proof (suspend_enter_ways E state w s) as Hw;
  unfold wp, enter_ways in Hw;
  let r := fresh "r" in
  let s' := fresh "s'" in
  let why := fresh "why" in
  let y := fresh "y" in
  let Hu := fresh "Hu" in
  let Htk := fresh "Htk" in
  let Hr := fresh "Hr" in
  let Htr := fresh "Htr" in
  let Hirq := fresh "Hirq" in
  let Hece := fresh "Hece" in
  let Hfw := fresh "Hfw" in
  destruct (suspend_enter E state w s) as [r s' | why s'];
  [ destruct Hw as (Hu & y & Htk & Hr & Htr & Hirq & Hece & Hfw);
    cbn [final] in Ht; rewrite Htr in Ht; apply new_of_way in Ht
  | destruct Hw as (Hu & [Hw | [Hw | Hw] ]); cbn [final] in Ht ].

(** X4. The hardware is entered in the innermost bracket.  When
    [suspend_ops->enter] is called in a run of [suspend_enter], it is called
    with the state asked for, after [prepare] (if there), [dpm_suspend_end],
    [prepare_late] (if there), [disable_nonboot_cpus] and [syscore_suspend]
    have all returned 0, interrupts have been disabled and
    [pm_wakeup_pending] has answered false, and no test level cuts the run
    short; the run then undoes these steps in reverse order and returns what
    [enter] returned, with [*wakeup] false, interrupts enabled again and
    [events_check_enabled] cleared. *)
Theorem suspend_enter_reaches_hardware E state w s new st r :
  trace (final (suspend_enter E state w s)) = new ++ trace s ->
  In (Call (c_ops_enter st) r) new ->
  st = state /\
  test_active E s TEST_PLATFORM = false /\
  test_active E s TEST_CPUS = false /\
  test_active E s TEST_CORE = false /\
  exists s',
    suspend_enter E state w s = Ret (r, false) s' /\
    events_check_enabled s' = false /\ irqs_disabled s' = false /\
    new = Leave f_suspend_enter r
          :: platform_wake_log state s
          ++ [Call c_enable_nonboot_cpus 0; Call c_arch_suspend_enable_irqs 0;
              Call c_syscore_resume 0; Call (c_ops_enter state) r;
              Call c_pm_wakeup_pending 0; Call c_syscore_suspend 0;
              Call c_arch_suspend_disable_irqs 0;
              Call c_disable_nonboot_cpus 0]
          ++ platform_prepared state s.
Proof.
  intros Ht Hin.
  enter_cases E state w s new Ht.
  - subst new. destruct Hin as [Hin | Hin]; [discriminate | ].
    destruct y; cbn [way_log] in Hin; in_log Hin.
    injection Hin as -> ->.
    cbn [way_taken way_result way_irqs fst] in *.
    destruct Htk as (_ & _ & HP & HC & HO).
    repeat (split; [ assumption || reflexivity | ]).
    exists s'. subst r0. repeat split; assumption.
  - exfalso. destruct Hw as (_ & _ & _ & _ & Htr). rewrite Htr in Ht.
    apply new_of_way in Ht. subst new. in_log Hin.
  - exfalso. destruct Hw as (_ & _ & _ & Htr). rewrite Htr in Ht.
    apply (new_is [Enter f_suspend_enter]) in Ht. subst new. in_log Hin.
  - exfalso. destruct Hw as (_ & _ & _ & Htr). rewrite Htr in Ht.
    rewrite app_assoc in Ht. apply new_is in Ht. subst new. in_log Hin.
Qed.

(** X5. [suspend_enter] undoes exactly what it has done.  In a run that
    returns, the first step that fails with [e] decides the way back and [e]
    is returned, [*wakeup] being left as it was:
    - [prepare]: only [finish] (if there) is called;
    - [dpm_suspend_end]: the same, [dpm_resume_start] is not called;
    - [prepare_late]: [wake] (if there), [dpm_resume_start], [finish];
    - [disable_nonboot_cpus]: [enable_nonboot_cpus] first, then the same;
    - [syscore_suspend]: interrupts are enabled again first, and
      [syscore_resume] is not called. *)
Theorem suspend_enter_unwinds E state w s r w' s' new e :
  suspend_enter E state w s = Ret (r, w') s' ->
  trace s' = new ++ trace s ->
  e <> 0 ->
  (In (Call c_ops_prepare e) new ->
     r = e /\ w' = w /\
     new = Leave f_suspend_enter e
           :: opt (has_cb state s finish) (Call c_ops_finish 0)
           ++ [Call c_ops_prepare e; Enter f_suspend_enter]) /\
  (In (Call c_dpm_suspend_end e) new ->
     r = e /\ w' = w /\
     new = Leave f_suspend_enter e
           :: opt (has_cb state s finish) (Call c_ops_finish 0)
           ++ [Call c_dpm_suspend_end e]
           ++ opt (has_prepare state s) (Call c_ops_prepare 0)
           ++ [Enter f_suspend_enter]) /\
  (In (Call c_ops_prepare_late e) new ->
     r = e /\ w' = w /\
     new = Leave f_suspend_enter e
           :: platform_wake_log state s
           ++ [Call c_ops_prepare_late e; Call c_dpm_suspend_end 0]
           ++ opt (has_prepare state s) (Call c_ops_prepare 0)
           ++ [Enter f_suspend_enter]) /\
  (In (Call c_disable_nonboot_cpus e) new ->
     r = e /\ w' = w /\
     new = Leave f_suspend_enter e
           :: platform_wake_log state s
           ++ [Call c_enable_nonboot_cpus 0; Call c_disable_nonboot_cpus e]
           ++ platform_prepared state s) /\
  (In (Call c_syscore_suspend e) new ->
     r = e /\ w' = w /\ irqs_disabled s' = false /\
     new = Leave f_suspend_enter e
           :: platform_wake_log state s
           ++ [Call c_enable_nonboot_cpus 0; Call c_arch_suspend_enable_irqs 0;
               Call c_syscore_suspend e; Call c_arch_suspend_disable_irqs 0;
               Call c_disable_nonboot_cpus 0]
           ++ platform_prepared state s).
Proof.
  intros Hrun Ht He.
  assert (Ht' : trace (final (suspend_enter E state w s)) = new ++ trace s)
    by (rewrite Hrun; exact Ht).
  clear Ht.
  enter_cases E state w s new Ht'; try discriminate Hrun.
  injection Hrun as -> ->. subst new.
  split; [ | split; [ | split; [ | split ] ] ].
  all: intros [Hin | Hin]; [discriminate | ].
  all: destruct y; cbn [way_log] in Hin; in_log Hin.
  all: injection Hin as Hin; subst;
    cbn [way_result way_irqs fst] in *; try congruence.
  all: injection Hr as -> ->.
  all: repeat split; assumption.
Qed.

(** X6. The test levels of [suspend_enter].  The 5 second delay of
    [suspend_test] occurs in a run of [suspend_enter] only when one of
    TEST_PLATFORM, TEST_CPUS, TEST_CORE is the active level (CONFIG_PM_DEBUG
    and [pm_test_level]); the steps before the test point have all returned
    0, the run sleeps neither in the hardware nor in [freeze_enter], undoes
    what it has done and returns 0.  TEST_PLATFORM cuts the run before the
    processors are put offline (and before the wait of the freeze state),
    TEST_CPUS after they are, TEST_CORE after [pm_wakeup_pending], whose
    answer is left in [*wakeup]. *)
Theorem suspend_enter_test_points E state w s new :
  trace (final (suspend_enter E state w s)) = new ++ trace s ->
  In (Call (c_mdelay 5000) 0) new ->
  exists w' s',
    suspend_enter E state w s = Ret (0, w') s' /\
    existsb sleep_event new = false /\
    ((test_active E s TEST_PLATFORM = true /\ w' = w /\
      new = Leave f_suspend_enter 0
            :: platform_wake_log state s
            ++ [Call (c_mdelay 5000) 0]
            ++ platform_prepared state s)
     \/
     (test_active E s TEST_CPUS = true /\ w' = w /\
      new = Leave f_suspend_enter 0
            :: platform_wake_log state s
            ++ [Call c_enable_nonboot_cpus 0; Call (c_mdelay 5000) 0;
                Call c_disable_nonboot_cpus 0]
            ++ platform_prepared state s)
     \/
     (test_active E s TEST_CORE = true /\
      new = Leave f_suspend_enter 0
            :: platform_wake_log state s
            ++ [Call c_enable_nonboot_cpus 0; Call c_arch_suspend_enable_irqs 0;
                Call c_syscore_resume 0; Call (c_mdelay 5000) 0;
                Call c_pm_wakeup_pending (Z.b2z w'); Call c_syscore_suspend 0;
                Call c_arch_suspend_disable_irqs 0;
                Call c_disable_nonboot_cpus 0]
            ++ platform_prepared state s)).
Proof.
  intros Ht Hin.
  enter_cases E state w s new Ht.
  - subst new. destruct Hin as [Hin | Hin]; [discriminate | ].
    destruct y; cbn [way_log] in Hin; in_log Hin.
    all: cbn [way_taken way_result fst] in *; subst r.
    all: eexists; eexists; (split; [ reflexivity | ]).
    all: split; [ cbn [way_log existsb sleep_event orb]; no_event_tac | ].
    + left. repeat split; assumption.
    + right; left. destruct Htk. repeat split; assumption.
    + right; right. split; [ assumption | ].
      cbn [way_log]. unfold unwind_log, platform_wake_log. rewrite Hb.
      cbn [opt fst]. rewrite <- !app_assoc. cbn [app]. reflexivity.
  - exfalso. destruct Hw as (_ & _ & _ & _ & Htr). rewrite Htr in Ht.
    apply new_of_way in Ht. subst new. in_log Hin.
  - exfalso. destruct Hw as (_ & _ & _ & Htr). rewrite Htr in Ht.
    apply (new_is [Enter f_suspend_enter]) in Ht. subst new. in_log Hin.
  - exfalso. destruct Hw as (_ & _ & _ & Htr). rewrite Htr in Ht.
    rewrite app_assoc in Ht. apply new_is in Ht. subst new. in_log Hin.
Qed.

(** X7. [suspend_enter] never trips one of its two [BUG_ON]s.  A run that
    does not return is either asleep in [freeze_enter], for
    PM_SUSPEND_FREEZE, with the flag still unset; or it has followed a NULL
    pointer, which takes a state other than PM_SUSPEND_FREEZE and a missing
    driver or a driver without [enter] (what [suspend_prepare] checks
    beforehand).  A run that returns has disabled interrupts exactly when it
    has enabled them again, and leaves them enabled then; otherwise the
    interrupt flag is as it was. *)
Theorem suspend_enter_stops E state w s :
  (forall why s',
     suspend_enter E state w s = Stop why s' ->
     (why = Blocked /\ state = PM_SUSPEND_FREEZE /\
      suspend_freeze_wake s' = false /\
      exists rest, trace s' = Enter f_freeze_enter :: rest)
     \/
     (why = NullDeref /\ state <> PM_SUSPEND_FREEZE /\ has_enter s = false)) /\
  (forall r s' new,
     suspend_enter E state w s = Ret r s' ->
     trace s' = new ++ trace s ->
     (In (Call c_arch_suspend_disable_irqs 0) new ->
        In (Call c_arch_suspend_enable_irqs 0) new /\
        irqs_disabled s' = false) /\
     (~ In (Call c_arch_suspend_disable_irqs 0) new ->
        ~ In (Call c_arch_suspend_enable_irqs 0) new /\
        irqs_disabled s' = irqs_disabled s)).
Proof.
  split.
  - intros why s' Hrun.
    pose proof (suspend_enter_ways E state w s) as Hw.
    unfold wp, enter_ways in Hw. rewrite Hrun in Hw.
    destruct Hw as (_ & [Hw | [Hw | Hw] ]).
    + destruct Hw as (-> & -> & _ & Hf & Htr). left.
      repeat split; try assumption. eexists. exact Htr.
    + destruct Hw as (-> & Hneed & Hops & _). right.
      split; [ reflexivity | ]. split.
      * intros ->. discriminate Hneed.
      * unfold has_enter. now rewrite Hops.
    + destruct Hw as (-> & He & Hs & _). right. auto.
  - intros r s' new Hrun Ht.
    assert (Ht' : trace (final (suspend_enter E state w s)) = new ++ trace s)
      by (rewrite Hrun; exact Ht).
    clear Ht.
    enter_cases E state w s new Ht'; try discriminate Hrun.
    injection Hrun as -> ->. subst new. rewrite Hirq.
    split.
    + intros [Hin | Hin]; [discriminate | ].
      destruct y; cbn [way_log] in Hin; in_log Hin.
      all: cbn [way_irqs way_log]; (split; [ | reflexivity ]).
      all: right; in_search.
    + intros Hno.
      destruct y; cbn [way_irqs way_log] in *.
      all: try (exfalso; apply Hno; right; in_search).
      all: split; [ | reflexivity ].
      all: intros [Hin | Hin]; [discriminate | ]; in_log Hin.
Qed.

(** ** The loop around [suspend_enter] *)

(** What the loop condition does to the state. *)
Lemma suspend_again_cond_runs E state error wakeup s :
  match suspend_again_cond E state error wakeup s with
  | Ret again s' =>
      (again = false /\ s' = s) \/
      (need_suspend_ops state = true /\
       s' = log E (Call c_ops_suspend_again (Z.b2z again)) s)
  | Stop why s' =>
      why = NullDeref /\ s' = s /\
      need_suspend_ops state = true /\ suspend_ops s = None
  end.
Proof.
  destruct s as [ops mtx fw lvl stt irq ece kca sup grs ppr t0].
  lazymatch goal with
  | |- match ?m ?s with _ => _ end =>
      change (wp m
                (fun o => match o with
                          | Ret again s' =>
                              (again = false /\ s' = s) \/
                              (need_suspend_ops state = true /\
                               s' = log E (Call c_ops_suspend_again
                                             (Z.b2z again)) s)
                          | Stop why s' =>
                              why = NullDeref /\ s' = s /\
                              need_suspend_ops state = true /\
                              suspend_ops s = None
                          end) s)
  end.
  wp_run.
  all: try (left; split; reflexivity).
  all: try (right; split; [ first [ assumption | reflexivity ] | ];
            lazymatch goal with
            | r : bool |- _ => destruct r; reflexivity
            end).
  all: repeat split; first [ assumption | reflexivity ].
Qed.

(** The rule of the loop: a relation [R] that every returning run of
    [suspend_enter] and every answer of [suspend_again] extends, and a
    relation [S] for the runs that stop. *)
Section LoopRule.

Variables (E : env) (state : suspend_state_t).
Variable R : machine -> machine -> Prop.
Variable S : stop -> machine -> machine -> Prop.

Hypothesis R_trans : forall a b c, R a b -> R b c -> R a c.
Hypothesis RS : forall why a b c, R a b -> S why b c -> S why a c.
Hypothesis R_again :
  forall a b r, R a b -> need_suspend_ops state = true ->
                R a (log E (Call c_ops_suspend_again r) b).
Hypothesis S_fuel :
  forall a b, R a b -> need_suspend_ops state = true ->
              S OutOfFuel a (log E (Call c_ops_suspend_again 1) b).
Hypothesis S_null :
  forall a b, R a b -> need_suspend_ops state = true ->
              suspend_ops b = None -> S NullDeref a b.
Hypothesis enter_R :
  forall w s,
    match suspend_enter E state w s with
    | Ret _ s' => R s s'
    | Stop why s' => S why s s'
    end.

Lemma loop_rule fuel : forall w s,
  match suspend_enter_loop E fuel state w s with
  | Ret _ s' => R s s'
  | Stop why s' => S why s s'
  end.
Proof.
  induction fuel as [|fuel IH]; intros w s;
    cbn [suspend_enter_loop]; unfold bind;
    pose proof (enter_R w s) as He;
    destruct (suspend_enter E state w s) as [r s1 | why s1];
    try exact He;
    pose proof (suspend_again_cond_runs E state (fst r) (snd r) s1) as Hc;
    destruct (suspend_again_cond E state (fst r) (snd r) s1)
      as [again s2 | why s2].
  all: try (destruct Hc as (-> & -> & Hn & Ho); exact (S_null _ _ He Hn Ho)).
  all: destruct Hc as [(-> & ->) | (Hn & ->)]; [ exact He | ].
  all: destruct again; cbn [Z.b2z]; [ | exact (R_again _ _ 0 He Hn) ].
  - exact (S_fuel _ _ He Hn).
  - specialize (IH (snd r) (log E (Call c_ops_suspend_again 1) s1)).
    destruct (suspend_enter_loop E fuel state (snd r)
                (log E (Call c_ops_suspend_again 1) s1)) as [r3 s3 | why3 s3].
    + exact (R_trans _ _ _ (R_again _ _ 1 He Hn) IH).
    + exact (RS _ _ _ _ (R_again _ _ 1 He Hn) IH).
Qed.

End LoopRule.

(** *** The relations of the loop *)

Lemma untouched_refl s : untouched s s.
Proof. repeat split. Qed.

Lemma untouched_trans a b c : untouched a b -> untouched b c -> untouched a c.
Proof.
  intros (Hg1 & ? & ? & ?) (Hg2 & ? & ? & ?).
  split; [ exact (same_globals_trans _ _ _ Hg1 Hg2) | ].
  repeat split; congruence.
Qed.

Lemma untouched_log E e s : untouched s (log E e s).
Proof.
  destruct s as [ops mtx fw lvl stt irq ece kca sup grs ppr t0].
  repeat split.
Qed.

Lemma untouched_has_cb state a b cb :
  untouched a b -> has_cb state b cb = has_cb state a cb.
Proof. intros ((Ho & _) & _). unfold has_cb. now rewrite Ho. Qed.

Lemma untouched_test_active E a b l :
  untouched a b -> test_active E b l = test_active E a l.
Proof. intros ((_ & _ & Hl & _) & _). unfold test_active. now rewrite Hl. Qed.

Lemma untouched_test_cuts E state a b :
  untouched a b -> test_cuts_enter E state b = test_cuts_enter E state a.
Proof.
  intros H. unfold test_cuts_enter.
  now rewrite !(untouched_test_active E a b _ H).
Qed.

Lemma untouched_tests_off E a b :
  untouched a b -> tests_off E b = tests_off E a.
Proof. intros ((_ & _ & Hl & _) & _). unfold tests_off. now rewrite Hl. Qed.

Lemma untouched_checked state a b :
  untouched a b -> checked state a -> checked state b.
Proof.
  intros ((Ho & _) & _) (Hs & He). split; [ exact Hs | ].
  unfold has_enter in *. now rewrite Ho.
Qed.

Lemma loop_log_same E state a b l :
  untouched a b -> loop_log E state b l -> loop_log E state a l.
Proof.
  intros Hu (Ha & Hb & Hc & Hd). unfold loop_log.
  rewrite <- (untouched_test_cuts E state a b Hu),
          <- (untouched_tests_off E a b Hu).
  auto.
Qed.

Lemma loop_log_app E state s l1 l2 :
  loop_log E state s l1 -> loop_log E state s l2 ->
  loop_log E state s (l2 ++ l1).
Proof.
  intros (A1 & B1 & C1 & D1) (A2 & B2 & C2 & D2). unfold loop_log.
  rewrite forallb_app, !existsb_app, A1, A2.
  split; [ reflexivity | ].
  split; [ | split ]; intros H;
    [ rewrite (B1 H), (B2 H) | rewrite (C1 H), (C2 H)
    | rewrite (D1 H), (D2 H) ];
    reflexivity.
Qed.

Lemma loop_log_again E state s r :
  need_suspend_ops state = true ->
  loop_log E state s [Call c_ops_suspend_again r].
Proof.
  intros Hn. split; [ reflexivity | ].
  split; [ reflexivity | split; [ reflexivity | ] ].
  intros ->. discriminate Hn.
Qed.

Lemma enter_balanced_same state a b l :
  untouched a b -> enter_balanced state b l -> enter_balanced state a l.
Proof.
  intros Hu H. unfold enter_balanced in *.
  now rewrite !(untouched_has_cb state a b _ Hu) in H.
Qed.

Lemma enter_balanced_app state s l1 l2 :
  enter_balanced state s l1 -> enter_balanced state s l2 ->
  enter_balanced state s (l2 ++ l1).
Proof.
  unfold enter_balanced.
  intros (A1 & B1 & C1 & D1 & W1 & F1) (A2 & B2 & C2 & D2 & W2 & F2).
  rewrite !count_app, !calls_app, W1, W2, F1, F2.
  destruct (has_cb state s wake), (has_cb state s finish);
    repeat split; lia.
Qed.

Lemma enter_balanced_again state s r :
  enter_balanced state s [Call c_ops_suspend_again r].
Proof.
  unfold enter_balanced.
  destruct (has_cb state s wake), (has_cb state s finish);
    repeat split.
Qed.

Lemma loop_ran_trans E state a b c :
  loop_ran E state a b -> loop_ran E state b c -> loop_ran E state a c.
Proof.
  intros (Hu1 & Hi1 & l1 & Ht1 & Hl1 & Hb1 & He1 & Hin1)
         (Hu2 & Hi2 & l2 & Ht2 & Hl2 & Hb2 & He2 & _).
  split; [ exact (untouched_trans _ _ _ Hu1 Hu2) | ].
  split; [ auto | ].
  exists (l2 ++ l1).
  split; [ rewrite Ht2, Ht1, app_assoc; reflexivity | ].
  split; [ apply loop_log_app;
           [ exact Hl1 | exact (loop_log_same _ _ _ _ _ Hu1 Hl2) ] | ].
  split; [ apply enter_balanced_app;
           [ exact Hb1 | exact (enter_balanced_same _ _ _ _ Hu1 Hb2) ] | ].
  split; [ | apply in_or_app; right; exact Hin1 ].
  rewrite He2, He1, existsb_app, negb_orb.
  destruct (events_check_enabled a), (existsb is_ops_enter l1),
    (existsb is_ops_enter l2); reflexivity.
Qed.

Lemma loop_ran_stopped E state why a b c :
  loop_ran E state a b -> loop_stopped E state why b c ->
  loop_stopped E state why a c.
Proof.
  intros (Hu1 & Hi1 & l1 & Ht1 & Hl1 & Hb1 & He1 & _)
         (Hu2 & l2 & Ht2 & Hl2 & Hwhy).
  split; [ exact (untouched_trans _ _ _ Hu1 Hu2) | ].
  exists (l2 ++ l1).
  split; [ rewrite Ht2, Ht1, app_assoc; reflexivity | ].
  split; [ apply loop_log_app;
           [ exact Hl1 | exact (loop_log_same _ _ _ _ _ Hu1 Hl2) ] | ].
  intros Hc.
  destruct (Hwhy (untouched_checked _ _ _ Hu1 Hc))
    as [(-> & -> & Hf & rest & ->) | (-> & Hn & rest & ->)].
  - left. repeat split; try assumption. eexists. reflexivity.
  - right. repeat split; try assumption. eexists. reflexivity.
Qed.

Lemma loop_ran_again E state a b r :
  loop_ran E state a b -> need_suspend_ops state = true ->
  loop_ran E state a (log E (Call c_ops_suspend_again r) b).
Proof.
  intros (Hu & Hi & l & Ht & Hl & Hb & He & Hin) Hn.
  split; [ exact (untouched_trans _ _ _ Hu (untouched_log E _ b)) | ].
  destruct b as [ops mtx fw lvl stt irq ece kca sup grs ppr t0].
  cbn [log trace irqs_disabled events_check_enabled set_trace
       set_suspend_freeze_wake] in *.
  split; [ exact Hi | ].
  exists ([Call c_ops_suspend_again r] ++ l).
  split; [ rewrite Ht; reflexivity | ].
  split; [ apply loop_log_app;
           [ exact Hl | apply loop_log_again; exact Hn ] | ].
  split; [ apply enter_balanced_app;
           [ exact Hb | apply enter_balanced_again ] | ].
  split; [ exact He | right; exact Hin ].
Qed.

Lemma loop_stopped_fuel E state a b :
  loop_ran E state a b -> need_suspend_ops state = true ->
  loop_stopped E state OutOfFuel a (log E (Call c_ops_suspend_again 1) b).
Proof.
  intros H Hn.
  destruct (loop_ran_again E state a b 1 H Hn)
    as (Hu & _ & l & Ht & Hl & _).
  destruct H as (_ & _ & l1 & Ht1 & _).
  split; [ exact Hu | ].
  exists l. split; [ exact Ht | ]. split; [ exact Hl | ].
  intros _. right. split; [ reflexivity | ]. split; [ exact Hn | ].
  exists l1. apply (new_is _ (trace a)). rewrite <- Ht.
  destruct b as [ops mtx fw lvl stt irq ece kca sup grs ppr t0].
  cbn [log trace set_trace set_suspend_freeze_wake] in *.
  now rewrite Ht1.
Qed.

Lemma loop_stopped_null E state a b :
  loop_ran E state a b -> need_suspend_ops state = true ->
  suspend_ops b = None -> loop_stopped E state NullDeref a b.
Proof.
  intros (Hu & _ & l & Ht & Hl & _) Hn Ho.
  split; [ exact Hu | ].
  exists l. split; [ exact Ht | ]. split; [ exact Hl | ].
  intros (_ & Hc). exfalso. specialize (Hc Hn).
  destruct Hu as ((Hops & _) & _).
  unfold has_enter in Hc. rewrite <- Hops, Ho in Hc. discriminate.
Qed.

(** *** One run of [suspend_enter], as a turn of the loop *)

Lemma forallb_opt (f : event -> bool) b e :
  f e = true -> forallb f (opt b e) = true.
Proof. intros H. destruct b; cbn; [now rewrite H | reflexivity]. Qed.

Lemma calls_opt_other c b e : is_call c e = false -> calls c (opt b e) = 0%nat.
Proof. intros H. destruct b; [ | reflexivity]. unfold calls. cbn. now rewrite H. Qed.

Lemma count_opt_other x b e : e <> x -> count x (opt b e) = 0%nat.
Proof.
  intros H. destruct b; [ | reflexivity]. cbn [opt].
  rewrite count_cons_ne by exact H. reflexivity.
Qed.

Lemma tests_off_inactive E s l :
  tests_off E s = true -> l <> TEST_NONE -> test_active E s l = false.
Proof.
  unfold tests_off, test_active. intros H Hl.
  destruct (CONFIG_PM_DEBUG E); [ | reflexivity ].
  cbn in *. destruct (pm_test_level s), l; try discriminate; try reflexivity;
    congruence.
Qed.

Ltac all_event_tac :=
  cbv beta iota delta [platform_wake_log platform_prepared unwind_log];
  cbn [forallb andb];
  repeat first [ rewrite forallb_app | rewrite forallb_opt by reflexivity ];
  cbn [forallb andb]; reflexivity.

(** Count the calls and events of an explicit log. *)
Ltac tally :=
  repeat first
    [ rewrite calls_cons_same
    | rewrite calls_cons_other by reflexivity
    | rewrite calls_app
    | rewrite calls_opt_other by reflexivity
    | rewrite count_cons_eq
    | rewrite count_cons_ne by (first [ discriminate | congruence ])
    | rewrite count_app
    | rewrite count_opt_other by (first [ discriminate | congruence ]) ];
  change (calls _ []) with 0%nat; change (count _ []) with 0%nat.

Lemma way_log_sleepless E state w s y :
  way_taken E state s y ->
  test_cuts_enter E state s = true ->
  existsb sleep_event
    (Leave f_suspend_enter (fst (way_result w y)) :: way_log E state s y)
  = false.
Proof.
  intros Htk Hcut. unfold test_cuts_enter in Hcut.
  destruct y; cbn [way_taken] in Htk; cbn [way_log existsb sleep_event orb];
    try no_event_tac; exfalso.
  - destruct Htk as (-> & HP). rewrite HP in Hcut. discriminate Hcut.
  - destruct Htk as (_ & _ & HP & HC & HO). rewrite HP, HC, HO in Hcut.
    rewrite andb_false_r in Hcut. discriminate Hcut.
Qed.

Lemma way_log_no_delay E state w s y :
  way_taken E state s y ->
  tests_off E s = true ->
  existsb is_delay
    (Leave f_suspend_enter (fst (way_result w y)) :: way_log E state s y)
  = false.
Proof.
  intros Htk Hoff.
  assert (HP := tests_off_inactive E s TEST_PLATFORM Hoff).
  assert (HC := tests_off_inactive E s TEST_CPUS Hoff).
  assert (HO := tests_off_inactive E s TEST_CORE Hoff).
  specialize (HP ltac:(discriminate)). specialize (HC ltac:(discriminate)).
  specialize (HO ltac:(discriminate)).
  destruct y; cbn [way_taken] in Htk; cbn [way_log existsb is_delay orb];
    try no_event_tac.
  - rewrite HP in Htk. discriminate.
  - destruct Htk as (Htk & _). rewrite HC in Htk. discriminate.
  - unfold unwind_log. rewrite HO. cbn [opt]. rewrite app_nil_r. no_event_tac.
Qed.

Lemma has_cb_freeze s cb : has_cb PM_SUSPEND_FREEZE s cb = false.
Proof. reflexivity. Qed.

Lemma way_log_no_ops E w s y :
  way_taken E PM_SUSPEND_FREEZE s y ->
  existsb is_ops_call
    (Leave f_suspend_enter (fst (way_result w y))
       :: way_log E PM_SUSPEND_FREEZE s y)
  = false.
Proof.
  intros Htk.
  destruct y; cbn [way_taken] in Htk; cbn [way_log existsb is_ops_call orb];
    unfold platform_wake_log, platform_prepared, unwind_log, has_prepare,
      has_prepare_late in *;
    rewrite ?has_cb_freeze in *; cbn [opt app existsb is_ops_call orb];
    try reflexivity.
  - destruct Htk as (_ & H). discriminate H.
  - destruct Htk as (_ & H). discriminate H.
  - destruct (test_active E s TEST_CORE); reflexivity.
  - destruct Htk as (H & _). contradiction H. reflexivity.
Qed.

Lemma way_log_events E state w s y :
  forallb loop_event
    (Leave f_suspend_enter (fst (way_result w y)) :: way_log E state s y)
  = true.
Proof. destruct y; cbn [way_log forallb loop_event andb]; all_event_tac. Qed.

Lemma way_log_balanced E state w s y :
  way_taken E state s y ->
  enter_balanced state s
    (Leave f_suspend_enter (fst (way_result w y)) :: way_log E state s y).
Proof.
  intros Htk.
  unfold enter_balanced.
  destruct y; cbn [way_taken] in Htk; cbn [way_log];
    repeat match goal with H : _ /\ _ |- _ => destruct H end;
    unfold platform_wake_log, platform_prepared, unwind_log,
      has_prepare, has_prepare_late;
    destruct (has_cb state s wake), (has_cb state s finish);
    cbn [opt app]; repeat split; tally; try reflexivity.
Qed.

Lemma way_log_entered E state w s y :
  existsb is_ops_enter
    (Leave f_suspend_enter (fst (way_result w y)) :: way_log E state s y)
  = match y with entered _ => true | _ => false end.
Proof.
  destruct y; cbn [way_log existsb is_ops_enter orb]; no_event_tac.
Qed.

Lemma suspend_enter_turn E state w s :
  loop_outcome E state s (suspend_enter E state w s).
Proof.
  pose proof (suspend_enter_ways E state w s) as Hw.
  unfold wp, enter_ways in Hw.
  destruct (suspend_enter E state w s) as [r s' | why s'];
    cbn [final loop_outcome] in *.
  - destruct Hw as (Hu & y & Htk & -> & Htr & Hirq & Hece & _).
    split; [ exact Hu | ].
    split; [ intros Hi; rewrite Hirq, Hi; destruct (way_irqs y); reflexivity | ].
    exists (Leave f_suspend_enter (fst (way_result w y))
              :: way_log E state s y).
    split; [ exact Htr | ].
    split; [ split; [ apply way_log_events | split;
               [ apply way_log_sleepless; exact Htk
               | split; [ apply way_log_no_delay; exact Htk
                        | intros ->; apply way_log_no_ops; exact Htk ] ] ]
           | ].
    split; [ apply way_log_balanced; exact Htk | ].
    split; [ | right; destruct y; cbn [way_log]; in_search ].
    rewrite Hece, way_log_entered.
    destruct y, (events_check_enabled s); reflexivity.
  - destruct Hw as (Hu & Hw). split; [ exact Hu | ].
    destruct Hw as [(-> & -> & HP & Hf & Htr)
                   | [(-> & Hn & Ho & Htr) | (-> & He & Hs & Htr)] ].
    + exists (Enter f_freeze_enter :: platform_prepared PM_SUSPEND_FREEZE s).
      split; [ exact Htr | ].
      split; [ split; [ cbn [forallb loop_event enter_event andb];
                        all_event_tac | split; [ | split ] ] | ].
      * unfold test_cuts_enter. rewrite HP. discriminate.
      * intros _. cbn [existsb is_delay orb]. no_event_tac.
      * intros _. unfold platform_prepared, has_prepare, has_prepare_late.
        rewrite !has_cb_freeze. reflexivity.
      * intros _. left. repeat split; try assumption. eexists. reflexivity.
    + exists [Enter f_suspend_enter].
      split; [ exact Htr | ].
      split; [ split; [ reflexivity | split; [ reflexivity | split;
               [ reflexivity | intros ->; discriminate Hn ] ] ] | ].
      intros (_ & Hc). specialize (Hc Hn). unfold has_enter in Hc.
      rewrite Ho in Hc. discriminate.
    + eexists. split; [ rewrite app_assoc in Htr; exact Htr | ].
      split; [ split; [ all_event_tac | split; [ intros _; no_event_tac
               | split; [ intros _; no_event_tac
                        | intros H; contradiction (Hs H) ] ] ] | ].
      intros (Hon & Hc). exfalso.
      destruct (need_suspend_ops state) eqn:Hn.
      * rewrite (Hc eq_refl) in He. discriminate.
      * unfold need_suspend_ops in Hn. apply Z.ltb_ge in Hn.
        unfold PM_SUSPEND_ON, PM_SUSPEND_FREEZE in *. lia.
Qed.

(** What the loop comes to, from any state and with any fuel. *)
Lemma suspend_enter_loop_outcome E state fuel w s :
  loop_outcome E state s (suspend_enter_loop E fuel state w s).
Proof.
  exact (loop_rule E state (loop_ran E state)
           (fun why => loop_stopped E state why)
           (loop_ran_trans E state) (fun why => loop_ran_stopped E state why)
           (loop_ran_again E state) (loop_stopped_fuel E state)
           (loop_stopped_null E state) (suspend_enter_turn E state)
           fuel w s).
Qed.

(** ** The device phase *)

Lemma suspend_enter_loop_wp E state fuel w s :
  wp (suspend_enter_loop E fuel state w) (loop_outcome E state s) s.
Proof. exact (suspend_enter_loop_outcome E state fuel w s). Qed.

Ltac unfold_outcome H :=
  cbv beta iota delta
    [loop_outcome loop_ran loop_stopped untouched same_globals final trace
     pm_mutex suspend_ops suspend_freeze_wake pm_test_level suspend_stats
     irqs_disabled events_check_enabled g_keycheck_abort
     pm_stay_unattended_period g_resume_status pm_pwrcs_ret] in H.

(** Use what is known of the loop instead of running it. *)
Ltac wp_loop_outcome :=
  lazymatch goal with
  | |- wp (suspend_enter_loop _ _ _ _) _ _ =>
      eapply wp_conseq; [ apply suspend_enter_loop_wp | ];
      let o := fresh "o" in
      let Hp := fresh "Hp" in
      let lnew := fresh "lnew" in
      let Hirq := fresh "Hirq" in
      let Hlog := fresh "Hlog" in
      let Hbal := fresh "Hbal" in
      let Hece := fresh "Hece" in
      let Hent := fresh "Hent" in
      let Hwhy := fresh "Hwhy" in
      let r := fresh "r" in
      let why := fresh "why" in
      let ops' := fresh "ops'" in
      let mtx' := fresh "mtx'" in
      let fw' := fresh "fw'" in
      let lvl' := fresh "lvl'" in
      let stt' := fresh "stt'" in
      let irq' := fresh "irq'" in
      let ece' := fresh "ece'" in
      let kca' := fresh "kca'" in
      let sup' := fresh "sup'" in
      let grs' := fresh "grs'" in
      let ppr' := fresh "ppr'" in
      let t' := fresh "t'" in
      intros o Hp;
      destruct o as [r [ops' mtx' fw' lvl' stt' irq' ece' kca' sup' grs' ppr' t']
                    | why [ops' mtx' fw' lvl' stt' irq' ece' kca' sup' grs' ppr' t']];
      unfold_outcome Hp;
      [ destruct Hp as (((? & ? & ? & ? & ?) & ? & ? & ?)
                        & Hirq & lnew & ? & Hlog & Hbal & Hece & Hent)
      | destruct Hp as (((? & ? & ? & ? & ?) & ? & ? & ?)
                        & lnew & ? & Hlog & Hwhy) ];
      subst; norm
  end.

Ltac find_device_way lg :=
  match lg with
  | context [?l ++ Call c_dpm_suspend_start 0 :: _] =>
      lazymatch goal with
      | |- context [Leave f_suspend_devices_and_enter ?r :: _] =>
          constr:(looped r l)
      end
  | context [Call (c_mdelay _) _] => constr:(test_devices)
  | context [Call c_dpm_suspend_start ?e] => constr:(start_failed e)
  | context [Call (c_ops_begin _) ?e] => constr:(begin_failed e)
  | _ => constr:(no_driver)
  end.

Ltac dev_tac :=
  cbv beta iota delta
    [device_begun device_resumed has_begin has_cb has_enter present
     test_active opt suspend_ops pm_test_level option_map];
  use_conds; use_opts; cbn [andb orb app option_map];
  use_conds; use_opts; cbn [andb orb app].

(** Whether a callback that takes the state is there. *)
Ltac fix_opts :=
  repeat match goal with
         | H : option_map _ ?o = Some _ |- _ =>
             let Ho := fresh "Ho" in
             destruct o eqn:Ho; [ clear H | discriminate H ]
         | H : option_map _ ?o = None |- _ =>
             let Ho := fresh "Ho" in
             destruct o eqn:Ho; [ discriminate H | clear H ]
         end.

Ltac dev_cond_tac :=
  dev_tac;
  first [ reflexivity | assumption | neq_tac | exact I
        | rewrite <- ?app_assoc; cbn [app]; reflexivity ].

Lemma suspend_devices_and_enter_ways E fuel state s :
  wp (suspend_devices_and_enter E fuel state) (device_ways E state s) s.
Proof.
  destruct s as [ops mtx fw lvl stt irq ece kca sup grs ppr t0].
  repeat (wp_loop_outcome || wp_step).
  all: split; [ repeat split | ].
  all: cbn [trace irqs_disabled events_check_enabled suspend_freeze_wake
            pm_stay_unattended_period g_resume_status pm_pwrcs_ret].
  all: fix_opts.
  all: lazymatch goal with
       | |- exists y, _ /\ _ /\ (?l = _) /\ _ =>
           let y := find_device_way l in
           exists y;
           cbn [device_way_taken device_way_result device_way_log
                devices_touched fst];
           (split;
            [ first [ split; [ dev_cond_tac
                             | split; [ exact Hlog
                                      | split; [ exact Hbal | exact Hent ] ] ]
                    | repeat split; dev_cond_tac ] | ]);
           repeat split; first [ exact Hirq | dev_cond_tac ]
       | |- exists l, _ =>
           exists lnew;
           split; [ dev_cond_tac | ];
           split; [ dev_cond_tac | ];
           split; [ exact Hlog | exact Hwhy ]
       end.
Qed.

(** ** The whole attempt *)

Lemma suspend_devices_and_enter_wp E fuel state s :
  wp (suspend_devices_and_enter E fuel state) (device_ways E state s) s.
Proof. apply suspend_devices_and_enter_ways. Qed.

Ltac unfold_device H :=
  cbv beta iota delta
    [device_ways same_globals final trace
     pm_mutex suspend_ops suspend_freeze_wake pm_test_level suspend_stats
     irqs_disabled events_check_enabled g_keycheck_abort
     pm_stay_unattended_period g_resume_status pm_pwrcs_ret] in H.

(** Use what is known of the device phase instead of running it. *)
Ltac wp_device_ways :=
  lazymatch goal with
  | |- wp (suspend_devices_and_enter _ _ _) _ _ =>
      eapply wp_conseq; [ apply suspend_devices_and_enter_wp | ];
      let o := fresh "o" in
      let Hp := fresh "Hp" in
      let yd := fresh "yd" in
      let ld := fresh "ld" in
      let Htk := fresh "Htk" in
      let Hirq := fresh "Hirq" in
      let Hlog := fresh "Hlog" in
      let Hwhy := fresh "Hwhy" in
      let HD := fresh "HD" in
      let r := fresh "r" in
      let why := fresh "why" in
      let ops' := fresh "ops'" in
      let mtx' := fresh "mtx'" in
      let fw' := fresh "fw'" in
      let lvl' := fresh "lvl'" in
      let stt' := fresh "stt'" in
      let irq' := fresh "irq'" in
      let ece' := fresh "ece'" in
      let kca' := fresh "kca'" in
      let sup' := fresh "sup'" in
      let grs' := fresh "grs'" in
      let ppr' := fresh "ppr'" in
      let t' := fresh "t'" in
      intros o Hp;
      destruct o as [r [ops' mtx' fw' lvl' stt' irq' ece' kca' sup' grs' ppr' t']
                    | why [ops' mtx' fw' lvl' stt' irq' ece' kca' sup' grs' ppr' t']];
      unfold_device Hp;
      [ destruct Hp as ((? & ? & ? & ? & ?)
                        & yd & Htk & ? & ? & ? & ? & ? & ? & Hirq)
      | destruct Hp as ((? & ? & ? & ? & ?)
                        & ld & ? & HD & Hlog & Hwhy) ];
      subst; norm
  end.

Ltac find_post lg :=
  lazymatch lg with
  | context [Call (c_pm_notifier_call_chain PM_POST_SUSPEND) ?n] => n
  end.

Ltac find_attempt_way lg :=
  match lg with
  | context [device_way_log _ _ ?yd] =>
      let n := find_post lg in constr:(devices yd n)
  | context [Call (c_mdelay _) _] =>
      let n := find_post lg in constr:(test_freezer n)
  | context [Call c_suspend_freeze_processes ?e] =>
      lazymatch lg with
      | context [Call c_dpm_save_failed_step _] =>
          let n := find_post lg in constr:(not_frozen e n)
      end
  | context [Call (c_pm_notifier_call_chain PM_SUSPEND_PREPARE) ?e] =>
      let n := find_post lg in constr:(vetoed e n)
  | context [Leave f_suspend_prepare _] => constr:(no_enter)
  | context [Call c_mutex_trylock 0] => constr:(lock_busy)
  | _ => constr:(unsupported)
  end.

Ltac find_valid lg :=
  match lg with
  | context [Call (c_ops_valid _) ?v] => v
  | _ => constr:(0)
  end.

Ltac top_tac :=
  cbv beta iota delta
    [supported freeze_unsupported has_valid valid_asked has_enter present
     checked_log started_log freeze_begun test_active opt suspend_ops
     pm_test_level
     pm_mutex recorded attempt_result observers_agreed attempt_log
     attempt_taken finished_log prepared_log];
  try change (PM_SUSPEND_FREEZE =? PM_SUSPEND_FREEZE) with true;
  repeat match goal with
         | H : ?x = 0 |- context [?x =? 0] => rewrite H
         end;
  use_conds; use_opts;
  cbn [andb orb negb app Z.eqb Z.opp ENODEV EBUSY EPERM];
  use_conds; use_opts;
  cbn [andb orb negb app Z.eqb Z.opp ENODEV EBUSY EPERM].

Ltac level_tac :=
  match goal with
  | l : test_level |- _ => destruct l; try discriminate; reflexivity
  end.

Ltac top_cond_tac :=
  top_tac;
  first [ reflexivity | assumption | neq_tac | exact I
        | solve [ intros; reflexivity ]
        | solve [ intros; congruence ]
        | rewrite <- ?app_assoc; cbn [app]; reflexivity
        | level_tac ].

Lemma pm_suspend_ways E fuel state s :
  PM_SUSPEND_ON < state < PM_SUSPEND_MAX ->
  wp (pm_suspend E fuel state) (attempt_ways E state s) s.
Proof.
  intros Hrange. unfold wp at 1. unfold pm_suspend.
  rewrite (in_range state Hrange).
  destruct s as [ops mtx fw lvl [ok ko ff] irq ece kca sup grs ppr t0].
  lazymatch goal with
  | |- ?Q (?m ?s) => change (wp m Q s)
  end.
  repeat (wp_device_ways || wp_step).
  all: split; [ reflexivity | split; [ reflexivity | ] ].
  all: cbn [trace irqs_disabled events_check_enabled suspend_freeze_wake
            pm_stay_unattended_period g_resume_status pm_pwrcs_ret
            pm_mutex suspend_stats g_keycheck_abort].
  all: try (exfalso;
            cbv beta iota delta [test_active pm_test_level] in HD;
            use_conds_in HD; cbn [andb] in HD; discriminate HD).
  all: lazymatch goal with
       | |- exists v y, _ /\ _ /\ (?l = _) /\ _ =>
           let y := find_attempt_way l in
           let v := find_valid l in
           exists v, y
       | |- exists v l, _ /\ _ /\ _ /\ _ /\ _ /\ _ /\ (?lg = _) /\ _ =>
           let v := find_valid lg in
           exists v, ld
       end.
  all: cbn [attempt_taken attempt_result observers_agreed].
  all: repeat lazymatch goal with
              | |- device_way_taken _ _ _ _ => exact Htk
              | |- loop_log _ _ _ _ => exact Hlog
              | |- _ /\ _ => split
              end.
  all: try (apply Hwhy; split; [ apply Hrange | ]).
  all: first [ exact Hirq | exact HD | top_cond_tac ].
Qed.

(** ** What the device phase guarantees *)

(** The calls of an outside function, and the occurrences of an event, that
    a part [l] of a log never makes, all its events being of the kind [P]. *)
Ltac quiet P l Hev :=
  repeat match goal with
         | |- context [calls ?c l] =>
             rewrite (calls_none P c l Hev) by (intro; reflexivity)
         | |- context [count ?e l] =>
             rewrite (count_none P e l Hev eq_refl)
         end.

Lemma existsb_none (P Q : event -> bool) l :
  forallb P l = true -> (forall e, P e = true -> Q e = false) ->
  existsb Q l = false.
Proof.
  intros Hall HPQ. induction l as [|e l IH]; [ reflexivity | ].
  cbn [forallb] in Hall. apply andb_true_iff in Hall. destruct Hall as [He Hl].
  cbn [existsb]. now rewrite (HPQ e He), (IH Hl).
Qed.

(** Decide whether the driver has the callback a goal asks about. *)
Ltac split_if :=
  try match goal with
      | |- context [if ?b then _ else _] =>
          let Hb := fresh "Hb" in
          destruct b eqn:Hb;
          repeat match goal with
                 | H : context [if _ then _ else _] |- _ => rewrite Hb in H
                 end;
          cbn [opt app]
      end.

Lemma device_log_balanced E state s y :
  device_way_taken E state s y ->
  device_balanced state s (device_log_of state s y) /\
  enter_balanced state s (device_log_of state s y).
Proof.
  intros Htk. unfold device_balanced, enter_balanced, device_log_of.
  destruct y as [ |e|e| |r l]; cbn [device_way_taken device_way_log] in *.
  1: destruct Htk as (_ & Ho); unfold has_cb; rewrite Ho, !andb_false_r.
  5: destruct Htk as (_ & (Hev & _) & (B1 & B2 & B3 & B4 & B5 & B6) & _).
  all: unfold device_resumed, device_begun, has_begin in *.
  all: repeat split.
  all: split_if.
  all: tally; try quiet loop_event l Hev; try reflexivity; lia.
Qed.

Lemma device_log_events E state s y :
  device_way_taken E state s y ->
  forallb device_event (device_log_of state s y) = true.
Proof.
  intros Htk. unfold device_log_of.
  destruct y as [ |e|e| |r l]; cbn [device_way_taken device_way_log] in *.
  5: destruct Htk as (_ & (Hev & _) & _).
  all: unfold device_resumed, device_begun.
  all: cbn [forallb device_event loop_event enter_event andb].
  all: repeat first [ rewrite forallb_app | rewrite forallb_opt by reflexivity ].
  all: try rewrite (forallb_weaken _ _ _ loop_event_device Hev).
  all: reflexivity.
Qed.

Lemma device_log_tests E state s y :
  device_way_taken E state s y ->
  (test_cuts_devices E state s = true ->
   existsb sleep_event (device_log_of state s y) = false) /\
  (tests_off E s = true ->
   existsb is_delay (device_log_of state s y) = false).
Proof.
  intros Htk. unfold device_log_of, test_cuts_devices.
  destruct y as [ |e|e| |r l]; cbn [device_way_taken device_way_log] in *.
  5: destruct Htk as (HD & (Hev & Hs & Hd & _) & _); rewrite HD; cbn [orb].
  all: unfold device_resumed, device_begun.
  all: split; intros Hc.
  all: cbn [existsb sleep_event is_delay orb].
  all: repeat first [ rewrite existsb_app | rewrite existsb_opt by reflexivity ].
  all: cbn [existsb sleep_event is_delay orb].
  all: try rewrite (Hs Hc); try rewrite (Hd Hc); try reflexivity.
  rewrite (tests_off_inactive E s TEST_DEVICES Hc) in Htk by discriminate.
  discriminate.
Qed.

Ltac in_dev H :=
  repeat first
    [ progress cbn [In] in H
    | lazymatch type of H with
      | _ \/ _ => destruct H as [H | H]
      | In _ (_ ++ _) => apply in_app_or in H
      | In _ (opt _ _) =>
          let Hb := fresh "Hb" in apply in_opt in H; destruct H as [Hb H]
      | In _ (device_resumed _ _) => unfold device_resumed in H
      | In _ (device_begun _ _) => unfold device_begun in H
      end ];
  try discriminate H; try contradiction.

Ltac in_search_dev :=
  lazymatch goal with
  | |- In _ (_ :: _) => first [ left; reflexivity | right; in_search_dev ]
  | |- In _ (_ ++ _) =>
      first [ apply in_or_app; left; in_search_dev
            | apply in_or_app; right; in_search_dev ]
  | |- In _ (device_resumed _ _) => unfold device_resumed; in_search_dev
  | |- In _ (device_begun _ _) => unfold device_begun; in_search_dev
  | |- In _ _ => assumption
  end.

(** Once entered, the device phase has either got past [begin] or seen it
    fail, unless no driver is registered for a state that needs one. *)
Lemma device_log_begun E state s y :
  device_way_taken E state s y ->
  (need_suspend_ops state = true -> suspend_ops s <> None) ->
  In (Call c_del_timer 0) (device_log_of state s y) \/
  exists e, e <> 0 /\ In (Call (c_ops_begin state) e) (device_log_of state s y).
Proof.
  intros Htk Hops. unfold device_log_of.
  destruct y as [ |e|e| |r l]; cbn [device_way_taken device_way_log] in *.
  - exfalso. destruct Htk as (Hn & Ho). exact (Hops Hn Ho).
  - right. exists e. split; [ apply Htk | ]. right. in_search_dev.
  - left. right. in_search_dev.
  - left. right. in_search_dev.
  - left. right. in_search_dev.
Qed.

(** Case analysis on a call of [suspend_devices_and_enter] that returned. *)
Ltac device_cases E fuel state s Hrun Ht :=
  let Hw := fresh "Hw" in
  let yd := fresh "yd" in
  let Hg := fresh "Hg" in
  let Htk := fresh "Htk" in
  let Hr := fresh "Hr" in
  let Htr := fresh "Htr" in
  let Hsup := fresh "Hsup" in
  let Hgrs := fresh "Hgrs" in
  let Hppr := fresh "Hppr" in
  let Hece := fresh "Hece" in
  let Hirq := fresh "Hirq" in
  pose proof (suspend_devices_and_enter_ways E fuel state s) as Hw;
  unfold wp, device_ways in Hw; rewrite Hrun in Hw; cbn [final] in Hw;
  destruct Hw as (Hg & yd & Htk & Hr & Htr & Hsup & Hgrs & Hppr & Hece & Hirq);
  rewrite Htr in Ht; apply new_of_way in Ht.

(** X8. A call of [suspend_devices_and_enter] that returns has undone what
    it has done, whatever failed and however often the loop ran: the
    unattended timer, the console, the tracer and the devices are back
    ([dpm_resume_end] is called even when [dpm_suspend_start] failed),
    [end] has been called once if the driver has it; and over all runs of
    [suspend_enter] together, [dpm_resume_start] has followed every
    successful [dpm_suspend_end], the processors are back online,
    interrupts have been enabled as often as disabled, [syscore_resume] has
    followed every successful [syscore_suspend], and [wake] and [finish]
    have been called as often as their counterparts.  Interrupts that were
    enabled before the call are enabled after it. *)
Theorem suspend_devices_and_enter_undoes E fuel state s r s' new :
  suspend_devices_and_enter E fuel state s = Ret r s' ->
  trace s' = new ++ trace s ->
  device_balanced state s new /\
  enter_balanced state s new /\
  (irqs_disabled s = false -> irqs_disabled s' = false).
Proof.
  intros Hrun Ht.
  device_cases E fuel state s Hrun Ht. subst new r.
  destruct (device_log_balanced E state s yd Htk) as (Hd & He).
  split; [ exact Hd | split; [ exact He | ] ].
  intros Hi. destruct yd; first [ exact (Hirq Hi) | congruence ].
Qed.

(** X9. The globals of the wakelock debugging code.  A call of
    [suspend_devices_and_enter] that returns has stopped the unattended
    timer exactly when it got past [begin]; it has then reset
    [pm_stay_unattended_period] to 0, started the timer again after resuming
    the devices and set [g_resume_status]; otherwise both globals are as
    they were.  [pm_pwrcs_ret] is set to 1 exactly when the loop around
    [suspend_enter] has run, and [events_check_enabled] is cleared exactly
    when the platform was entered; neither is touched in another way. *)
Theorem suspend_devices_and_enter_globals E fuel state s r s' new :
  suspend_devices_and_enter E fuel state s = Ret r s' ->
  trace s' = new ++ trace s ->
  (In (Call c_del_timer 0) new ->
     pm_stay_unattended_period s' = 0 /\ g_resume_status s' = true /\
     In (Call c_mod_timer 0) new /\ In (Call c_dpm_resume_end 0) new) /\
  (~ In (Call c_del_timer 0) new ->
     pm_stay_unattended_period s' = pm_stay_unattended_period s /\
     g_resume_status s' = g_resume_status s /\
     pm_pwrcs_ret s' = pm_pwrcs_ret s /\
     (forall e, In e new -> device_event e = true /\ loop_event e = false)) /\
  (In (Enter f_suspend_enter) new -> pm_pwrcs_ret s' = 1) /\
  (~ In (Enter f_suspend_enter) new -> pm_pwrcs_ret s' = pm_pwrcs_ret s) /\
  events_check_enabled s'
    = events_check_enabled s && negb (existsb is_ops_enter new) /\
  same_globals s s'.
Proof.
  intros Hrun Ht.
  device_cases E fuel state s Hrun Ht. subst new r.
  split; [ | split; [ | split; [ | split; [ | split; [ | exact Hg ] ] ] ] ].
  3: { intros [Hin | Hin]; [ discriminate | ].
       destruct yd as [ |e|e| |r l]; cbn [device_way_log] in *;
         try (in_dev Hin; fail).
       exact Hppr. }
  3: { intros Hno.
       destruct yd as [ |e|e| |r l]; cbn [device_way_log device_way_taken] in *;
         try exact Hppr.
       exfalso. apply Hno. right. destruct Htk as (_ & _ & _ & Hent).
       in_search_dev. }
  - intros [Hin | Hin]; [ discriminate | ].
    destruct yd as [ |e|e| |r l]; cbn [device_way_log devices_touched] in *;
      try (in_dev Hin; fail).
    all: split; [ exact Hsup | split; [ exact Hgrs | ] ].
    all: split; right; in_search_dev.
  - intros Hno.
    destruct yd as [ |e|e| |r l]; cbn [device_way_log devices_touched] in *.
    3-5: exfalso; apply Hno; right; in_search_dev.
    all: split; [ exact Hsup | split; [ exact Hgrs | split; [ exact Hppr | ] ] ].
    all: intros ev [<- | Hin]; [ split; reflexivity | ].
    all: in_dev Hin; subst ev; split; reflexivity.
  - rewrite Hece.
    destruct yd as [ |e|e| |r l]; cbn [device_way_log existsb is_ops_enter orb].
    all: unfold device_resumed, device_begun.
    all: repeat first [ rewrite existsb_app
                      | rewrite existsb_opt by reflexivity ].
    all: cbn [existsb is_ops_enter orb].
    all: rewrite ?orb_false_r, ?andb_true_r; reflexivity.
Qed.

(** ** What a whole attempt guarantees *)

Lemma pm_suspend_out_of_range E fuel state s :
  ~ PM_SUSPEND_ON < state < PM_SUSPEND_MAX ->
  pm_suspend E fuel state s = Ret (- EINVAL) s.
Proof.
  intros H. unfold pm_suspend.
  replace ((state <=? PM_SUSPEND_ON) || (state >=? PM_SUSPEND_MAX)) with true;
    [ reflexivity | ].
  symmetry. apply orb_true_iff. rewrite Z.geb_leb, !Z.leb_le. lia.
Qed.

Lemma range_dec state :
  {PM_SUSPEND_ON < state < PM_SUSPEND_MAX}
  + {~ PM_SUSPEND_ON < state < PM_SUSPEND_MAX}.
Proof.
  destruct (Z_lt_dec PM_SUSPEND_ON state), (Z_lt_dec state PM_SUSPEND_MAX);
    first [ left; lia | right; lia ].
Qed.

Lemma attempt_log_devices state s v y n :
  attempt_log state s v (devices y n)
  = finished_log n ++ [Call c_pm_restore_gfp_mask 0]
    ++ device_log_of state s y
    ++ [Call c_pm_restrict_gfp_mask 0] ++ prepared_log
    ++ started_log state s v.
Proof. reflexivity. Qed.

(** Case analysis on a call of [pm_suspend] that returned, for a state of
    the accepted range. *)
Ltac attempt_cases E fuel state s Hrange Hrun Ht :=
  let Hw := fresh "Hw" in
  let v := fresh "v" in
  let y := fresh "y" in
  let Hops := fresh "Hops" in
  let Hlvl := fresh "Hlvl" in
  let Htk := fresh "Htk" in
  let Hr := fresh "Hr" in
  let Htr := fresh "Htr" in
  let Hmtx := fresh "Hmtx" in
  let Hst := fresh "Hst" in
  let Hkca := fresh "Hkca" in
  let Hrest := fresh "Hrest" in
  pose proof (pm_suspend_ways E fuel state s Hrange) as Hw;
  unfold wp, attempt_ways in Hw; rewrite Hrun in Hw; cbn [final] in Hw;
  destruct Hw as (Hops & Hlvl & v & y & Htk & Hr & Htr & Hmtx & Hst & Hkca
                  & Hrest);
  rewrite Htr, app_assoc in Ht; apply new_is in Ht.

Lemma freeze_begun_quiet state :
  forallb is_freeze_begin (freeze_begun state) = true.
Proof. unfold freeze_begun. destruct (state =? PM_SUSPEND_FREEZE); reflexivity. Qed.

Lemma recorded_quiet r : forallb is_record (recorded r) = true.
Proof. unfold recorded. destruct (r =? 0); reflexivity. Qed.

Lemma attempt_log_balanced E state s v y :
  attempt_taken E state s v y ->
  attempt_balanced (recorded (attempt_result y) ++ attempt_log state s v y) /\
  device_balanced state s
    (recorded (attempt_result y) ++ attempt_log state s v y) /\
  enter_balanced state s
    (recorded (attempt_result y) ++ attempt_log state s v y).
Proof.
  intros Htk.
  unfold attempt_balanced, device_balanced, enter_balanced.
  pose proof (recorded_quiet (attempt_result y)) as Hrec.
  revert Hrec. generalize (recorded (attempt_result y)) as rec.
  intros rec Hrec.
  destruct y as [ | | |e n|e n|n|yd n]; cbn [attempt_taken] in Htk.
  7: rewrite attempt_log_devices;
     destruct Htk as (_ & _ & _ & _ & Htk);
     pose proof (device_log_events E state s yd Htk) as Hev;
     destruct (device_log_balanced E state s yd Htk)
       as ((D1 & D2 & D3 & D4 & D5) & (B1 & B2 & B3 & B4 & B5 & B6));
     revert D1 D2 D3 D4 D5 B1 B2 B3 B4 B5 B6 Hev;
     generalize (device_log_of state s yd) as ld; intros ld; intros.
  1-6: cbn [attempt_log].
  4,5: destruct Htk as (_ & _ & _ & He).
  all: unfold finished_log, prepared_log, started_log, checked_log.
  all: pose proof (freeze_begun_quiet state) as Hfb; revert Hfb;
    generalize (freeze_begun state) as fb; intros fb Hfb.
  all: repeat split.
  all: split_if.
  all: tally; quiet is_record rec Hrec; quiet is_freeze_begin fb Hfb;
    try quiet device_event ld Hev; try reflexivity; lia.
Qed.

(** X10. A call of [pm_suspend] that returns has undone all it has done,
    whatever the outside functions answered: the lock is as it was (it has
    been released if it was taken), the console is restored if it was
    prepared, PM_POST_SUSPEND has been sent if PM_SUSPEND_PREPARE was, the
    processes are thawed if they were frozen, the allocation mask is
    restored if it was restricted; and the same holds of all that the device
    phase and the runs of [suspend_enter] have done.  Interrupts that were
    enabled before the call are enabled after it. *)
Theorem pm_suspend_undoes_everything E fuel state s r s' new :
  pm_suspend E fuel state s = Ret r s' ->
  trace s' = new ++ trace s ->
  pm_mutex s' = pm_mutex s /\
  (irqs_disabled s = false -> irqs_disabled s' = false) /\
  attempt_balanced new /\
  device_balanced state s new /\
  enter_balanced state s new.
Proof.
  intros Hrun Ht.
  destruct (range_dec state) as [Hrange | Hout].
  - attempt_cases E fuel state s Hrange Hrun Ht. subst new r.
    split; [ exact Hmtx | ].
    split; [ | exact (attempt_log_balanced E state s v y Htk) ].
    intros Hi. destruct y as [ | | | | | |yd n];
      try (destruct Hrest as (_ & _ & _ & _ & ->); exact Hi).
    destruct Hrest as (_ & _ & _ & _ & Hirq).
    destruct yd; first [ exact (Hirq Hi) | congruence ].
  - rewrite (pm_suspend_out_of_range E fuel state s Hout) in Hrun.
    injection Hrun as <- <-.
    apply (new_is [] (trace s)) in Ht. subst new.
    unfold attempt_balanced, device_balanced, enter_balanced.
    destruct (has_cb state s end_), (has_cb state s wake),
      (has_cb state s finish); repeat split; auto.
Qed.

Lemma in_recorded x r : In x (recorded r) ->
  r <> 0 /\ x = Call (c_dpm_save_failed_errno r) 0.
Proof.
  unfold recorded. destruct (Z.eqb_spec r 0); [ intros [] | ].
  intros [<- | []]. auto.
Qed.

Lemma in_freeze_begun x state : In x (freeze_begun state) ->
  state = PM_SUSPEND_FREEZE /\ is_freeze_begin x = true.
Proof.
  unfold freeze_begun. destruct (Z.eqb_spec state PM_SUSPEND_FREEZE);
    [ | intros [] ].
  intros [<- | [<- | []]]; auto.
Qed.

(** Take [H : In x l] apart, for a log [l] of a whole attempt; what is left
    is in the log of the device phase. *)
Ltac in_top H :=
  repeat first
    [ progress cbn [In] in H
    | lazymatch type of H with
      | _ \/ _ => destruct H as [H | H]
      | In _ (_ ++ _) => apply in_app_or in H
      | In _ (opt _ _) =>
          let Hb := fresh "Hb" in apply in_opt in H; destruct H as [Hb H]
      | In _ (recorded _) =>
          let Hb := fresh "Hb" in apply in_recorded in H; destruct H as [Hb H]
      | In _ (freeze_begun _) =>
          let Hb := fresh "Hb" in
          apply in_freeze_begun in H; destruct H as [Hb H]
      | In _ (finished_log _) => unfold finished_log in H
      | In _ (prepared_log) => unfold prepared_log in H
      | In _ (started_log _ _ _) => unfold started_log in H
      | In _ (checked_log _ _ _) => unfold checked_log in H
      | In _ (device_begun _ _) => unfold device_begun in H
      end ];
  try discriminate H; try contradiction.

Ltac in_search_top :=
  lazymatch goal with
  | |- In _ (_ :: _) => first [ left; reflexivity | right; in_search_top ]
  | |- In _ (_ ++ _) =>
      first [ apply in_or_app; left; in_search_top
            | apply in_or_app; right; in_search_top ]
  | |- In _ (finished_log _) => unfold finished_log; in_search_top
  | |- In _ (prepared_log) => unfold prepared_log; in_search_top
  | |- In _ (started_log _ _ _) => unfold started_log; in_search_top
  | |- In _ (checked_log _ _ _) => unfold checked_log; in_search_top
  | |- In _ (device_begun _ _) => unfold device_begun; in_search_top
  | |- In _ _ => assumption
  end.

(** Case analysis on a call of [pm_suspend] that did not return. *)
Ltac stopped_cases E fuel state s Hrange Hrun :=
  let Hw := fresh "Hw" in
  let v := fresh "v" in
  let l := fresh "l" in
  let Hops := fresh "Hops" in
  let Hlvl := fresh "Hlvl" in
  let Hsup := fresh "Hsup" in
  let Hm := fresh "Hm" in
  let Hchk := fresh "Hchk" in
  let HF := fresh "HF" in
  let HD := fresh "HD" in
  let Hlog := fresh "Hlog" in
  let Htr := fresh "Htr" in
  let Hheld := fresh "Hheld" in
  let Hwhy := fresh "Hwhy" in
  pose proof (pm_suspend_ways E fuel state s Hrange) as Hw;
  unfold wp, attempt_ways in Hw; rewrite Hrun in Hw; cbn [final] in Hw;
  destruct Hw as (Hops & Hlvl & v & l & Hsup & Hm & Hchk & HF & HD & Hlog
                  & Htr & Hheld & Hwhy).

(** X11. [pm_suspend] never follows a NULL pointer and never trips a
    [BUG_ON], whatever driver is registered (or none) and whatever the
    outside functions answer.  A call that does not return holds the lock
    and is either asleep in [freeze_enter], for PM_SUSPEND_FREEZE, waiting
    for [freeze_wake]; or still in the loop, having just been told by
    [suspend_again] to go on.  The device phase is entered only after the
    checks of [valid_state] and [suspend_prepare]: if the state needs a
    driver, one with [enter] is registered; so it does not leave by its
    -ENOSYS exit but goes on to [begin]. *)
Theorem pm_suspend_never_crashes E fuel state s :
  (forall why s',
     pm_suspend E fuel state s = Stop why s' ->
     pm_mutex s' = true /\
     ((why = Blocked /\ state = PM_SUSPEND_FREEZE /\
       suspend_freeze_wake s' = false /\
       exists rest, trace s' = Enter f_freeze_enter :: rest)
      \/
      (why = OutOfFuel /\ need_suspend_ops state = true /\
       exists rest, trace s' = Call c_ops_suspend_again 1 :: rest))) /\
  (forall new,
     trace (final (pm_suspend E fuel state s)) = new ++ trace s ->
     In (Enter f_suspend_devices_and_enter) new ->
     (need_suspend_ops state = true -> has_enter s = true) /\
     (In (Call c_del_timer 0) new \/
      exists e, e <> 0 /\ In (Call (c_ops_begin state) e) new)).
Proof.
  destruct (range_dec state) as [Hrange | Hout].
  2: { rewrite (pm_suspend_out_of_range E fuel state s Hout). split.
       - intros why s' H. discriminate H.
       - intros new Ht Hin. cbn [final] in Ht.
         apply (new_is [] (trace s)) in Ht. subst new. destruct Hin. }
  split.
  - intros why s' Hrun.
    stopped_cases E fuel state s Hrange Hrun.
    split; [ exact Hheld | ].
    destruct Hwhy as [(-> & -> & Hf & rest & ->) | (-> & Hn & rest & ->)];
      [ left | right ]; repeat split; try assumption;
      eexists; rewrite Htr; reflexivity.
  - intros new Ht Hin.
    destruct (pm_suspend E fuel state s) as [r s' | why s'] eqn:Hrun;
      cbn [final] in Ht.
    + attempt_cases E fuel state s Hrange Hrun Ht. subst new.
      destruct y as [ | | |e n|e n|n|yd n];
        cbn [attempt_log attempt_taken] in *;
        try (in_top Hin; fail).
      destruct Htk as (_ & _ & Hchk & _ & Htk).
      split; [ exact Hchk | ].
      assert (Hops' : need_suspend_ops state = true -> suspend_ops s <> None).
      { intros Hn Ho. specialize (Hchk Hn). unfold has_enter in Hchk.
        rewrite Ho in Hchk. discriminate. }
      destruct (device_log_begun E state s yd Htk Hops') as [Hd | (e & He & Hd)];
        [ left | right; exists e; split; [ exact He | ] ].
      all: destruct Hd as [Hd | Hd]; [ discriminate | ].
      all: in_search_top.
    + stopped_cases E fuel state s Hrange Hrun.
      rewrite Htr in Ht. rewrite !app_assoc in Ht. apply new_is in Ht.
      subst new. split; [ exact Hchk | ].
      left. rewrite <- !app_assoc. in_search_top.
Qed.

(** ** Test levels and sleeping *)

Lemma tests_on_cut E state s v :
  tests_off E s = false ->
  supported E state s v = true ->
  test_active E s TEST_FREEZER = false ->
  test_cuts_devices E state s = true.
Proof.
  unfold tests_off, supported, freeze_unsupported, test_cuts_devices,
    test_cuts_enter, test_active.
  destruct (CONFIG_PM_DEBUG E), (pm_test_level s),
    (state =? PM_SUSPEND_FREEZE); cbn; try discriminate; auto.
Qed.

Ltac no_event_top :=
  cbv beta iota delta
    [finished_log prepared_log started_log checked_log device_begun];
  repeat first [ rewrite existsb_app | rewrite existsb_opt by reflexivity ];
  cbn [existsb orb sleep_event is_delay is_record freeze_failed Z.eqb negb];
  rewrite ?orb_false_r.

Lemma recorded_none (Q : event -> bool) r :
  (forall e, is_record e = true -> Q e = false) ->
  existsb Q (recorded r) = false.
Proof. intros H. exact (existsb_none _ _ _ (recorded_quiet r) H). Qed.

Lemma freeze_begun_none (Q : event -> bool) state :
  (forall e, is_freeze_begin e = true -> Q e = false) ->
  existsb Q (freeze_begun state) = false.
Proof. intros H. exact (existsb_none _ _ _ (freeze_begun_quiet state) H). Qed.

Lemma is_record_no_sleep e : is_record e = true -> sleep_event e = false.
Proof. destruct e as [c r|f|f r]; [ destruct c | | ]; cbn; congruence. Qed.

Lemma is_record_no_delay e : is_record e = true -> is_delay e = false.
Proof. destruct e as [c r|f|f r]; [ destruct c | | ]; cbn; congruence. Qed.

Lemma is_begin_no_sleep e : is_freeze_begin e = true -> sleep_event e = false.
Proof.
  destruct e as [c r|f|f r]; [ | destruct f | destruct f ]; cbn; congruence.
Qed.

Lemma is_begin_no_delay e : is_freeze_begin e = true -> is_delay e = false.
Proof.
  destruct e as [c r|f|f r]; [ | destruct f | destruct f ]; cbn; congruence.
Qed.

Lemma attempt_log_tests E state s v y :
  attempt_taken E state s v y ->
  (tests_off E s = true ->
   existsb is_delay (recorded (attempt_result y) ++ attempt_log state s v y)
   = false) /\
  (tests_off E s = false ->
   existsb sleep_event
     (recorded (attempt_result y) ++ attempt_log state s v y) = false).
Proof.
  intros Htk.
  rewrite !existsb_app, (recorded_none _ _ is_record_no_sleep),
    (recorded_none _ _ is_record_no_delay). cbn [orb].
  destruct y as [ | | |e n|e n|n|yd n]; cbn [attempt_taken] in Htk.
  7: rewrite attempt_log_devices;
     destruct Htk as (Hsup & _ & _ & HF & Htk);
     destruct (device_log_tests E state s yd Htk) as (Hs & Hd);
     revert Hs Hd; generalize (device_log_of state s yd) as ld; intros.
  1-6: cbn [attempt_log].
  all: split; intros Hc.
  all: no_event_top;
    rewrite ?(freeze_begun_none _ _ is_begin_no_sleep),
            ?(freeze_begun_none _ _ is_begin_no_delay);
    cbn [orb]; try reflexivity.
  - destruct Htk as (_ & _ & _ & HF).
    rewrite (tests_off_inactive E s TEST_FREEZER Hc) in HF by discriminate.
    discriminate.
  - rewrite (Hd Hc). reflexivity.
  - rewrite (Hs (tests_on_cut E state s v Hc Hsup HF)). reflexivity.
Qed.

(** X12. A call of [pm_suspend] either tests or sleeps.  When no test level
    is active (no CONFIG_PM_DEBUG, or [pm_test_level] is TEST_NONE), the
    5 second delay of [suspend_test] never occurs.  When one is active, the
    system never sleeps: neither [suspend_ops->enter] is called nor
    [freeze_enter] entered, whatever the state and the driver, so that the
    call cannot stay asleep; and this whether it returns or not. *)
Theorem pm_suspend_tests_or_sleeps E fuel state s new :
  trace (final (pm_suspend E fuel state s)) = new ++ trace s ->
  (tests_off E s = true -> existsb is_delay new = false) /\
  (tests_off E s = false ->
   existsb sleep_event new = false /\
   forall why s', pm_suspend E fuel state s = Stop why s' -> why = OutOfFuel).
Proof.
  intros Ht.
  destruct (range_dec state) as [Hrange | Hout].
  2: { rewrite (pm_suspend_out_of_range E fuel state s Hout) in *.
       cbn [final] in Ht. apply (new_is [] (trace s)) in Ht. subst new.
       split; [ reflexivity | ]. intros _. split; [ reflexivity | ].
       intros why s' H. discriminate H. }
  destruct (pm_suspend E fuel state s) as [r s' | why s'] eqn:Hrun;
    cbn [final] in Ht.
  - attempt_cases E fuel state s Hrange Hrun Ht. subst new r.
    destruct (attempt_log_tests E state s v y Htk) as (Hd & Hs).
    split; [ exact Hd | ]. intros Hc. split; [ exact (Hs Hc) | ].
    intros why s0 H. discriminate H.
  - stopped_cases E fuel state s Hrange Hrun.
    rewrite Htr in Ht. rewrite !app_assoc in Ht. apply new_is in Ht.
    subst new. rewrite <- !app_assoc.
    destruct Hlog as (_ & Hs & Hd & _).
    split; [ intros Hc | intros Hc ].
    + rewrite existsb_app, (Hd Hc). no_event_top.
      rewrite ?(freeze_begun_none _ _ is_begin_no_delay). reflexivity.
    + assert (Hcut : test_cuts_enter E state s = true).
      { pose proof (tests_on_cut E state s v Hc Hsup HF) as H.
        unfold test_cuts_devices in H. rewrite HD in H. exact H. }
      split.
      * rewrite existsb_app, (Hs Hcut). no_event_top.
        rewrite ?(freeze_begun_none _ _ is_begin_no_sleep). reflexivity.
      * intros why0 s0 H. injection H as <- <-.
        destruct Hwhy as [(_ & _ & _ & rest & ->) | (-> & _)];
          [ | reflexivity ].
        specialize (Hs Hcut). discriminate Hs.
Qed.

(** ** The records of a failed attempt *)

Lemma device_event_no_record e : device_event e = true -> is_record e = false.
Proof.
  destruct e as [c r|f|f r]; [ destruct c | destruct f | destruct f ];
    cbn; congruence.
Qed.

Lemma device_event_not_failed e :
  device_event e = true -> freeze_failed e = false.
Proof.
  destruct e as [c r|f|f r]; [ destruct c | destruct f | destruct f ];
    cbn; congruence.
Qed.

Lemma is_begin_no_record e : is_freeze_begin e = true -> is_record e = false.
Proof.
  destruct e as [c r|f|f r]; [ | destruct f | destruct f ]; cbn; congruence.
Qed.

Lemma is_begin_not_failed e :
  is_freeze_begin e = true -> freeze_failed e = false.
Proof.
  destruct e as [c r|f|f r]; [ | destruct f | destruct f ]; cbn; congruence.
Qed.

Lemma is_record_not_failed e : is_record e = true -> freeze_failed e = false.
Proof. destruct e as [c r|f|f r]; [ destruct c | | ]; cbn; congruence. Qed.

Lemma not_exists_in (Q : event -> bool) e l :
  existsb Q l = false -> Q e = true -> ~ In e l.
Proof.
  intros H He Hin. assert (existsb Q l = true).
  { apply existsb_exists. exists e. auto. }
  congruence.
Qed.

(** What [enter_state] logs holds no record of a failure, and a failure to
    freeze the processes only on the way [not_frozen]. *)
Lemma attempt_log_records E state s v y :
  attempt_taken E state s v y ->
  existsb is_record (attempt_log state s v y) = false /\
  existsb freeze_failed (attempt_log state s v y)
  = match y with not_frozen _ _ => true | _ => false end.
Proof.
  intros Htk.
  destruct y as [ | | |e n|e n|n|yd n]; cbn [attempt_taken] in Htk.
  7: rewrite attempt_log_devices;
     destruct Htk as (_ & _ & _ & _ & Htk);
     pose proof (device_log_events E state s yd Htk) as Hev;
     revert Hev; generalize (device_log_of state s yd) as ld; intros.
  1-6: cbn [attempt_log].
  5: destruct Htk as (_ & _ & _ & He); apply Z.eqb_neq in He.
  all: split.
  all: no_event_top;
    rewrite ?(freeze_begun_none _ _ is_begin_no_record),
            ?(freeze_begun_none _ _ is_begin_not_failed),
            ?(existsb_none _ _ ld Hev device_event_no_record),
            ?(existsb_none _ _ ld Hev device_event_not_failed);
    cbn [orb]; try reflexivity.
  rewrite He. reflexivity.
Qed.

(** X13. The records of failures, for a state of the accepted range.  A
    call of [pm_suspend] that returns 0 has recorded nothing with
    [dpm_save_failed_errno]; one that returns [r] other than 0 has recorded
    [r], once, as the last thing it did.  [suspend_stats.failed_freeze] is
    incremented, and the failed step recorded with [dpm_save_failed_step],
    exactly when [suspend_freeze_processes] failed; [pm_suspend] then
    returns the error of [suspend_freeze_processes], and no device was
    touched. *)
Theorem pm_suspend_records_failures E fuel state s r s' new :
  PM_SUSPEND_ON < state < PM_SUSPEND_MAX ->
  pm_suspend E fuel state s = Ret r s' ->
  trace s' = new ++ trace s ->
  (exists rest,
     new = recorded r ++ rest /\ existsb is_record rest = false) /\
  failed_freeze (suspend_stats s')
    = failed_freeze (suspend_stats s)
      + (if existsb freeze_failed new then 1 else 0) /\
  (existsb freeze_failed new = true ->
     r <> 0 /\
     In (Call c_suspend_freeze_processes r) new /\
     In (Call c_dpm_save_failed_step 0) new /\
     ~ In (Enter f_suspend_devices_and_enter) new) /\
  (existsb freeze_failed new = false ->
     ~ In (Call c_dpm_save_failed_step 0) new).
Proof.
  intros Hrange Hrun Ht.
  attempt_cases E fuel state s Hrange Hrun Ht. subst new.
  destruct (attempt_log_records E state s v y Htk) as (Hrec & Hff).
  split; [ eexists; split; [ reflexivity | exact Hrec ] | ].
  rewrite existsb_app, (recorded_none _ _ is_record_not_failed), Hff.
  cbn [orb].
  split; [ | split ].
  - rewrite Hst. destruct y, (r =? 0); cbn; lia.
  - intros Hy. destruct y as [ | | |e n|e n|n|yd n]; try discriminate Hy.
    cbn [attempt_taken attempt_result attempt_log] in *. subst r.
    destruct Htk as (_ & _ & _ & He).
    split; [ exact He | ].
    split; [ in_search_top | split; [ in_search_top | ] ].
    intros Hin. in_top Hin.
  - intros Hy Hin.
    destruct y as [ | | |e n|e n|n|yd n]; try discriminate Hy;
      cbn [attempt_taken attempt_log] in *.
    all: try (in_top Hin; fail).
    destruct Htk as (_ & _ & _ & _ & Htk).
    pose proof (device_log_events E state s yd Htk) as Hev.
    in_top Hin.
    apply (not_in_forallb device_event (Call c_dpm_save_failed_step 0) _
             Hev eq_refl).
    right. exact Hin.
Qed.

(** ** The test level TEST_FREEZER and a driver without [enter] *)

(** X14. With the test level TEST_FREEZER active, an attempt whose
    [suspend_prepare] succeeds goes no further: after the 5 second delay it
    runs [suspend_finish] and releases the lock; no device is touched.
    [pm_suspend] returns 0 and counts a success. *)
Theorem test_freezer_stops_after_prepare E fuel state s new :
  test_active E s TEST_FREEZER = true ->
  trace (final (pm_suspend E fuel state s)) = new ++ trace s ->
  In (Leave f_suspend_prepare 0) new ->
  exists s' n v,
    pm_suspend E fuel state s = Ret 0 s' /\
    suspend_stats s' = incr_success (suspend_stats s) /\
    pm_mutex s' = false /\
    ~ In (Enter f_suspend_devices_and_enter) new /\
    new = [Call c_mutex_unlock 0; Leave f_suspend_finish 0;
           Call c_pm_restore_console 0;
           Call (c_pm_notifier_call_chain PM_POST_SUSPEND) n;
           Call c_suspend_thaw_processes 0; Enter f_suspend_finish;
           Call (c_mdelay 5000) 0;
           Leave f_suspend_prepare 0; Call c_suspend_freeze_processes 0;
           Call (c_pm_notifier_call_chain PM_SUSPEND_PREPARE) 0;
           Call c_pm_prepare_console 0; Enter f_suspend_prepare]
          ++ started_log state s v.
Proof.
  intros HF Ht Hin.
  destruct (range_dec state) as [Hrange | Hout].
  2: { rewrite (pm_suspend_out_of_range E fuel state s Hout) in *.
       cbn [final] in Ht. apply (new_is [] (trace s)) in Ht. subst new.
       destruct Hin. }
  destruct (pm_suspend E fuel state s) as [r s' | why s'] eqn:Hrun;
    cbn [final] in Ht.
  - attempt_cases E fuel state s Hrange Hrun Ht. subst new.
    destruct y as [ | | |e n|e n|n|yd n];
      cbn [attempt_taken attempt_result attempt_log] in *.
    1-3: in_top Hin.
    1-2: destruct Htk as (_ & _ & _ & He); in_top Hin;
      injection Hin as Hin; contradiction.
    2: { destruct Htk as (_ & _ & _ & HF' & _). congruence. }
    subst r. destruct Htk as (_ & Hm & _).
    exists s', n, v. cbn [recorded Z.eqb app] in *.
    split; [ reflexivity | ]. split; [ exact Hst | ].
    split; [ congruence | ].
    split; [ | reflexivity ].
    intros Hin'. in_top Hin'.
  - stopped_cases E fuel state s Hrange Hrun. congruence.
Qed.

(** X15. A driver without [enter].  For a state that needs the driver, when
    the driver has accepted the state but has no [enter] (or has been taken
    away), an attempt that takes the lock fails with -EPERM in
    [suspend_prepare] before anything is prepared: no console, no observer,
    no process is touched, the lock is released, and the failure is counted
    and recorded. *)
Theorem pm_suspend_driver_without_enter E fuel state s new :
  need_suspend_ops state = true ->
  has_enter s = false ->
  trace (final (pm_suspend E fuel state s)) = new ++ trace s ->
  In (Call c_mutex_trylock 1) new ->
  exists s' v,
    pm_suspend E fuel state s = Ret (- EPERM) s' /\
    suspend_stats s' = incr_fail (suspend_stats s) /\
    pm_mutex s' = false /\
    new = [Call (c_dpm_save_failed_errno (- EPERM)) 0; Call c_mutex_unlock 0;
           Leave f_suspend_prepare (- EPERM); Enter f_suspend_prepare]
          ++ started_log state s v.
Proof.
  intros Hn He Ht Hin.
  destruct (range_dec state) as [Hrange | Hout].
  2: { rewrite (pm_suspend_out_of_range E fuel state s Hout) in *.
       cbn [final] in Ht. apply (new_is [] (trace s)) in Ht. subst new.
       destruct Hin. }
  destruct (pm_suspend E fuel state s) as [r s' | why s'] eqn:Hrun;
    cbn [final] in Ht.
  - attempt_cases E fuel state s Hrange Hrun Ht. subst new.
    destruct y as [ | | |e n|e n|n|yd n];
      cbn [attempt_taken attempt_result attempt_log] in *.
    1-2: in_top Hin.
    2-5: destruct Htk as (_ & _ & Hchk & _); specialize (Hchk Hn); congruence.
    subst r. destruct Htk as (_ & Hm & _).
    exists s', v. split; [ reflexivity | ].
    split; [ exact Hst | ]. split; [ congruence | reflexivity ].
  - stopped_cases E fuel state s Hrange Hrun.
    specialize (Hchk Hn). congruence.
Qed.

(** X16. The device phase is bracketed.  When [pm_suspend] has entered
    [suspend_devices_and_enter] and returns, the device phase has run with
    the lock held, the file systems synced, the console prepared, the
    observers notified and the processes frozen, between
    [pm_restrict_gfp_mask] and [pm_restore_gfp_mask]; whatever it returned,
    [suspend_finish] has run after it and the lock has been released; and
    [pm_suspend] returns what the device phase returned. *)
Theorem device_phase_is_bracketed E fuel state s r s' new :
  pm_suspend E fuel state s = Ret r s' ->
  trace s' = new ++ trace s ->
  In (Enter f_suspend_devices_and_enter) new ->
  pm_mutex s = false /\ pm_mutex s' = false /\ g_keycheck_abort s' = 0 /\
  exists n v ld,
    forallb device_event ld = true /\
    new = recorded r
          ++ finished_log n
          ++ [Call c_pm_restore_gfp_mask 0;
              Leave f_suspend_devices_and_enter r]
          ++ ld
          ++ [Call c_pm_restrict_gfp_mask 0]
          ++ prepared_log
          ++ started_log state s v.
Proof.
  intros Hrun Ht Hin.
  destruct (range_dec state) as [Hrange | Hout].
  2: { rewrite (pm_suspend_out_of_range E fuel state s Hout) in Hrun.
       injection Hrun as <- <-.
       apply (new_is [] (trace s)) in Ht. subst new. destruct Hin. }
  attempt_cases E fuel state s Hrange Hrun Ht. subst new.
  destruct y as [ | | |e n|e n|n|yd n];
    cbn [attempt_log attempt_taken attempt_result observers_agreed] in *;
    try (in_top Hin; fail).
  destruct Htk as (_ & Hm & _ & _ & Htk).
  split; [ exact Hm | ]. split; [ congruence | ].
  split; [ exact Hkca | ].
  exists n, v, (device_way_log state s yd).
  pose proof (device_log_events E state s yd Htk) as Hev.
  unfold device_log_of in Hev. cbn [forallb] in Hev.
  apply andb_true_iff in Hev.
  split; [ apply Hev | subst r; reflexivity ].
Qed.

(** ** The freeze state and the driver *)

Lemma is_record_no_ops e : is_record e = true -> is_ops_call e = false.
Proof. destruct e as [c r|f|f r]; [ destruct c | | ]; cbn; congruence. Qed.

Lemma is_begin_no_ops e : is_freeze_begin e = true -> is_ops_call e = false.
Proof.
  destruct e as [c r|f|f r]; [ | destruct f | destruct f ]; cbn; congruence.
Qed.

Lemma device_begun_no_ops s :
  existsb is_ops_call (device_begun PM_SUSPEND_FREEZE s) = false.
Proof.
  unfold device_begun, has_begin. rewrite has_cb_freeze. reflexivity.
Qed.

Lemma device_log_no_ops E s y :
  device_way_taken E PM_SUSPEND_FREEZE s y ->
  existsb is_ops_call (device_log_of PM_SUSPEND_FREEZE s y) = false.
Proof.
  intros Htk. unfold device_log_of.
  destruct y as [ |e|e| |r l]; cbn [device_way_taken device_way_log] in *.
  5: destruct Htk as (_ & (_ & _ & _ & Hl) & _); specialize (Hl eq_refl).
  2: destruct Htk as (_ & H); discriminate H.
  all: cbn [existsb is_ops_call orb].
  all: unfold device_resumed.
  all: rewrite ?existsb_app, ?device_begun_no_ops, ?has_cb_freeze.
  all: cbn [opt existsb is_ops_call orb]; try reflexivity.
  rewrite Hl. reflexivity.
Qed.

Lemma started_log_no_ops s v :
  existsb is_ops_call (started_log PM_SUSPEND_FREEZE s v) = false.
Proof.
  unfold started_log, checked_log.
  rewrite !existsb_app, (freeze_begun_none _ _ is_begin_no_ops).
  reflexivity.
Qed.

Lemma attempt_log_no_ops E s v y :
  attempt_taken E PM_SUSPEND_FREEZE s v y ->
  existsb is_ops_call
    (recorded (attempt_result y) ++ attempt_log PM_SUSPEND_FREEZE s v y)
  = false.
Proof.
  intros Htk.
  rewrite existsb_app, (recorded_none _ _ is_record_no_ops). cbn [orb].
  destruct y as [ | | |e n|e n|n|yd n]; cbn [attempt_taken] in Htk.
  7: rewrite attempt_log_devices;
     destruct Htk as (_ & _ & _ & _ & Htk);
     pose proof (device_log_no_ops E s yd Htk) as Hd;
     revert Hd; generalize (device_log_of PM_SUSPEND_FREEZE s yd) as ld;
     intros.
  1-6: cbn [attempt_log].
  all: unfold finished_log, prepared_log.
  all: rewrite ?existsb_app, ?started_log_no_ops, ?Hd.
  all: reflexivity.
Qed.

(** X17. The freeze state needs no driver.  In a call of
    [suspend_devices_and_enter] or of [pm_suspend] for PM_SUSPEND_FREEZE,
    whether it returns or not, no callback of the driver is ever called:
    not [valid], [begin], [prepare], [prepare_late], [enter], [wake],
    [finish], [end], [recover], nor [suspend_again]; so nothing of
    [suspend_ops] but the pointer is ever looked at, if that. *)
Theorem freeze_never_asks_driver E fuel s :
  (forall new,
     trace (final (suspend_devices_and_enter E fuel PM_SUSPEND_FREEZE s))
       = new ++ trace s ->
     existsb is_ops_call new = false) /\
  (forall new,
     trace (final (pm_suspend E fuel PM_SUSPEND_FREEZE s)) = new ++ trace s ->
     existsb is_ops_call new = false).
Proof.
  split.
  - intros new Ht.
    pose proof (suspend_devices_and_enter_ways E fuel PM_SUSPEND_FREEZE s)
      as Hw.
    unfold wp, device_ways in Hw.
    destruct (suspend_devices_and_enter E fuel PM_SUSPEND_FREEZE s)
      as [r s' | why s']; cbn [final] in *.
    + destruct Hw as (_ & yd & Htk & -> & Htr & _).
      rewrite Htr in Ht. apply new_of_way in Ht. subst new.
      exact (device_log_no_ops E s yd Htk).
    + destruct Hw as (_ & l & Htr & _ & (_ & _ & _ & Hl) & _).
      rewrite Htr in Ht. rewrite !app_assoc in Ht. apply new_is in Ht.
      subst new.
      rewrite !existsb_app, (Hl eq_refl), device_begun_no_ops. reflexivity.
  - intros new Ht.
    assert (Hrange : PM_SUSPEND_ON < PM_SUSPEND_FREEZE < PM_SUSPEND_MAX)
      by (unfold PM_SUSPEND_ON, PM_SUSPEND_FREEZE, PM_SUSPEND_MAX; lia).
    destruct (pm_suspend E fuel PM_SUSPEND_FREEZE s) as [r s' | why s']
      eqn:Hrun; cbn [final] in Ht.
    + attempt_cases E fuel PM_SUSPEND_FREEZE s Hrange Hrun Ht. subst new r.
      exact (attempt_log_no_ops E s v y Htk).
    + stopped_cases E fuel PM_SUSPEND_FREEZE s Hrange Hrun.
      destruct Hlog as (_ & _ & _ & Hl).
      rewrite Htr in Ht. rewrite !app_assoc in Ht. apply new_is in Ht.
      subst new.
      rewrite <- !app_assoc.
      rewrite !existsb_app, (Hl eq_refl), device_begun_no_ops,
        started_log_no_ops.
      reflexivity.
Qed.

(** ** The further properties on concrete machines *)

Lemma trace_from_nil {A} (o : outcome A) (s : machine) :
  trace s = [] -> trace (final o) = trace (final o) ++ trace s.
Proof. intros ->. symmetry. apply app_nil_r. Qed.

Lemma final_trace {A} (m : M A) (s : machine) (o : outcome A) :
  m s = o -> trace s = [] ->
  trace (final (m s)) = trace (final o) ++ trace s.
Proof. intros -> Hs. apply trace_from_nil. exact Hs. Qed.

Lemma suspend_set_ops_valid_only_mem_witness :
  suspend_set_ops (Some ops_full) unregistered = Ret tt (boot TEST_NONE) /\
  exists s2,
    valid_state env_ok PM_SUSPEND_STANDBY (boot TEST_NONE) = Ret false s2.
Proof.
  assert (H1 : suspend_set_ops (Some ops_full) unregistered
               = Ret tt (boot TEST_NONE)) by reflexivity.
  assert (H3 : PM_SUSPEND_STANDBY <> PM_SUSPEND_FREEZE) by discriminate.
  destruct (suspend_set_ops_valid_only_mem env_ok ops_full unregistered
              (boot TEST_NONE) PM_SUSPEND_STANDBY H1 eq_refl H3)
    as (_ & _ & s2 & Hv & _).
  split; [ exact H1 | ].
  exists s2. exact Hv.
Defined.

Lemma pm_suspend_unsupported_state_witness :
  PM_SUSPEND_ON < PM_SUSPEND_STANDBY < PM_SUSPEND_MAX /\
  valid_state env_ok PM_SUSPEND_STANDBY
    (log env_ok (Call c_asus_otg_host_power_off 0) (boot TEST_NONE))
    = Ret false (final standby_valid_out) /\
  exists s',
    pm_suspend env_ok 0 PM_SUSPEND_STANDBY (boot TEST_NONE)
      = Ret (- ENODEV) s' /\
    fail (suspend_stats s') = fail (suspend_stats (boot TEST_NONE)) + 1.
Proof.
  assert (H0 : PM_SUSPEND_ON < PM_SUSPEND_STANDBY < PM_SUSPEND_MAX)
    by (unfold PM_SUSPEND_ON, PM_SUSPEND_STANDBY, PM_SUSPEND_MAX; lia).
  assert (H1 : valid_state env_ok PM_SUSPEND_STANDBY
                 (log env_ok (Call c_asus_otg_host_power_off 0)
                    (boot TEST_NONE))
               = Ret false (final standby_valid_out))
    by (vm_compute; reflexivity).
  destruct (proj1 (pm_suspend_unsupported_state env_ok 0 PM_SUSPEND_STANDBY
                     (boot TEST_NONE) H0) (final standby_valid_out) H1)
    as (s' & Hr & _ & _ & Hf & _).
  split; [ exact H0 | ].
  split; [ exact H1 | ].
  exists s'. split; [ exact Hr | exact Hf ].
Defined.

Lemma suspend_enter_reaches_hardware_witness :
  In (Call (c_ops_enter PM_SUSPEND_MEM) 0) (trace (final enter_out)) /\
  exists s',
    suspend_enter env_ok PM_SUSPEND_MEM false (boot TEST_NONE)
      = Ret (0, false) s' /\
    events_check_enabled s' = false /\ irqs_disabled s' = false.
Proof.
  assert (H0 : suspend_enter env_ok PM_SUSPEND_MEM false (boot TEST_NONE)
               = enter_out) by (vm_compute; reflexivity).
  assert (H1 : In (Call (c_ops_enter PM_SUSPEND_MEM) 0)
                 (trace (final enter_out))) by (vm_compute; tauto).
  destruct (suspend_enter_reaches_hardware env_ok PM_SUSPEND_MEM false
              (boot TEST_NONE) (trace (final enter_out)) PM_SUSPEND_MEM 0
              (final_trace _ _ _ H0 eq_refl) H1)
    as (_ & _ & _ & _ & s' & Hr & He & Hi & _).
  split; [ exact H1 | ].
  exists s'. split; [ exact Hr | split; [ exact He | exact Hi ] ].
Defined.

Lemma suspend_enter_unwinds_witness :
  suspend_enter env_end_fails PM_SUSPEND_MEM false (boot TEST_NONE)
    = Ret (- EBUSY, false) (final end_fails_out) /\
  - EBUSY <> 0 /\
  In (Call c_dpm_suspend_end (- EBUSY)) (trace (final end_fails_out)) /\
  trace (final end_fails_out)
  = Leave f_suspend_enter (- EBUSY)
      :: opt (has_cb PM_SUSPEND_MEM (boot TEST_NONE) finish)
           (Call c_ops_finish 0)
      ++ [Call c_dpm_suspend_end (- EBUSY)]
      ++ opt (has_prepare PM_SUSPEND_MEM (boot TEST_NONE))
           (Call c_ops_prepare 0)
      ++ [Enter f_suspend_enter].
Proof.
  assert (H1 : suspend_enter env_end_fails PM_SUSPEND_MEM false
                 (boot TEST_NONE)
               = Ret (- EBUSY, false) (final end_fails_out))
    by (vm_compute; reflexivity).
  assert (H2 : - EBUSY <> 0) by discriminate.
  assert (H3 : In (Call c_dpm_suspend_end (- EBUSY))
                 (trace (final end_fails_out))) by (vm_compute; tauto).
  destruct (suspend_enter_unwinds env_end_fails PM_SUSPEND_MEM false
              (boot TEST_NONE) (- EBUSY) false (final end_fails_out)
              (trace (final end_fails_out)) (- EBUSY) H1
              (trace_from_boot end_fails_out TEST_NONE) H2)
    as (_ & Hend & _).
  destruct (Hend H3) as (_ & _ & Hnew).
  split; [ exact H1 | ].
  split; [ exact H2 | ].
  split; [ exact H3 | exact Hnew ].
Defined.

Lemma suspend_enter_test_points_witness :
  In (Call (c_mdelay 5000) 0) (trace (final test_core_out)) /\
  test_active env_ok (boot TEST_CORE) TEST_CORE = true /\
  existsb sleep_event (trace (final test_core_out)) = false /\
  exists w' s',
    suspend_enter env_ok PM_SUSPEND_MEM false (boot TEST_CORE)
      = Ret (0, w') s'.
Proof.
  assert (H0 : suspend_enter env_ok PM_SUSPEND_MEM false (boot TEST_CORE)
               = test_core_out) by (vm_compute; reflexivity).
  assert (H1 : In (Call (c_mdelay 5000) 0) (trace (final test_core_out)))
    by (vm_compute; tauto).
  destruct (suspend_enter_test_points env_ok PM_SUSPEND_MEM false
              (boot TEST_CORE) (trace (final test_core_out))
              (final_trace _ _ _ H0 eq_refl) H1)
    as (w' & s' & Hr & Hs & _).
  split; [ exact H1 | ].
  split; [ reflexivity | ].
  split; [ exact Hs | ].
  exists w', s'. exact Hr.
Defined.

Lemma suspend_enter_stops_witness :
  suspend_enter env_ok PM_SUSPEND_FREEZE false (boot TEST_NONE)
    = Stop Blocked (final freeze_enter_out) /\
  suspend_freeze_wake (final freeze_enter_out) = false.
Proof.
  assert (H0 : suspend_enter env_ok PM_SUSPEND_FREEZE false (boot TEST_NONE)
               = Stop Blocked (final freeze_enter_out))
    by (vm_compute; reflexivity).
  destruct (proj1 (suspend_enter_stops env_ok PM_SUSPEND_FREEZE false
                     (boot TEST_NONE)) Blocked (final freeze_enter_out) H0)
    as [(_ & _ & Hf & _) | (Hw & _)]; [ | discriminate Hw ].
  split; [ exact H0 | exact Hf ].
Defined.

Lemma suspend_devices_and_enter_undoes_witness :
  suspend_devices_and_enter env_ok 2 PM_SUSPEND_MEM (boot TEST_NONE)
    = Ret 0 (final retry_out) /\
  device_balanced PM_SUSPEND_MEM (boot TEST_NONE) (trace (final retry_out)) /\
  enter_balanced PM_SUSPEND_MEM (boot TEST_NONE) (trace (final retry_out)).
Proof.
  assert (H1 : suspend_devices_and_enter env_ok 2 PM_SUSPEND_MEM
                 (boot TEST_NONE) = Ret 0 (final retry_out))
    by (vm_compute; reflexivity).
  destruct (suspend_devices_and_enter_undoes env_ok 2 PM_SUSPEND_MEM
              (boot TEST_NONE) 0 (final retry_out) (trace (final retry_out))
              H1 (trace_from_boot retry_out TEST_NONE)) as (Hd & He & _).
  split; [ exact H1 | split; [ exact Hd | exact He ] ].
Defined.

Lemma suspend_devices_and_enter_globals_witness :
  suspend_devices_and_enter env_ok 2 PM_SUSPEND_MEM (boot TEST_NONE)
    = Ret 0 (final retry_out) /\
  In (Call c_del_timer 0) (trace (final retry_out)) /\
  pm_stay_unattended_period (final retry_out) = 0 /\
  g_resume_status (final retry_out) = true.
Proof.
  assert (H1 : suspend_devices_and_enter env_ok 2 PM_SUSPEND_MEM
                 (boot TEST_NONE) = Ret 0 (final retry_out))
    by (vm_compute; reflexivity).
  assert (H2 : In (Call c_del_timer 0) (trace (final retry_out)))
    by (vm_compute; tauto).
  destruct (suspend_devices_and_enter_globals env_ok 2 PM_SUSPEND_MEM
              (boot TEST_NONE) 0 (final retry_out) (trace (final retry_out))
              H1 (trace_from_boot retry_out TEST_NONE)) as (Hd & _).
  destruct (Hd H2) as (Hs & Hg & _).
  split; [ exact H1 | ].
  split; [ exact H2 | ].
  split; [ exact Hs | exact Hg ].
Defined.

Lemma pm_suspend_never_crashes_witness :
  pm_suspend env_ok 0 PM_SUSPEND_FREEZE (boot TEST_NONE)
    = Stop Blocked (final asleep_out) /\
  pm_mutex (final asleep_out) = true /\
  suspend_freeze_wake (final asleep_out) = false.
Proof.
  assert (H0 : pm_suspend env_ok 0 PM_SUSPEND_FREEZE (boot TEST_NONE)
               = Stop Blocked (final asleep_out))
    by (vm_compute; reflexivity).
  destruct (proj1 (pm_suspend_never_crashes env_ok 0 PM_SUSPEND_FREEZE
                     (boot TEST_NONE)) Blocked (final asleep_out) H0)
    as (Hm & [(_ & _ & Hf & _) | (Hw & _)]); [ | discriminate Hw ].
  split; [ exact H0 | split; [ exact Hm | exact Hf ] ].
Defined.

Lemma pm_suspend_undoes_everything_witness :
  pm_suspend env_ok 2 PM_SUSPEND_MEM (boot TEST_NONE)
    = Ret 0 (final suspend_out) /\
  pm_mutex (final suspend_out) = pm_mutex (boot TEST_NONE) /\
  attempt_balanced (trace (final suspend_out)).
Proof.
  assert (H1 : pm_suspend env_ok 2 PM_SUSPEND_MEM (boot TEST_NONE)
               = Ret 0 (final suspend_out)) by (vm_compute; reflexivity).
  destruct (pm_suspend_undoes_everything env_ok 2 PM_SUSPEND_MEM
              (boot TEST_NONE) 0 (final suspend_out)
              (trace (final suspend_out)) H1
              (trace_from_boot suspend_out TEST_NONE)) as (Hm & _ & Ha & _).
  split; [ exact H1 | split; [ exact Hm | exact Ha ] ].
Defined.

Lemma pm_suspend_tests_or_sleeps_witness :
  tests_off env_ok (boot TEST_DEVICES) = false /\
  existsb sleep_event (trace (final test_devices_out)) = false.
Proof.
  assert (H0 : pm_suspend env_ok 0 PM_SUSPEND_MEM (boot TEST_DEVICES)
               = test_devices_out) by (vm_compute; reflexivity).
  destruct (pm_suspend_tests_or_sleeps env_ok 0 PM_SUSPEND_MEM
              (boot TEST_DEVICES) (trace (final test_devices_out))
              (final_trace _ _ _ H0 eq_refl)) as (_ & Hs).
  assert (H1 : tests_off env_ok (boot TEST_DEVICES) = false) by reflexivity.
  split; [ exact H1 | exact (proj1 (Hs H1)) ].
Defined.

Lemma pm_suspend_records_failures_witness :
  PM_SUSPEND_ON < PM_SUSPEND_MEM < PM_SUSPEND_MAX /\
  pm_suspend env_freeze_fails 0 PM_SUSPEND_MEM (boot TEST_NONE)
    = Ret (- EBUSY) (final not_frozen_out) /\
  existsb freeze_failed (trace (final not_frozen_out)) = true /\
  failed_freeze (suspend_stats (final not_frozen_out))
    = failed_freeze (suspend_stats (boot TEST_NONE)) + 1 /\
  In (Call c_dpm_save_failed_step 0) (trace (final not_frozen_out)).
Proof.
  assert (H0 : PM_SUSPEND_ON < PM_SUSPEND_MEM < PM_SUSPEND_MAX)
    by (unfold PM_SUSPEND_ON, PM_SUSPEND_MEM, PM_SUSPEND_MAX; lia).
  assert (H1 : pm_suspend env_freeze_fails 0 PM_SUSPEND_MEM (boot TEST_NONE)
               = Ret (- EBUSY) (final not_frozen_out))
    by (vm_compute; reflexivity).
  assert (H2 : existsb freeze_failed (trace (final not_frozen_out)) = true)
    by (vm_compute; reflexivity).
  destruct (pm_suspend_records_failures env_freeze_fails 0 PM_SUSPEND_MEM
              (boot TEST_NONE) (- EBUSY) (final not_frozen_out)
              (trace (final not_frozen_out)) H0 H1
              (trace_from_boot not_frozen_out TEST_NONE))
    as (_ & Hff & Hfail & _).
  rewrite H2 in Hff.
  destruct (Hfail H2) as (_ & _ & Hstep & _).
  split; [ exact H0 | ].
  split; [ exact H1 | ].
  split; [ exact H2 | ].
  split; [ exact Hff | exact Hstep ].
Defined.

Lemma test_freezer_stops_after_prepare_witness :
  test_active env_ok (boot TEST_FREEZER) TEST_FREEZER = true /\
  In (Leave f_suspend_prepare 0) (trace (final test_freezer_out)) /\
  exists s',
    pm_suspend env_ok 0 PM_SUSPEND_MEM (boot TEST_FREEZER) = Ret 0 s' /\
    suspend_stats s' = incr_success (suspend_stats (boot TEST_FREEZER)) /\
    ~ In (Enter f_suspend_devices_and_enter) (trace (final test_freezer_out)).
Proof.
  assert (H0 : pm_suspend env_ok 0 PM_SUSPEND_MEM (boot TEST_FREEZER)
               = test_freezer_out) by (vm_compute; reflexivity).
  assert (H1 : In (Leave f_suspend_prepare 0)
                 (trace (final test_freezer_out))) by (vm_compute; tauto).
  destruct (test_freezer_stops_after_prepare env_ok 0 PM_SUSPEND_MEM
              (boot TEST_FREEZER) (trace (final test_freezer_out)) eq_refl
              (final_trace _ _ _ H0 eq_refl) H1)
    as (s' & n & v & Hr & Hs & _ & Hno & _).
  split; [ reflexivity | ].
  split; [ exact H1 | ].
  exists s'. split; [ exact Hr | split; [ exact Hs | exact Hno ] ].
Defined.

Lemma pm_suspend_driver_without_enter_witness :
  need_suspend_ops PM_SUSPEND_MEM = true /\
  has_enter boot_no_enter = false /\
  In (Call c_mutex_trylock 1) (trace (final no_enter_out)) /\
  exists s',
    pm_suspend env_ok 0 PM_SUSPEND_MEM boot_no_enter = Ret (- EPERM) s' /\
    suspend_stats s' = incr_fail (suspend_stats boot_no_enter) /\
    pm_mutex s' = false.
Proof.
  assert (H0 : pm_suspend env_ok 0 PM_SUSPEND_MEM boot_no_enter
               = no_enter_out) by (vm_compute; reflexivity).
  assert (H1 : In (Call c_mutex_trylock 1) (trace (final no_enter_out)))
    by (vm_compute; tauto).
  destruct (pm_suspend_driver_without_enter env_ok 0 PM_SUSPEND_MEM
              boot_no_enter (trace (final no_enter_out)) eq_refl eq_refl
              (final_trace _ _ _ H0 eq_refl) H1)
    as (s' & v & Hr & Hs & Hm & _).
  split; [ reflexivity | ].
  split; [ reflexivity | ].
  split; [ exact H1 | ].
  exists s'. split; [ exact Hr | split; [ exact Hs | exact Hm ] ].
Defined.

Lemma device_phase_is_bracketed_witness :
  pm_suspend env_ok 2 PM_SUSPEND_MEM (boot TEST_NONE)
    = Ret 0 (final suspend_out) /\
  In (Enter f_suspend_devices_and_enter) (trace (final suspend_out)) /\
  pm_mutex (final suspend_out) = false /\
  g_keycheck_abort (final suspend_out) = 0.
Proof.
  assert (H1 : pm_suspend env_ok 2 PM_SUSPEND_MEM (boot TEST_NONE)
               = Ret 0 (final suspend_out)) by (vm_compute; reflexivity).
  assert (H2 : In (Enter f_suspend_devices_and_enter)
                 (trace (final suspend_out))) by (vm_compute; tauto).
  destruct (device_phase_is_bracketed env_ok 2 PM_SUSPEND_MEM
              (boot TEST_NONE) 0 (final suspend_out)
              (trace (final suspend_out)) H1
              (trace_from_boot suspend_out TEST_NONE) H2)
    as (_ & Hm & Hk & _).
  split; [ exact H1 | ].
  split; [ exact H2 | split; [ exact Hm | exact Hk ] ].
Defined.

Lemma freeze_never_asks_driver_witness :
  pm_suspend env_ok 0 PM_SUSPEND_FREEZE (boot TEST_NONE)
    = Stop Blocked (final asleep_out) /\
  existsb is_ops_call (trace (final asleep_out)) = false.
Proof.
  assert (H0 : pm_suspend env_ok 0 PM_SUSPEND_FREEZE (boot TEST_NONE)
               = Stop Blocked (final asleep_out))
    by (vm_compute; reflexivity).
  split; [ exact H0 | ].
  exact (proj2 (freeze_never_asks_driver env_ok 0 (boot TEST_NONE))
           (trace (final asleep_out)) (final_trace _ _ _ H0 eq_refl)).
Defined.
